(** * Subscription checklists: reconciliation and sheet synchronisation

    A shallow embedding of the subscription reconciliation scripts
    ([sharepoint_excel_update.py], [enhanced_data_fetcher.py]) and the
    properties their specification states about them.

    Conventions.
    - Python [int] is [Z]; [//] and [%] with a positive divisor are [Z.div]
      and [Z.modulo] (both floor).
    - Python [str] is [string] (a sequence of bytes; the Polish labels are
      their UTF-8 encodings).  Where the code calls a string method of the
      runtime whose result depends on the Unicode tables ([str.strip],
      [str.isdigit], [int]), the method is a parameter of the model.
    - A function that can raise returns [result]; [Raise e] is the exception
      escaping the call.
    - A cell of a pandas DataFrame that can be NaN/None/NaT is an [option] or
      a constructor of the cell type of its column. *)

From Stdlib Require Import ZArith List String Ascii Bool Lia.
From Stdlib Require Import Numbers.DecimalString DecimalZ DecimalPos QArith.
Import ListNotations.

Open Scope string_scope.
Open Scope Z_scope.

(** ** Python values shared by the modules *)

(** The exceptions the modelled code can raise. *)
Inductive exn : Type :=
| ValueError
| TypeError
| IndexError
| KeyError
| JSONDecodeError
| AttributeError.

Inductive result (A : Type) : Type :=
| Return (a : A)
| Raise (e : exn).

Arguments Return {A} a.
Arguments Raise {A} e.

Definition bind {A B : Type} (r : result A) (k : A -> result B) : result B :=
  match r with
  | Return a => k a
  | Raise e => Raise e
  end.

Notation "x <- r ;; k" := (bind r (fun x => k))
  (at level 61, r at next level, right associativity).

Definition returns {A : Type} (r : result A) : Prop :=
  exists a, r = Return a.

(** [str(n)] for an integer. *)
Definition py_str (n : Z) : string := NilZero.string_of_int (Z.to_int n).

(** [chr(n)] for a code point below 256. *)
Definition chr (n : Z) : ascii := ascii_of_nat (Z.to_nat n).

(** [ord(c)]. *)
Definition ord (c : ascii) : Z := Z.of_nat (nat_of_ascii c).

(** ** SheetSyncWriter: range computation *)

Module Sheet.

(** [get_column_letter]: the [while col_num > 0] loop.  Each iteration
    strictly decreases [col_num], so [Z.to_nat col_num] iterations are
    enough; [get_column_letter_fuel] shows the fuel never runs out. *)
Fixpoint get_column_letter_loop (fuel : nat) (col_num : Z) (result : string)
  : string :=
  match fuel with
  | O => result
  | S fuel' =>
      if 0 <? col_num then
        let col_num := col_num - 1 in
        let result := String (chr (col_num mod 26 + ord "A")) result in
        let col_num := col_num / 26 in
        get_column_letter_loop fuel' col_num result
      else result
  end.

Definition get_column_letter (col_num : Z) : string :=
  get_column_letter_loop (Z.to_nat col_num) col_num "".

(** [s.split(':')]. *)
Fixpoint split_colon_aux (cur : string) (s : string) : list string :=
  match s with
  | EmptyString => [cur]
  | String c s' =>
      if Ascii.eqb c ":" then cur :: split_colon_aux "" s'
      else split_colon_aux (cur ++ String c "") s'
  end.

Definition split_colon (s : string) : list string := split_colon_aux "" s.

(** [l[i]] on a Python list. *)
Definition py_index {A : Type} (l : list A) (i : nat) : result A :=
  match nth_error l i with
  | Some a => Return a
  | None => Raise IndexError
  end.

(** The address [clear_excel_worksheet] clears.  [column_range] is [None]
    for the default argument; an empty string is falsy as well. *)
Definition clear_range (column_range : option string) : result string :=
  match column_range with
  | Some cr =>
      if String.eqb cr "" then Return "2:15000"
      else
        start_col <- py_index (split_colon cr) 0 ;;
        end_col <- py_index (split_colon cr) 1 ;;
        Return (start_col ++ "2:" ++ end_col ++ "15000")
  | None => Return "2:15000"
  end.

Definition subscriptions_sheet_name : string := "Subskrypcje klientów".

(** The column span [update_excel_worksheet_directly] asks to clear. *)
Definition clear_columns (worksheet_name : string) : option string :=
  if String.eqb worksheet_name subscriptions_sheet_name then Some "C:U"
  else None.

(** The address [update_excel_worksheet_directly] writes to, for a frame of
    [num_rows] rows and [num_cols] columns. *)
Definition range_address (worksheet_name : string) (num_rows num_cols : Z)
  (start_column : string) : string :=
  if String.eqb worksheet_name subscriptions_sheet_name then
    let start_col_num := 3 in
    let end_col_num := start_col_num + num_cols - 1 in
    let start_col_letter := get_column_letter start_col_num in
    let end_col_letter := get_column_letter end_col_num in
    start_col_letter ++ "2:" ++ end_col_letter ++ py_str (num_rows + 1)
  else
    let end_col := get_column_letter num_cols in
    start_column ++ "2:" ++ end_col ++ py_str (num_rows + 1).

(** The range requests of one [update_excel_worksheet_directly] call, in
    order: the clear, then the write unless the frame is empty. *)
Inductive request : Type :=
| Clear (address : string)
| Patch (address : string).

Definition update_excel_worksheet_directly (worksheet_name : string)
  (num_rows num_cols : Z) (start_column : string) : result (list request) :=
  addr <- clear_range (clear_columns worksheet_name) ;;
  if num_rows =? 0 then Return [Clear addr]
  else Return [Clear addr;
               Patch (range_address worksheet_name num_rows num_cols
                        start_column)].

(** A1 notation, as the specification reads it: the rectangle from column
    [c1], row [r1] to column [c2], row [r2], columns in bijective base 26. *)
Definition is_letter (c : ascii) : bool :=
  (ord "A" <=? ord c) && (ord c <=? ord "Z").

Fixpoint letters (s : string) : bool :=
  match s with
  | EmptyString => true
  | String c s' => is_letter c && letters s'
  end.

(** The value of a column name: digits A=1 .. Z=26, most significant
    first. *)
Fixpoint column_index_from (acc : Z) (s : string) : Z :=
  match s with
  | EmptyString => acc
  | String c s' => column_index_from (acc * 26 + (ord c - ord "A" + 1)) s'
  end.

Definition column_index (s : string) : Z := column_index_from 0 s.

Definition a1_range (c1 r1 c2 r2 : Z) : string :=
  get_column_letter c1 ++ py_str r1 ++ ":" ++
  get_column_letter c2 ++ py_str r2.

End Sheet.

(** ** Dates *)

Module Dates.

(** A naive [datetime.datetime] (a pandas [Timestamp] after
    [to_pydatetime]). *)
Record datetime : Type := mk_datetime {
  year : Z; month : Z; day : Z;
  hour : Z; minute : Z; second : Z; microsecond : Z
}.

Definition is_leap (y : Z) : bool :=
  (y mod 4 =? 0) && (negb (y mod 100 =? 0) || (y mod 400 =? 0)).

Definition days_in_month (y m : Z) : Z :=
  if m =? 2 then (if is_leap y then 29 else 28)
  else if (m =? 4) || (m =? 6) || (m =? 9) || (m =? 11) then 30
  else 31.

(** The constructor call [datetime(y, m, d)]: midnight of the day, or
    [ValueError] when a field is out of range. *)
Definition dt (y m d : Z) : result datetime :=
  if negb ((1 <=? y) && (y <=? 9999)) then Raise ValueError
  else if negb ((1 <=? m) && (m <=? 12)) then Raise ValueError
  else if negb ((1 <=? d) && (d <=? days_in_month y m)) then Raise ValueError
  else Return (mk_datetime y m d 0 0 0 0).

(** Comparison of naive datetimes is lexicographic on the fields. *)
Definition fields (t : datetime) : list Z :=
  [year t; month t; day t; hour t; minute t; second t; microsecond t].

Fixpoint lex_compare (a b : list Z) : comparison :=
  match a, b with
  | [], [] => Eq
  | [], _ :: _ => Lt
  | _ :: _, [] => Gt
  | x :: a', y :: b' =>
      match x ?= y with
      | Eq => lex_compare a' b'
      | c => c
      end
  end.

Definition dt_compare (a b : datetime) : comparison :=
  lex_compare (fields a) (fields b).

(** [a > b], [a >= b], [a <= b]. *)
Definition dt_gt (a b : datetime) : bool :=
  match dt_compare a b with Gt => true | _ => false end.

Definition dt_ge (a b : datetime) : bool :=
  match dt_compare a b with Lt => false | _ => true end.

Definition dt_le (a b : datetime) : bool :=
  match dt_compare a b with Gt => false | _ => true end.

(** A value found in a DataFrame cell or a Series entry. *)
Inductive cell : Type :=
| NaN                        (* None, NaN, NaT: [pd.isna] holds *)
| Str (s : string)
| Num (n : Z)
| Timestamp (t : datetime)   (* pandas Timestamp: has [to_pydatetime] *)
| Datetime (t : datetime).   (* [datetime.datetime] *)

(** A row handed to [DataFrame.apply(..., axis=1)]: a Series from column
    name to cell. *)
Definition row : Type := list (string * cell).

Fixpoint lookup (k : string) (r : row) : option cell :=
  match r with
  | [] => None
  | (k', c) :: r' => if String.eqb k k' then Some c else lookup k r'
  end.

(** [row.get(k)]: [None] for a missing column. *)
Definition row_get (r : row) (k : string) : cell :=
  match lookup k r with
  | Some c => c
  | None => NaN
  end.

(** [row[k]]: [KeyError] for a missing column. *)
Definition row_item (r : row) (k : string) : result cell :=
  match lookup k r with
  | Some c => Return c
  | None => Raise KeyError
  end.

(** [pd.isna(c) or c == '']. *)
Definition is_blank (c : cell) : bool :=
  match c with
  | NaN => true
  | Str s => String.eqb s ""
  | _ => false
  end.

(** [c == s] for a string literal [s]. *)
Definition cell_is (c : cell) (s : string) : bool :=
  match c with
  | Str s' => String.eqb s' s
  | _ => false
  end.

(** [c > now] and [c <= now] against a [datetime]; any other operand than
    a date is a [TypeError]. *)
Definition cell_gt (c : cell) (now : datetime) : result bool :=
  match c with
  | Datetime t | Timestamp t => Return (dt_gt t now)
  | _ => Raise TypeError
  end.

Definition cell_le (c : cell) (now : datetime) : result bool :=
  match c with
  | Datetime t | Timestamp t => Return (dt_le t now)
  | _ => Raise TypeError
  end.

Definition is_digit (c : ascii) : bool :=
  (ord "0" <=? ord c) && (ord c <=? ord "9").

Fixpoint all_digits (s : string) : bool :=
  match s with
  | EmptyString => true
  | String c s' => is_digit c && all_digits s'
  end.

(** [int(s)] on a string of ASCII digits, most significant first. *)
Fixpoint int_of_digits (acc : Z) (s : string) : Z :=
  match s with
  | EmptyString => acc
  | String c s' => int_of_digits (acc * 10 + (ord c - ord "0")) s'
  end.

(** A parser for the two fixed-width forms [YYYY-MM-DD HH:MM:SS] and
    [YYYY-MM-DD], one instance of [strptime] for the two formats
    [calculate_status3] tries. *)
Definition field (s : string) (start len : nat) : option Z :=
  let f := substring start len s in
  if (Nat.eqb (String.length f) len) && all_digits f
  then Some (int_of_digits 0 f) else None.

Definition sep (s : string) (i : nat) (c : ascii) : bool :=
  match String.get i s with
  | Some c' => Ascii.eqb c' c
  | None => false
  end.

Definition parse_date (s : string) : option datetime :=
  match field s 0 4, field s 5 2, field s 8 2 with
  | Some y, Some m, Some d =>
      if sep s 4 "-" && sep s 7 "-" then
        match dt y m d with
        | Return t => Some t
        | Raise _ => None
        end
      else None
  | _, _, _ => None
  end.

Definition strptime_fixed (s fmt : string) : option datetime :=
  if String.eqb fmt "%Y-%m-%d" then
    if Nat.eqb (String.length s) 10 then parse_date s else None
  else if String.eqb fmt "%Y-%m-%d %H:%M:%S" then
    if Nat.eqb (String.length s) 19 then
      match parse_date s, field s 11 2, field s 14 2, field s 17 2 with
      | Some t, Some h, Some mi, Some se =>
          if sep s 10 " " && sep s 13 ":" && sep s 16 ":"
             && (h <=? 23) && (mi <=? 59) && (se <=? 59)
          then Some (mk_datetime (year t) (month t) (day t) h mi se 0)
          else None
      | _, _, _, _ => None
      end
    else None
  else None.

End Dates.

(** ** TemporalRulesEngine: lifecycle state *)

Module Status3.
Import Dates.

Section WithStrptime.

(** [datetime.strptime(s, fmt)], [None] when it raises [ValueError]. *)
Variable strptime : string -> string -> option datetime.

(** The conversion block of [calculate_status3]: the expiration cell and
    the blank flag after it. *)
Definition convert_expiration (expiration_date : cell)
  (expiration_date_is_blank : bool) : cell * bool :=
  if negb expiration_date_is_blank then
    match expiration_date with
    | Timestamp t => (Datetime t, expiration_date_is_blank)
    | Str s =>
        match strptime s "%Y-%m-%d %H:%M:%S" with
        | Some t => (Datetime t, expiration_date_is_blank)
        | None =>
            match strptime s "%Y-%m-%d" with
            | Some t => (Datetime t, expiration_date_is_blank)
            | None => (expiration_date, true)
            end
        end
    | _ => (expiration_date, expiration_date_is_blank)
    end
  else (expiration_date, expiration_date_is_blank).

(** [calculate_status3(row)], with [dt.now()] as [current_datetime]. *)
Definition calculate_status3 (current_datetime : datetime) (r : row)
  : result string :=
  let expiration_date := row_get r "Data wygaśnięcia" in
  let subscription_client_id := row_get r "ID Subskrypcji Klienta" in
  if is_blank subscription_client_id then Return "Nieokreślony"
  else
    let expiration_date_is_blank := is_blank expiration_date in
    let '(expiration_date, expiration_date_is_blank) :=
      convert_expiration expiration_date expiration_date_is_blank in
    c1 <- (if negb expiration_date_is_blank
           then cell_gt expiration_date current_datetime
           else Return false) ;;
    if c1 then Return "Anulowana (aktywna)"
    else
      c2 <- (if expiration_date_is_blank then Return true
             else cell_gt expiration_date current_datetime) ;;
      if c2 then Return "Aktywna"
      else
        c3 <- (if negb expiration_date_is_blank
               then cell_le expiration_date current_datetime
               else Return false) ;;
        if c3 then Return "Anulowana"
        else Return "Nieokreślony".

(** The specification's reading of a row: whether the customer-subscription
    identity is present, and the expiration date if there is one.  A cell
    that is neither blank, a date nor a string has no reading: comparing it
    with [now] is a [TypeError]. *)
Definition identity_present (r : row) : bool :=
  negb (is_blank (row_get r "ID Subskrypcji Klienta")).

Definition expiration_of (c : cell) : result (option datetime) :=
  match c with
  | NaN => Return None
  | Str s =>
      if String.eqb s "" then Return None
      else
        match strptime s "%Y-%m-%d %H:%M:%S" with
        | Some t => Return (Some t)
        | None => Return (strptime s "%Y-%m-%d")
        end
  | Timestamp t | Datetime t => Return (Some t)
  | Num _ => Raise TypeError
  end.

End WithStrptime.

(** The specification's lifecycle states and their labels. *)
Inductive lifecycle : Type :=
| Undetermined
| CanceledActive
| Active
| Canceled.

Definition label (l : lifecycle) : string :=
  match l with
  | Undetermined => "Nieokreślony"
  | CanceledActive => "Anulowana (aktywna)"
  | Active => "Aktywna"
  | Canceled => "Anulowana"
  end.

Definition in_future (expiration : option datetime) (now : datetime) : bool :=
  match expiration with
  | Some e => dt_gt e now
  | None => false
  end.

Definition present (expiration : option datetime) : bool :=
  match expiration with
  | Some _ => true
  | None => false
  end.

(** The ordered branches of the specification, first match wins. *)
Definition lifecycle_state (identity : bool) (expiration : option datetime)
  (now : datetime) : lifecycle :=
  if negb identity then Undetermined
  else if identity && present expiration && in_future expiration now
  then CanceledActive
  else if identity && (negb (present expiration) || in_future expiration now)
  then Active
  else if present expiration && negb (in_future expiration now)
  then Canceled
  else Undetermined.

(** A sample value of [dt.now()]. *)
Definition noon : datetime := mk_datetime 2026 11 3 12 0 0 0.

End Status3.

(** ** TemporalRulesEngine: invoice status *)

Module Invoices.
Import Dates.

(** A row of the Stripe invoice frame, with the columns the status
    functions read.  [Data Utworzenia] comes from a Unix timestamp and is
    never NaT; the other two may be null in the payments API. *)
Record invoice : Type := mk_invoice {
  ID_Subskrypcji : cell;
  Data_Utworzenia : datetime;
  Status_Faktury : cell
}.

(** Elementwise [==] of an object column against a scalar: a null equals
    nothing. *)
Definition cell_eqb (a b : cell) : bool :=
  match a, b with
  | Str x, Str y => String.eqb x y
  | Num x, Num y => x =? y
  | _, _ => false
  end.

(** [filtered.iloc[0]['Status Faktury']] when the selection is not empty,
    the empty string otherwise. *)
Definition first_status (filtered : list invoice) : cell :=
  match filtered with
  | i :: _ => Status_Faktury i
  | [] => Str ""
  end.

(** [config['date_settings']['invoice_status_chosen_month']]. *)
Record chosen_month_config : Type := mk_chosen_month_config {
  cm_month : Z;
  cm_year : Z;
  cm_yearly_subscription_start_year : Z
}.

Definition calculate_invoice_status_chosen_month (r : row)
  (invoices_df : list invoice) (config_data : chosen_month_config)
  : result cell :=
  stripe <- row_item r "ID Suba STRIPE" ;;
  if is_blank stripe then Return (Str "Nie można określić")
  else
    let chosen_month := cm_month config_data in
    let chosen_year := cm_year config_data in
    let yearly_start_year := cm_yearly_subscription_start_year config_data in
    let subscription_id := stripe in
    package_type <- row_item r "Typ pakietu" ;;
    if cell_is package_type "miesięczny" then
      let filtered_invoices :=
        filter (fun i =>
                  cell_eqb (ID_Subskrypcji i) subscription_id
                  && (month (Data_Utworzenia i) =? chosen_month)
                  && (year (Data_Utworzenia i) =? chosen_year))
               invoices_df in
      Return (first_status filtered_invoices)
    else if cell_is package_type "roczny" then
      start_date <- dt yearly_start_year chosen_month 1 ;;
      end_date <- dt chosen_year chosen_month 30 ;;
      let filtered_invoices :=
        filter (fun i =>
                  cell_eqb (ID_Subskrypcji i) subscription_id
                  && dt_ge (Data_Utworzenia i) start_date
                  && dt_le (Data_Utworzenia i) end_date)
               invoices_df in
      Return (first_status filtered_invoices)
    else Return (Str "").

(** [config['date_settings']['invoice_status_last_2_months']]. *)
Record last_2_months_config : Type := mk_last_2_months_config {
  l2_month1 : Z;
  l2_month2 : Z;
  l2_year : Z;
  l2_yearly_subscription_start_year : Z
}.

(** ["paid" if not filtered_invoices.empty else ""]. *)
Definition paid_if_any (filtered : list invoice) : cell :=
  match filtered with
  | _ :: _ => Str "paid"
  | [] => Str ""
  end.

Definition calculate_invoice_status_last_2_months (r : row)
  (invoices_df : list invoice) (config_data : last_2_months_config)
  : result cell :=
  stripe <- row_item r "ID Suba STRIPE" ;;
  if is_blank stripe then Return (Str "Nie można określić")
  else
    let month1 := l2_month1 config_data in
    let month2 := l2_month2 config_data in
    let year := l2_year config_data in
    let yearly_start_year := l2_yearly_subscription_start_year config_data in
    let subscription_id := stripe in
    package_type <- row_item r "Typ pakietu" ;;
    if cell_is package_type "miesięczny" then
      start_date <- dt year month1 1 ;;
      end_date <- dt year month2 31 ;;
      let filtered_invoices :=
        filter (fun i =>
                  cell_eqb (ID_Subskrypcji i) subscription_id
                  && dt_ge (Data_Utworzenia i) start_date
                  && dt_le (Data_Utworzenia i) end_date
                  && cell_is (Status_Faktury i) "paid")
               invoices_df in
      Return (paid_if_any filtered_invoices)
    else if cell_is package_type "roczny" then
      start_date <- dt yearly_start_year month2 1 ;;
      end_date <- dt year month2 31 ;;
      let filtered_invoices :=
        filter (fun i =>
                  cell_eqb (ID_Subskrypcji i) subscription_id
                  && dt_ge (Data_Utworzenia i) start_date
                  && dt_le (Data_Utworzenia i) end_date
                  && cell_is (Status_Faktury i) "paid")
               invoices_df in
      Return (paid_if_any filtered_invoices)
    else Return (Str "").

(** The same two functions in [enhanced_data_fetcher.py]: the window comes
    from keyword arguments (defaults June and July 2025) and the yearly
    window starts in 2024. *)
Module Enhanced.

Definition calculate_invoice_status_chosen_month (r : row)
  (invoices_df : list invoice) (chosen_month chosen_year : Z) : result cell :=
  Invoices.calculate_invoice_status_chosen_month r invoices_df
    (mk_chosen_month_config chosen_month chosen_year 2024).

Definition calculate_invoice_status_last_2_months (r : row)
  (invoices_df : list invoice) (month1 month2 year : Z) : result cell :=
  Invoices.calculate_invoice_status_last_2_months r invoices_df
    (mk_last_2_months_config month1 month2 year 2024).

Definition default_chosen_month : Z := 6.
Definition default_chosen_year : Z := 2025.
Definition default_month1 : Z := 6.
Definition default_month2 : Z := 7.
Definition default_year : Z := 2025.

End Enhanced.

(** The rows the claims speak about: a payment-subscription reference is
    present, and the plan type is the given label. *)
Definition has_stripe_reference (r : row) : Prop :=
  exists c, row_item r "ID Suba STRIPE" = Return c /\ is_blank c = false.

Definition has_plan_type (r : row) (l : string) : Prop :=
  exists c, row_item r "Typ pakietu" = Return c /\ cell_is c l = true.

Definition has_31_days (m : Z) : Prop :=
  In m [1; 3; 5; 7; 8; 10; 12].

Definition has_fewer_days (m : Z) : Prop :=
  In m [2; 4; 6; 9; 11].

Definition valid_year (y : Z) : Prop := 1 <= y <= 9999.

(** The invoices of subscription [sid] created in the closed interval
    [[s, e]], in table order. *)
Definition in_window (sid : cell) (s e : datetime) (i : invoice) : bool :=
  cell_eqb (ID_Subskrypcji i) sid
  && dt_ge (Data_Utworzenia i) s
  && dt_le (Data_Utworzenia i) e.

(** Sample data: a yearly row, and invoices on days 30 and 31 of July. *)
Definition yearly_row : row :=
  [("ID Suba STRIPE", Str "sub_1"); ("Typ pakietu", Str "roczny")].

Definition monthly_row : row :=
  [("ID Suba STRIPE", Str "sub_1"); ("Typ pakietu", Str "miesięczny")].

Definition invoice_on (y m d : Z) (status : string) : invoice :=
  mk_invoice (Str "sub_1") (mk_datetime y m d 0 0 0 0) (Str status).

End Invoices.

(** ** Tax identifier (NIP) normalisation *)

Module Nip.

(** A JSON value of the CRM task detail.  A float is a rational; [nan] and
    the infinities are not JSON. *)
#[warnings="-register-all"] Inductive json : Type :=
| JNull
| JBool (b : bool)
| JInt (n : Z)
| JFloat (q : Q)
| JStr (s : string)
| JList (l : list json)
| JDict (d : list (string * json)).

Fixpoint dict_get (d : list (string * json)) (k : string) : option json :=
  match d with
  | [] => None
  | (k', v) :: d' => if String.eqb k k' then Some v else dict_get d' k
  end.

(** [int(x)] on a float truncates toward zero. *)
Definition int_of_float (q : Q) : Z := Z.quot (Qnum q) (Z.pos (Qden q)).

(** [s.zfill(width)]: zeros on the left, after a sign if there is one. *)
Fixpoint zeros (n : nat) : string :=
  match n with
  | O => ""
  | S n' => String "0" (zeros n')
  end.

Definition zfill (width : nat) (s : string) : string :=
  let pad := zeros (width - String.length s) in
  match s with
  | String c s' =>
      if Ascii.eqb c "+" || Ascii.eqb c "-" then String c (pad ++ s')
      else pad ++ s
  | EmptyString => pad
  end.

(** The numeric branch of [extract_client_nip]. *)
Definition pad_nip (n : Z) : string :=
  let nip_str := py_str n in
  if (String.length nip_str <? 10)%nat then zfill 10 nip_str else nip_str.

(** [extract_client_nip(task)] for a task that is a JSON object.  No
    operation in the [try] block raises on such a task, so the handler is
    never entered. *)
Definition extract_client_nip (task : list (string * json)) : string :=
  match dict_get task "client" with
  | Some (JDict client) =>
      match dict_get client "company" with
      | Some (JDict company) =>
          let nip := match dict_get company "nip" with
                     | Some v => v
                     | None => JStr ""
                     end in
          match nip with
          | JInt n => if 0 <? n then pad_nip n else ""
          | JBool b => if b then pad_nip 1 else ""
          | JFloat q =>
              if Qlt_le_dec 0 q then pad_nip (int_of_float q) else ""
          | JStr s => if negb (String.eqb s "") then s else ""
          | _ => ""
          end
      | _ => ""
      end
  | _ => ""
  end.

(** A task whose client company carries the identifier [nip]. *)
Definition task_with_nip (nip : json) : list (string * json) :=
  [("_id", JStr "t1");
   ("client", JDict [("company", JDict [("nip", nip)])])].

(** A cell of the platform's [NIP] column: null, text, an integer or a
    float (pandas makes the column a float column when it holds numbers
    and nulls). *)
Inductive nip_cell : Type :=
| NipNaN
| NipStr (s : string)
| NipInt (n : Z)
| NipFloat (q : Q).

(** [str.isspace] on an ASCII character. *)
Definition is_space (c : ascii) : bool :=
  let n := ord c in
  ((9 <=? n) && (n <=? 13)) || ((28 <=? n) && (n <=? 32)).

Fixpoint lstrip (s : string) : string :=
  match s with
  | EmptyString => EmptyString
  | String c s' => if is_space c then lstrip s' else s
  end.

Fixpoint rstrip (s : string) : string :=
  match s with
  | EmptyString => EmptyString
  | String c s' =>
      let r := rstrip s' in
      if is_space c && String.eqb r "" then EmptyString else String c r
  end.

(** [s.strip()] on ASCII text. *)
Definition strip (s : string) : string := rstrip (lstrip s).

(** [s.isdigit()] on ASCII text. *)
Definition isdigit (s : string) : bool :=
  negb (String.eqb s "") && Dates.all_digits s.

(** [int(s)] on ASCII text. *)
Definition py_int (s : string) : result Z :=
  match NilZero.int_of_string s with
  | Some d => Return (Z.of_int d)
  | None => Raise ValueError
  end.

(** The operations of the Python runtime that [process_nip] calls on
    text: [str.strip], [str.isdigit] and [int], which follow the Unicode
    tables of the runtime ([int] raises [ValueError] on a digit it cannot
    read and on more digits than the runtime allows), and [str] of a
    float. *)
Record library : Type := mk_library {
  str_strip : string -> string;
  str_isdigit : string -> bool;
  int_of_str : string -> result Z;
  str_of_float : Q -> string
}.

(** [str(v)] on a cell that is not null. *)
Definition str_of (py : library) (v : nip_cell) : string :=
  match v with
  | NipNaN => "nan"
  | NipStr s => s
  | NipInt n => py_str n
  | NipFloat q => str_of_float py q
  end.

Definition process_nip (py : library) (nip_value : nip_cell)
  : result nip_cell :=
  match nip_value with
  | NipNaN => Return nip_value
  | NipStr "" => Return nip_value
  | _ =>
      let nip_str := str_strip py (str_of py nip_value) in
      if str_isdigit py nip_str then
        n <- int_of_str py nip_str ;; Return (NipInt n)
      else Return (NipStr nip_str)
  end.

(** The text contains the character [c]. *)
Fixpoint contains (c : ascii) (s : string) : bool :=
  match s with
  | EmptyString => false
  | String c' s' => Ascii.eqb c' c || contains c s'
  end.

(** Text made of ASCII characters only. *)
Fixpoint ascii_text (s : string) : bool :=
  match s with
  | EmptyString => true
  | String c s' => (ord c <? 128) && ascii_text s'
  end.

(** The default limit of the runtime on the digits [int] reads. *)
Definition max_str_digits : nat := 4300.

(** What the properties below use of the runtime: on ASCII text the
    three operations are the ASCII ones ([int] within the digit limit);
    stripping twice strips once; an integer read from digits is not
    negative and is read back from its own decimal text; and the text of a
    float is never made of digits only. *)
Record python (py : library) : Prop := mk_python {
  strip_ascii :
    forall s, ascii_text s = true -> str_strip py s = strip s;
  isdigit_ascii :
    forall s, ascii_text s = true -> str_isdigit py s = isdigit s;
  int_ascii :
    forall s, isdigit s = true ->
      (String.length s <= max_str_digits)%nat ->
      int_of_str py s = py_int s;
  strip_idempotent :
    forall s, str_strip py (str_strip py s) = str_strip py s;
  int_digits :
    forall s n, str_isdigit py s = true -> int_of_str py s = Return n ->
      0 <= n /\ int_of_str py (py_str n) = Return n;
  float_text :
    forall q, str_isdigit py (str_strip py (str_of_float py q)) = false
}.

(** The runtime restricted to ASCII text; a float is written as its
    integral part followed by [.0]. *)
Definition ascii_library : library :=
  mk_library strip isdigit py_int
    (fun q => py_str (int_of_float q) ++ ".0").

End Nip.

(** ** ReconciliationJoiner *)

Module Join.
Import Dates.

(** A customer-subscription record after [json_normalize], with the
    columns the script reads (dotted paths as field names). *)
Record user_subscription : Type := mk_user_subscription {
  us_id : Z;
  us_subscription_id : option Z;
  us_status : string;
  us_created_at : option string;
  us_ends_at : option string;
  us_canceled_at : option string;
  us_subscription_name : string;
  us_user_id : Z;
  us_user_name : string;
  us_user_surname : string;
  us_user_email : string;
  us_stripe_subscription_id : option string;
  us_tax_number : Nip.nip_cell;
  us_default_address_name : option string;
  us_default_phone_e164 : option string
}.

(** A plan-metadata record, reduced to [['id', 'price.recurring_interval']]. *)
Record subscription : Type := mk_subscription {
  sub_id : Z;
  sub_recurring_interval : option string
}.

(** A row of the merged frame: the left columns, then [id_y] and
    [price.recurring_interval] from the right, null without a match. *)
Record merged_row : Type := mk_merged_row {
  left : user_subscription;
  id_y : option Z;
  price_recurring_interval : option string
}.

Definition key_matches (u : user_subscription) (p : subscription) : bool :=
  match us_subscription_id u with
  | Some k => k =? sub_id p
  | None => false
  end.

(** The rows one left record contributes to [pd.merge(..., how='left')]:
    one per matching plan in the order of the right frame, or one with
    null right columns when no plan matches. *)
Definition merge_one (subscriptions_df : list subscription)
  (u : user_subscription) : list merged_row :=
  match filter (key_matches u) subscriptions_df with
  | [] => [mk_merged_row u None None]
  | ps => map (fun p => mk_merged_row u (Some (sub_id p))
                          (sub_recurring_interval p)) ps
  end.

Definition merge (users_subscriptions_df : list user_subscription)
  (subscriptions_df : list subscription) : list merged_row :=
  flat_map (merge_one subscriptions_df) users_subscriptions_df.

Definition excluded_subscription_ids : list Z :=
  [260; 231; 169; 157; 140; 92; 42; 9; 7].

Definition excluded_user_ids : list Z :=
  [9771; 9799; 10735; 9817; 100; 12113; 10860; 12216; 7185; 12218; 8819;
   10635; 7921; 14480; 15416].

(** [Series.isin] on integers and on strings; a null is in no list. *)
Definition isin (x : Z) (l : list Z) : bool := existsb (Z.eqb x) l.

Definition isin_opt (x : option Z) (l : list Z) : bool :=
  match x with
  | Some v => isin v l
  | None => false
  end.

Definition isin_str (x : string) (l : list string) : bool :=
  existsb (String.eqb x) l.

(** The boolean mask of the exclusion filter. *)
Definition keep (r : merged_row) : bool :=
  negb (isin_opt (id_y r) excluded_subscription_ids)
  && isin_str (us_status (left r)) ["active"; "canceled"]
  && negb (isin (us_user_id (left r)) excluded_user_ids).

(** [Series.replace] with a two-entry mapping. *)
Definition replace2 (k1 v1 k2 v2 : string) (x : string) : string :=
  if String.eqb x k1 then v1
  else if String.eqb x k2 then v2
  else x.

(** [Series.fillna('')]. *)
Definition fillna (x : option string) : string :=
  match x with
  | Some v => v
  | None => ""
  end.

(** A row of the canonical table, columns in the order of
    [calendesk_columns]. *)
Record canonical_row : Type := mk_canonical_row {
  ID_Subskrypcji_Klienta : Z;
  ID_Subskrypcji : option Z;
  Status : string;
  Data_zakupu : option datetime;
  Pakiet : string;
  Data_wygasniecia : option datetime;
  Data_anulowania : option datetime;
  ID_Klienta : Z;
  Imie_i_Nazwisko_Klienta : string;
  Email : string;
  Typ_pakietu : option string;
  ID_Suba_STRIPE : option string;
  NIP : Nip.nip_cell;
  Nazwa_Firmy : string;
  Telefon : string
}.

Definition set_Data_anulowania (r : canonical_row) (d : option datetime)
  : canonical_row :=
  mk_canonical_row (ID_Subskrypcji_Klienta r) (ID_Subskrypcji r) (Status r)
    (Data_zakupu r) (Pakiet r) (Data_wygasniecia r) d (ID_Klienta r)
    (Imie_i_Nazwisko_Klienta r) (Email r) (Typ_pakietu r) (ID_Suba_STRIPE r)
    (NIP r) (Nazwa_Firmy r) (Telefon r).

Definition set_NIP (r : canonical_row) (n : Nip.nip_cell) : canonical_row :=
  mk_canonical_row (ID_Subskrypcji_Klienta r) (ID_Subskrypcji r) (Status r)
    (Data_zakupu r) (Pakiet r) (Data_wygasniecia r) (Data_anulowania r)
    (ID_Klienta r) (Imie_i_Nazwisko_Klienta r) (Email r) (Typ_pakietu r)
    (ID_Suba_STRIPE r) n (Nazwa_Firmy r) (Telefon r).

Definition isna {A : Type} (x : option A) : bool :=
  match x with
  | Some _ => false
  | None => true
  end.

Definition notna {A : Type} (x : option A) : bool := negb (isna x).

(** [df.loc[mask, 'Data anulowania'] = values]: the rows are aligned by
    position (the index is unique), so row [i] takes [values[i]] when
    [mask[i]] holds. *)
Fixpoint loc_assign (df : list canonical_row) (mask : list bool)
  (values : list (option datetime)) : list canonical_row :=
  match df, mask, values with
  | r :: df', m :: mask', v :: values' =>
      (if m then set_Data_anulowania r v else r)
      :: loc_assign df' mask' values'
  | _, _, _ => df
  end.

Definition update_cancellation_dates (df : list canonical_row)
  : list canonical_row * list bool :=
  let mask := map (fun r => isna (Data_anulowania r)
                            && notna (Data_wygasniecia r)) df in
  let df := loc_assign df mask (map Data_wygasniecia df) in
  (df, mask).

(** [Series.apply(f)] for an [f] that can raise. *)
Fixpoint apply {A B : Type} (f : A -> result B) (l : list A)
  : result (list B) :=
  match l with
  | [] => Return []
  | a :: l' => b <- f a ;; bs <- apply f l' ;; Return (b :: bs)
  end.

Section Pipeline.

(** The two date conversions, both followed by [tz_localize(None)] and the
    fixed two-hour offset: [pd.to_datetime(x)], which raises on text it
    cannot parse, and [pd.to_datetime(x, errors='coerce')], which gives NaT
    instead. *)
Variable to_datetime_strict : option string -> result (option datetime).
Variable to_datetime : option string -> option datetime.

(** The string operations of the runtime, for [process_nip]. *)
Variable py : Nip.library.

(** The transformation, projection, renaming and date conversion of one
    filtered row. *)
Definition canonical (r : merged_row) : result canonical_row :=
  let u := left r in
  zakupu <- to_datetime_strict (us_created_at u) ;;
  Return (mk_canonical_row
    (us_id u)
    (id_y r)
    (replace2 "canceled" "anulowana" "active" "aktywna" (us_status u))
    zakupu
    (us_subscription_name u)
    (to_datetime (us_ends_at u))
    (to_datetime (us_canceled_at u))
    (us_user_id u)
    (us_user_name u ++ " " ++ us_user_surname u)
    (us_user_email u)
    (option_map (replace2 "year" "roczny" "month" "miesięczny")
       (price_recurring_interval r))
    (us_stripe_subscription_id u)
    (us_tax_number u)
    (fillna (us_default_address_name u))
    (fillna (us_default_phone_e164 u))).

(** [df['NIP'].apply(process_nip)] on one row. *)
Definition normalise_nip (r : canonical_row) : result canonical_row :=
  n <- Nip.process_nip py (NIP r) ;; Return (set_NIP r n).

(** The Calendesk part of [main]: merge, filter, transform, convert the
    dates, update the cancellation dates and normalise the tax
    identifiers. *)
Definition reconcile (users_subscriptions_df : list user_subscription)
  (subscriptions_df : list subscription) : result (list canonical_row) :=
  let df_calendesk := merge users_subscriptions_df subscriptions_df in
  let df_calendesk := filter keep df_calendesk in
  df_calendesk <- apply canonical df_calendesk ;;
  let '(df_calendesk, _) := update_cancellation_dates df_calendesk in
  apply normalise_nip df_calendesk.

End Pipeline.


(** Sample data: two customer-subscription records and one yearly plan. *)
Definition sample_user (id : Z) (subscription_id : option Z) (status : string)
  (ends_at canceled_at : option string) : user_subscription :=
  mk_user_subscription id subscription_id status
    (Some "2025-01-10T08:00:00.000000Z") ends_at canceled_at "Pakiet"
    501 "Jan" "Kowalski" "jan@example.com" (Some "sub_1")
    (Nip.NipStr "123-456-78-90") None None.

Definition sample_row (wygasniecia anulowania : option datetime)
  : canonical_row :=
  mk_canonical_row 17 (Some 5) "anulowana" None "Pakiet" wygasniecia
    anulowania 501 "Jan Kowalski" "jan@example.com" (Some "roczny")
    (Some "sub_1") (Nip.NipStr "123-456-78-90") "" "".

Definition sample_day : datetime := mk_datetime 2025 7 1 2 0 0 0.

Definition sample_df : list canonical_row :=
  [sample_row None None;
   sample_row (Some sample_day) None;
   sample_row (Some sample_day) (Some (mk_datetime 2025 6 1 2 0 0 0))].

(** A sample date conversion: every text is read as [sample_day]. *)
Definition sample_to_datetime (x : option string) : option datetime :=
  match x with
  | Some _ => Some sample_day
  | None => None
  end.

Definition sample_users : list user_subscription :=
  [sample_user 17 (Some 5) "canceled" (Some "2025-07-01T00:00:00.000000Z") None;
   sample_user 18 (Some 6) "past_due" None None].

Definition sample_subscriptions : list subscription :=
  [mk_subscription 5 (Some "year")].

(** The final table for the sample data: one row. *)
Definition sample_final : list canonical_row :=
  [mk_canonical_row 17 (Some 5) "anulowana" (Some sample_day) "Pakiet"
     (Some sample_day) (Some sample_day) 501 "Jan Kowalski"
     "jan@example.com" (Some "roczny") (Some "sub_1")
     (Nip.NipStr "123-456-78-90") "" ""].

(** The update of the cancellation dates, row by row. *)
Definition update_row (r : canonical_row) : canonical_row :=
  if isna (Data_anulowania r) && notna (Data_wygasniecia r)
  then set_Data_anulowania r (Data_wygasniecia r) else r.

End Join.

(** ** JSON values in the fetchers *)

Module PyJson.
Import Nip.

(** What the fetchers do with a decoded JSON body, which is any JSON
    value: [None], a boolean, an integer, a float, a string, a list or a
    dictionary. *)

(** [v.get(key, default)]: only a dictionary has the method. *)
Definition get (v : json) (key : string) (default : json) : result json :=
  match v with
  | JDict d =>
      Return (match dict_get d key with
              | Some x => x
              | None => default
              end)
  | _ => Raise AttributeError
  end.

(** [bool(v)]. *)
Definition truth (v : json) : bool :=
  match v with
  | JNull => false
  | JBool b => b
  | JInt n => negb (n =? 0)
  | JFloat q => negb (Qeq_bool q 0)
  | JStr s => negb (String.eqb s "")
  | JList l => match l with [] => false | _ :: _ => true end
  | JDict d => match d with [] => false | _ :: _ => true end
  end.

(** The value as a number in arithmetic with an integer: an integer, a
    float, or a boolean (0 or 1); nothing else is one. *)
Definition number (v : json) : option Q :=
  match v with
  | JInt n => Some (inject_Z n)
  | JFloat q => Some q
  | JBool b => Some (if b then 1%Q else 0%Q)
  | _ => None
  end.

(** [n <= v] for an integer [n]: a [TypeError] unless [v] is a number. *)
Definition int_le (n : Z) (v : json) : result bool :=
  match number v with
  | Some q => Return (Qle_bool (inject_Z n) q)
  | None => Raise TypeError
  end.

(** [n >= v]. *)
Definition int_ge (n : Z) (v : json) : result bool :=
  match number v with
  | Some q => Return (Qle_bool q (inject_Z n))
  | None => Raise TypeError
  end.

(** [v <= n]. *)
Definition le_int (v : json) (n : Z) : result bool := int_ge n v.

(** [n != v]: never raises; a value that is not a number differs. *)
Definition int_ne (n : Z) (v : json) : bool :=
  match number v with
  | Some q => negb (Qeq_bool (inject_Z n) q)
  | None => true
  end.

(** [v - n]. *)
Definition sub_int (v : json) (n : Z) : result Q :=
  match number v with
  | Some q => Return (q - inject_Z n)%Q
  | None => Raise TypeError
  end.

(** The items [list.extend(v)] adds: those of a list, the keys of a
    dictionary, the characters of a string; nothing else can be iterated.
    A character is one [ascii]. *)
Definition iter (v : json) : result (list json) :=
  match v with
  | JList l => Return l
  | JDict d => Return (map (fun kv => JStr (fst kv)) d)
  | JStr s =>
      Return (map (fun c => JStr (String c "")) (list_ascii_of_string s))
  | _ => Raise TypeError
  end.

(** [record[key]] for a string [key]. *)
Definition item (record : json) (key : string) : result json :=
  match record with
  | JDict d =>
      match dict_get d key with
      | Some v => Return v
      | None => Raise KeyError
      end
  | _ => Raise TypeError
  end.

(** Whether [set] takes the value: a list and a dictionary have no
    hash. *)
Definition hashable (v : json) : bool :=
  match v with
  | JList _ | JDict _ => false
  | _ => true
  end.

End PyJson.

(** ** PagedFetcher *)

Module Http.
Import PyJson.

Section Records.

(** The type of a decoded body. *)
Variable A : Type.

(** A response: its status code, and its body if that is valid JSON
    ([response.json()] raises otherwise). *)
Record response : Type := mk_response {
  status_code : Z;
  json : option A
}.

(** What one [requests.get] call does: it returns a response, or raises
    [Timeout] or another [RequestException]. *)
Inductive outcome : Type :=
| Responds (r : response)
| Timeout
| RequestException.

(** What the process does besides returning: requests and sleeps. *)
Inductive event : Type :=
| Get (attempt : nat)
| Sleep (seconds : Z).

(** The body of the [for attempt in range(max_retries)] loop of
    [make_api_request_with_retry], over the attempts still to run.  [send]
    gives the outcome of the request made at each attempt.  The result is
    the events in order and the returned value, [None] for Python's
    [None]. *)
Fixpoint retry_over (send : nat -> outcome) (max_retries : nat) (delay : Z)
  (attempts : list nat) : list event * option response :=
  match attempts with
  | [] => ([], None)
  | attempt :: rest =>
      let continue_ (wait : list event) :=
        let '(evs, r) := retry_over send max_retries delay rest in
        ((Get attempt :: wait ++ evs)%list, r) in
      match send attempt with
      | Responds response =>
          if status_code response =? 200 then ([Get attempt], Some response)
          else if status_code response =? 429 then
            let wait_time := delay * 2 ^ Z.of_nat attempt in
            continue_ [Sleep wait_time]
          else if status_code response >=? 500 then
            let wait_time := delay * (Z.of_nat attempt + 1) in
            continue_ [Sleep wait_time]
          else ([Get attempt], Some response)
      | Timeout =>
          if (attempt <? max_retries - 1)%nat
          then continue_ [Sleep (delay * (Z.of_nat attempt + 1))]
          else continue_ []
      | RequestException =>
          if (attempt <? max_retries - 1)%nat
          then continue_ [Sleep (delay * (Z.of_nat attempt + 1))]
          else continue_ []
      end
  end.

Definition make_api_request_with_retry (send : nat -> outcome)
  (max_retries : nat) (delay : Z) : list event * option response :=
  retry_over send max_retries delay (seq 0 max_retries).

Definition default_max_retries : nat := 3.
Definition default_delay : Z := 2.

(** The call as the fetchers make it, with the default arguments; only the
    returned value matters to them. *)
Definition request_page (server : Z -> nat -> outcome) (page : Z)
  : option response :=
  snd (make_api_request_with_retry (server page) default_max_retries
         default_delay).

(** [response and response.status_code == 200]. *)
Definition ok (r : option response) : option response :=
  match r with
  | Some response => if status_code response =? 200 then Some response else None
  | None => None
  end.

(** [response.json()]. *)
Definition response_json (r : response) : result A :=
  match json r with
  | Some b => Return b
  | None => Raise JSONDecodeError
  end.

(** An outcome after which the loop of [make_api_request_with_retry] goes
    on to the next attempt. *)
Definition retried (o : outcome) : bool :=
  match o with
  | Responds r =>
      negb (status_code r =? 200)
      && ((status_code r =? 429) || (status_code r >=? 500))
  | Timeout | RequestException => true
  end.

(** Attempt [a] is reached when every attempt before it was retried. *)
Definition reached (send : nat -> outcome) (a : nat) : Prop :=
  forall b, (b < a)%nat -> retried (send b) = true.

(** What follows the request of attempt [a] in the events when the
    process waits [w] seconds after it: the sleep, then the next request
    if an attempt is left, and otherwise nothing more and the value
    [None]. *)
Definition waits_then (max_retries : nat) (a : nat) (w : Z)
  (post : list event) (returned : option response) : Prop :=
  exists post', post = Sleep w :: post' /\
    if (a + 1 <? max_retries)%nat
    then exists post'', post' = Get (a + 1) :: post''
    else post' = [] /\ returned = None.

(** The same without a sleep. *)
Definition goes_on (max_retries : nat) (a : nat)
  (post : list event) (returned : option response) : Prop :=
  if (a + 1 <? max_retries)%nat
  then exists post', post = Get (a + 1) :: post'
  else post = [] /\ returned = None.

(** *** Servers *)

(** The request for [page] exhausts the retry budget: every attempt fails
    with a rate limit, a server error, a timeout or a connection error. *)
Definition exhausts (server : Z -> nat -> outcome) (page : Z) : Prop :=
  forall a, (a < default_max_retries)%nat -> retried (server page a) = true.

(** The request for [page] succeeds with body [b]: some attempt within the
    budget is answered 200 with [b], the attempts before it being
    retried. *)
Definition succeeds (server : Z -> nat -> outcome) (page : Z)
  (b : A) : Prop :=
  exists a, (a < default_max_retries)%nat /\
    server page a = Responds (mk_response 200 (Some b)) /\
    forall a', (a' < a)%nat -> retried (server page a') = true.

End Records.

Arguments mk_response {A}.
Arguments status_code {A}.
Arguments json {A}.
Arguments retry_over {A}.
Arguments make_api_request_with_retry {A}.
Arguments request_page {A}.
Arguments retried {A}.
Arguments reached {A}.
Arguments waits_then {A}.
Arguments goes_on {A}.
Arguments ok {A}.
Arguments response_json {A}.
Arguments exhausts {A}.
Arguments succeeds {A}.
Arguments Responds {A}.
Arguments Timeout {A}.
Arguments RequestException {A}.

(** *** The page fetchers

    The body of a page is a JSON value, and so is a record. *)

(** The diagnostics the fetchers print and go on. *)
Inductive diagnostic : Type :=
| InitialFailed
| PageFailed (page : Z)
| NoData (page : Z)
| Shortfall (expected : Nip.json) (got : Z).

(** A step that can raise, inside a loop that can run out of fuel. *)
Definition lift {B C : Type} (r : result B) (k : B -> option (result C))
  : option (result C) :=
  match r with
  | Return b => k b
  | Raise e => Some (Raise e)
  end.

Notation "x <~ r ;; k" := (lift r (fun x => k))
  (at level 61, r at next level, right associativity).

Definition max_pages : Z := 10.

(** The [while current_page <= max_pages] loop of
    [fetch_calendesk_data_all].  The page number grows by one in every
    iteration that does not break, so [fuel] counts the iterations left up
    to [max_pages]. *)
Fixpoint fetch_all_loop (server : Z -> nat -> outcome Nip.json) (fuel : nat)
  (current_page : Z) (all_data : list Nip.json)
  : result (list Nip.json * list diagnostic) :=
  match fuel with
  | O => Return (all_data, [])
  | S fuel' =>
      if current_page <=? max_pages then
        match ok (request_page server current_page) with
        | Some response =>
            response_data <- response_json response ;;
            data <- get response_data "data" (Nip.JList []) ;;
            if truth data then
              items <- iter data ;;
              fetch_all_loop server fuel' (current_page + 1)
                (all_data ++ items)%list
            else Return (all_data, [])
        | None => Return (all_data, [PageFailed current_page])
        end
      else Return (all_data, [])
  end.

Definition fetch_calendesk_data_all (server : Z -> nat -> outcome Nip.json)
  : result (list Nip.json * list diagnostic) :=
  fetch_all_loop server (S (Z.to_nat max_pages)) 1 [].

(** The [while current_page <= total_pages] loop of
    [fetch_calendesk_data].  [total_pages] is whatever the last answer
    gave as [last_page], so the test can raise, and the server can raise
    the count in every answer, so the loop has no bound of its own: the
    result is [None] when [fuel] iterations were not enough.  (The
    assignment of [updated_total_pages] is guarded by [!=]; a value that
    is equal compares the same way, so taking it always changes
    nothing.) *)
Fixpoint fetch_loop (server : Z -> nat -> outcome Nip.json) (fuel : nat)
  (current_page : Z) (total_pages : Nip.json) (all_data : list Nip.json)
  : option (result (list Nip.json * list diagnostic)) :=
  go_on <~ int_le current_page total_pages ;;
  if go_on then
    match fuel with
    | O => None
    | S fuel' =>
        match ok (request_page server current_page) with
        | Some response =>
            response_data <~ response_json response ;;
            data <~ get response_data "data" (Nip.JList []) ;;
            if truth data then
              items <~ iter data ;;
              let all_data := (all_data ++ items)%list in
              updated_total_pages <~
                get response_data "last_page" total_pages ;;
              let total_pages := updated_total_pages in
              next_page_url <~ get response_data "next_page_url" Nip.JNull ;;
              stop <~ (if negb (truth next_page_url)
                       then int_ge current_page total_pages
                       else Return false) ;;
              if stop then Some (Return (all_data, []))
              else fetch_loop server fuel' (current_page + 1) total_pages
                     all_data
            else Some (Return (all_data, [NoData current_page]))
        | None => Some (Return (all_data, [PageFailed current_page]))
        end
    end
  else Some (Return (all_data, [])).

(** The check of the count after the loop: a shortfall is flagged, not
    raised, but computing it raises when [total] is not a number. *)
Definition validate (total_records : Nip.json) (all_data : list Nip.json)
  : result (list diagnostic) :=
  let n := Z.of_nat (List.length all_data) in
  if int_ne n total_records then
    _ <- sub_int total_records n ;;
    Return [Shortfall total_records n]
  else Return [].

(** The dataset summary at the end of [fetch_calendesk_data]: the keys of
    the first record are listed, and when it has an [id] the ids of all
    the records are collected and put into a set. *)
Definition dataset_summary (all_data : list Nip.json) : result unit :=
  match all_data with
  | [] => Return tt
  | first :: _ =>
      match first with
      | Nip.JDict d =>
          match Nip.dict_get d "id" with
          | Some _ =>
              ids <- Join.apply (fun record => item record "id") all_data ;;
              if forallb hashable ids then Return tt else Raise TypeError
          | None => Return tt
          end
      | _ => Raise AttributeError
      end
  end.

Definition fetch_calendesk_data (server : Z -> nat -> outcome Nip.json)
  (fuel : nat) : option (result (list Nip.json * list diagnostic)) :=
  let current_page := 1 in
  match ok (request_page server current_page) with
  | None => Some (Return ([], [InitialFailed]))
  | Some response =>
      response_data <~ response_json response ;;
      total_pages <~ get response_data "last_page" (Nip.JInt 1) ;;
      total_records <~ get response_data "total" (Nip.JInt 0) ;;
      current_page_data <~ get response_data "data" (Nip.JList []) ;;
      all_data <~ iter current_page_data ;;
      single <~ le_int total_pages 1 ;;
      if single then Some (Return (all_data, []))
      else
        match fetch_loop server fuel 2 total_pages all_data with
        | None => None
        | Some (Raise e) => Some (Raise e)
        | Some (Return (all_data, diags)) =>
            shortfall <~ validate total_records all_data ;;
            _ <~ dataset_summary all_data ;;
            Some (Return (all_data, (diags ++ shortfall)%list))
        end
  end.

(** *** Servers *)

(** The records the server holds, page by page: [pages] lists the
    non-empty pages 1, 2, ..., and [T] is the total the server declares. *)
Definition total_of (pages : list (list Nip.json)) : Z :=
  Z.of_nat (List.length (List.concat pages)).

Definition page_count (pages : list (list Nip.json)) : Z :=
  Z.max 1 (Z.of_nat (List.length pages)).

(** The body a consistent server gives for page [i] (1-based): an object
    with the records of the page, the page count and the total. *)
Definition body_of (pages : list (list Nip.json)) (i : nat) (b : Nip.json)
  : Prop :=
  exists d,
    b = Nip.JDict d /\
    Nip.dict_get d "data" = Some (Nip.JList (nth (i - 1) pages [])) /\
    Nip.dict_get d "last_page" = Some (Nip.JInt (page_count pages)) /\
    Nip.dict_get d "total" = Some (Nip.JInt (total_of pages)).

(** The request for page [i] succeeds with the body of that page. *)
Definition serves (server : Z -> nat -> outcome Nip.json)
  (pages : list (list Nip.json)) (i : nat) : Prop :=
  exists b, succeeds server (Z.of_nat i) b /\ body_of pages i b.

(** The call for page [i] returns a 200 response whose body is an object
    with the records [p] and the page count [tp]. *)
Definition answered (server : Z -> nat -> outcome Nip.json) (i : nat)
  (p : list Nip.json) (tp : Z) : Prop :=
  exists d,
    request_page server (Z.of_nat i)
    = Some (mk_response 200 (Some (Nip.JDict d))) /\
    Nip.dict_get d "data" = Some (Nip.JList p) /\
    Nip.dict_get d "last_page" = Some (Nip.JInt tp).

Definition nonempty (p : list Nip.json) : Prop := p <> [].

(** The pages [ps] that follow the first [done] pages are all answered. *)
Definition answered_from (server : Z -> nat -> outcome Nip.json) (done : nat)
  (ps : list (list Nip.json)) (tp : Z) : Prop :=
  forall j, (j < List.length ps)%nat ->
    answered server (done + j + 1) (nth j ps []) tp.

(** A record the dataset summary accepts: an object with an [id] that
    has a hash. *)
Definition record_with_id (r : Nip.json) : Prop :=
  exists d v, r = Nip.JDict d /\ Nip.dict_get d "id" = Some v /\
              hashable v = true.

(** Sample servers.  [flaky] is rate limited, then fails, then times out;
    [paged] holds the given pages and answers every request at once. *)
Definition flaky (a : nat) : outcome unit :=
  match a with
  | O => Responds (mk_response 429 None)
  | S O => Responds (mk_response 503 None)
  | _ => Timeout
  end.

(** The record with the given id. *)
Definition record (id : Z) : Nip.json := Nip.JDict [("id", Nip.JInt id)].

Definition page_json (pages : list (list Nip.json)) (page : Z) : Nip.json :=
  Nip.JDict
    [("data", Nip.JList (nth (Z.to_nat page - 1) pages []));
     ("last_page", Nip.JInt (page_count pages));
     ("total", Nip.JInt (total_of pages));
     ("next_page_url",
      if page <? page_count pages then Nip.JStr "next" else Nip.JNull)].

Definition paged (pages : list (list Nip.json)) (page : Z) (a : nat)
  : outcome Nip.json :=
  Responds (mk_response 200 (Some (page_json pages page))).

(** [paged], except that every request for page [k] times out. *)
Definition failing_at (k : Z) (pages : list (list Nip.json)) (page : Z)
  (a : nat) : outcome Nip.json :=
  if page =? k then Timeout else paged pages page a.

Definition eleven_pages : list (list Nip.json) :=
  map (fun i => [record (Z.of_nat i)]) (seq 1 11).

Definition two_pages : list (list Nip.json) :=
  [[record 1; record 2]; [record 3]].

(** A server with fewer than [max_pages] pages answers the request for
    the page after the last without records: with a body whose [data] is
    empty, or not with a 200. *)
Definition ends_after (server : Z -> nat -> outcome Nip.json)
  (pages : list (list Nip.json)) : Prop :=
  match ok (request_page server (Z.of_nat (List.length pages) + 1)) with
  | Some r =>
      exists b data,
        json r = Some b /\
        get b "data" (Nip.JList []) = Return data /\ truth data = false
  | None => True
  end.

End Http.


(** ** The cost of a request *)

Module Budget.
Import Http.

(** The number of requests made and the seconds slept in a run of
    [make_api_request_with_retry]. *)
Fixpoint requests (evs : list event) : nat :=
  match evs with
  | [] => O
  | Get _ :: evs' => S (requests evs')
  | Sleep _ :: evs' => requests evs'
  end.

Fixpoint slept (evs : list event) : Z :=
  match evs with
  | [] => 0
  | Get _ :: evs' => slept evs'
  | Sleep w :: evs' => w + slept evs'
  end.

End Budget.


(** ** The tax identifier field of a task *)

Module NipField.
Import Nip.

(** [task['client']['company'].get('nip', '')] where both levels are
    objects, as [extract_client_nip] reads it. *)
Definition nip_of (task : list (string * json)) : option json :=
  match dict_get task "client" with
  | Some (JDict client) =>
      match dict_get client "company" with
      | Some (JDict company) =>
          match dict_get company "nip" with
          | Some v => Some v
          | None => Some (JStr "")
          end
      | _ => None
      end
  | _ => None
  end.

End NipField.


(** ** TemporalRulesEngine: last invoice month *)

Module LastInvoice.
Import Dates Invoices.

(** [config['date_settings']['last_invoice_month']]. *)
Record last_invoice_config : Type := mk_last_invoice_config {
  li_current_year : Z;
  li_yearly_subscription_start_year : Z
}.

(** [polish_months.get(m, "")]. *)
Definition polish_months (m : Z) : string :=
  if m =? 1 then "styczeń"
  else if m =? 2 then "luty"
  else if m =? 3 then "marzec"
  else if m =? 4 then "kwiecień"
  else if m =? 5 then "maj"
  else if m =? 6 then "czerwiec"
  else if m =? 7 then "lipiec"
  else if m =? 8 then "sierpień"
  else if m =? 9 then "wrzesień"
  else if m =? 10 then "październik"
  else if m =? 11 then "listopad"
  else if m =? 12 then "grudzień"
  else "".

(** [Series.max()] of a non-empty column of dates, the first being [d]. *)
Definition max_date (d : datetime) (l : list datetime) : datetime :=
  fold_left (fun acc x => if dt_gt x acc then x else acc) l d.

Definition calculate_last_invoice_month (r : row)
  (invoices_df : list invoice) (config_data : last_invoice_config)
  : result cell :=
  stripe <- row_item r "ID Suba STRIPE" ;;
  if is_blank stripe then Return (Str "")
  else
    let current_year := li_current_year config_data in
    let yearly_start_year := li_yearly_subscription_start_year config_data in
    let subscription_id := stripe in
    package_type <- row_item r "Typ pakietu" ;;
    let filtered_invoices :=
      filter (fun i => cell_eqb (ID_Subskrypcji i) subscription_id
                       && cell_is (Status_Faktury i) "paid")
             invoices_df in
    filtered_invoices <-
      (if cell_is package_type "miesięczny" then
         Return (filter (fun i => year (Data_Utworzenia i) =? current_year)
                   filtered_invoices)
       else if cell_is package_type "roczny" then
         start <- dt yearly_start_year 1 1 ;;
         Return (filter (fun i => dt_ge (Data_Utworzenia i) start)
                   filtered_invoices)
       else Return filtered_invoices) ;;
    match filtered_invoices with
    | [] => Return (Str "")
    | i :: rest =>
        let max_date := max_date (Data_Utworzenia i)
                          (map Data_Utworzenia rest) in
        Return (Str (polish_months (month max_date)))
    end.

(** The paid invoices of subscription [sid] that count for a plan type:
    those of the current year for a monthly plan, those from 1 January of
    the start year for a yearly plan, all of them for any other type. *)
Definition counts (config_data : last_invoice_config) (package_type sid : cell)
  (i : invoice) : bool :=
  cell_eqb (ID_Subskrypcji i) sid
  && cell_is (Status_Faktury i) "paid"
  && (if cell_is package_type "miesięczny" then
        year (Data_Utworzenia i) =? li_current_year config_data
      else if cell_is package_type "roczny" then
        dt_ge (Data_Utworzenia i)
          (mk_datetime (li_yearly_subscription_start_year config_data)
             1 1 0 0 0 0)
      else true).

(** The window of [calculate_invoice_status_last_2_months] for a plan
    type: its first day is in [month1] of the year for a monthly plan and
    in [month2] of the start year for a yearly plan; its last day is day
    31 of [month2] of the year. *)
Definition window_start (cfg : last_2_months_config) (package_type : cell)
  : datetime :=
  if cell_is package_type "miesięczny"
  then mk_datetime (l2_year cfg) (l2_month1 cfg) 1 0 0 0 0
  else mk_datetime (l2_yearly_subscription_start_year cfg) (l2_month2 cfg)
         1 0 0 0 0.

Definition window_end (cfg : last_2_months_config) : datetime :=
  mk_datetime (l2_year cfg) (l2_month2 cfg) 31 0 0 0 0.

End LastInvoice.


(** ** Validation of the fetched records *)

Module Validate.
Import Nip.

(** [required_fields.get(endpoint_type, [])]. *)
Definition required_fields (endpoint_type : string) : list string :=
  if String.eqb endpoint_type "subscriptions" then ["id"; "name"; "price"]
  else if String.eqb endpoint_type "users"
  then ["id"; "subscription_id"; "user"; "status"]
  else [].

(** [field in record] for a record that is a JSON object. *)
Definition has_key (record : list (string * json)) (field : string) : bool :=
  match dict_get record field with
  | Some _ => true
  | None => false
  end.

(** [validate_calendesk_data(data, endpoint_type)]; the set of missing
    fields is the list of its additions. *)
Definition validate_calendesk_data (data : list (list (string * json)))
  (endpoint_type : string) : bool :=
  match data with
  | [] => false
  | _ =>
      let fields_to_check := required_fields endpoint_type in
      match fields_to_check with
      | [] => true
      | _ =>
          let sample_size := Nat.min 3 (List.length data) in
          let missing_fields :=
            flat_map (fun record =>
                        filter (fun field => negb (has_key record field))
                          fields_to_check)
                     (firstn sample_size data) in
          match missing_fields with
          | [] => true
          | _ => false
          end
      end
  end.

End Validate.

(** ** The CRM source *)

Module Crm.
Import Dates Nip.

(** A status of the project: its [name] and [_id], [None] where the key
    is missing. *)
Record status : Type := mk_status {
  st_name : option string;
  st_id : option string
}.

(** [status.get("name", "").strip() == status_name.strip()]. *)
Definition name_matches (status_name : string) (s : status) : bool :=
  String.eqb
    (strip (match st_name s with Some n => n | None => "" end))
    (strip status_name).

(** [find_status_by_name], over [project_data.get("statuses", [])];
    [status["_id"]] on a status without that key is a [KeyError]. *)
Fixpoint find_status_by_name (statuses : list status) (status_name : string)
  : result (option string) :=
  match statuses with
  | [] => Return None
  | s :: rest =>
      if name_matches status_name s then
        match st_id s with
        | Some id => Return (Some id)
        | None => Raise KeyError
        end
      else find_status_by_name rest status_name
  end.

Section Tasks.

(** The type of a task of a task list. *)
Variable T : Type.

(** The JSON body of a task page: [tasks] with [.get("tasks", [])]
    applied, and the two spellings of the page count. *)
Record tasks_body : Type := mk_tasks_body {
  tasks : list T;
  totalPage : option Z;
  totalPages : option Z
}.

Record crm_response : Type := mk_crm_response {
  crm_status_code : Z;
  crm_json : option tasks_body
}.

(** [data.get("totalPage", data.get("totalPages", 1))]. *)
Definition total_pages_of (data : tasks_body) : Z :=
  match totalPage data with
  | Some t => t
  | None =>
      match totalPages data with
      | Some t => t
      | None => 1
      end
  end.

(** The [while True] loop of [fetch_tasks_by_status]: [post] gives the
    answer to the request for a page.  The result is the pages requested,
    in order, and the tasks; [None] when [fuel] iterations were not
    enough. *)
Fixpoint fetch_tasks_loop (post : Z -> crm_response) (fuel : nat)
  (page : Z) (requested : list Z) (all_tasks : list T)
  : option (result (list Z * list T)) :=
  match fuel with
  | O => None
  | S fuel' =>
      let response := post page in
      let requested := (requested ++ [page])%list in
      if negb (crm_status_code response =? 200)
      then Some (Return (requested, all_tasks))
      else
        match crm_json response with
        | None => Some (Raise JSONDecodeError)
        | Some data =>
            let all_tasks := (all_tasks ++ tasks data)%list in
            let total_pages := total_pages_of data in
            if page >=? total_pages
            then Some (Return (requested, all_tasks))
            else fetch_tasks_loop post fuel' (page + 1) requested all_tasks
        end
  end.

Definition fetch_tasks_by_status (post : Z -> crm_response) (fuel : nat)
  : option (result (list Z * list T)) :=
  fetch_tasks_loop post fuel 0 [] [].

End Tasks.

Arguments mk_tasks_body {T}.
Arguments tasks {T}.
Arguments totalPage {T}.
Arguments totalPages {T}.
Arguments mk_crm_response {T}.
Arguments crm_status_code {T}.
Arguments crm_json {T}.
Arguments total_pages_of {T}.
Arguments fetch_tasks_loop {T}.
Arguments fetch_tasks_by_status {T}.

(** A task is a JSON object. *)
Definition task : Type := list (string * json).

(** The loop of [fetch_crm_data] over the tasks: the detail of each task
    is fetched by its [_id] ([""] when missing), and the identifier
    extracted from a detail that is not empty is kept when it is not
    empty. *)
Fixpoint collect_nips (fetch_task_data : json -> option task)
  (tasks : list task) : list string :=
  match tasks with
  | [] => []
  | t :: rest =>
      let task_id := match dict_get t "_id" with
                     | Some v => v
                     | None => JStr ""
                     end in
      let detailed_task := fetch_task_data task_id in
      let nip_list :=
        match detailed_task with
        | None | Some [] => []
        | Some d =>
            let nip := extract_client_nip d in
            if negb (String.eqb nip "") then [nip] else []
        end in
      (nip_list ++ collect_nips fetch_task_data rest)%list
  end.

(** [fetch_crm_data]: [session_ok] is the result of
    [initialize_session], [project_data] that of [fetch_project_data]
    (its statuses), [post] answers the task-list requests of a status id
    and [fetch_task_data] gives the detail of a task. *)
Definition fetch_crm_data (session_ok : bool)
  (project_data : option (list status)) (target_status : string)
  (post : string -> Z -> crm_response task)
  (fetch_task_data : json -> option task) (fuel : nat)
  : option (result (list string)) :=
  if negb session_ok then Some (Return [])
  else
    match project_data with
    | None => Some (Return [])
    | Some statuses =>
        match find_status_by_name statuses target_status with
        | Raise e => Some (Raise e)
        | Return None => Some (Return [])
        | Return (Some status_id) =>
            if String.eqb status_id "" then Some (Return [])
            else
              match fetch_tasks_by_status (post status_id) fuel with
              | None => None
              | Some (Raise e) => Some (Raise e)
              | Some (Return (_, [])) => Some (Return [])
              | Some (Return (_, tasks)) =>
                  Some (Return (collect_nips fetch_task_data tasks))
              end
        end
    end.

(** One record of [create_crm_dataframe], columns in the order of the
    dictionary. *)
Definition crm_record (nip : string) : row :=
  [("ID Subskrypcji Klienta", Num 0);
   ("ID Subskrypcji", Num 0);
   ("Status", Str "");
   ("Data zakupu", NaN);
   ("Pakiet", Str "UMOWA TRADYCYJNA");
   ("Data wygaśnięcia", NaN);
   ("Data anulowania", NaN);
   ("ID Klienta", Num 0);
   ("Imię i Nazwisko Klienta", Str "");
   ("Email", Str "");
   ("Typ pakietu", Str "");
   ("ID Suba STRIPE", Str "");
   ("NIP", Str nip);
   ("Nazwa Firmy", Str "");
   ("Telefon", Str "");
   ("Invoice status in chosen month", Str "");
   ("Invoice status in last 2 months", Str "");
   ("Last invoice month", Str "");
   ("Status3", Str "Nieokreślony")].

(** [create_crm_dataframe(nip_list)]: the rows of the frame, none for an
    empty list. *)
Definition create_crm_dataframe (nip_list : list string) : list row :=
  match nip_list with
  | [] => []
  | _ => map crm_record nip_list
  end.

(** The append in [main]: [pd.concat([df_calendesk, df_crm])] unless the
    CRM frame is empty. *)
Definition append_crm (df_calendesk df_crm : list row) : list row :=
  match df_crm with
  | [] => df_calendesk
  | _ => (df_calendesk ++ df_crm)%list
  end.


(** The pages [0 .. n-1] and the tasks the server lists on them. *)
Definition pages_upto (n : nat) : list Z := map Z.of_nat (seq 0 n).

Definition tasks_at {T : Type} (post : Z -> crm_response T) (page : Z)
  : list T :=
  match crm_json (post page) with
  | Some data => tasks data
  | None => []
  end.

Definition tasks_upto {T : Type} (post : Z -> crm_response T) (n : nat)
  : list T :=
  List.concat (map (tasks_at post) (pages_upto n)).

(** Sample data. *)
Definition sample_statuses : list status :=
  [mk_status (Some "NOWE") (Some "s1");
   mk_status (Some " UMOWY TRADYCYJNE ") (Some "s2");
   mk_status (Some "UMOWY TRADYCYJNE") (Some "s3")].

Definition sample_post (page : Z) : crm_response Z :=
  mk_crm_response 200
    (Some (mk_tasks_body [page * 10; page * 10 + 1] (Some 2) None)).

Definition sample_post_failing (page : Z) : crm_response Z :=
  if page =? 1 then mk_crm_response 500 None else sample_post page.

(** Three tasks on one page; the details give a numeric identifier, a
    text identifier and no company. *)
Definition sample_task_post (status_id : string) (page : Z)
  : crm_response task :=
  if String.eqb status_id "s2" && (page =? 0) then
    mk_crm_response 200
      (Some (mk_tasks_body
               [[("_id", JStr "t1")]; [("_id", JStr "t2")];
                [("_id", JStr "t3")]]
               (Some 0) None))
  else mk_crm_response 404 None.

Definition sample_task_data (task_id : json) : option task :=
  match task_id with
  | JStr "t1" =>
      Some [("client", JDict [("company", JDict [("nip", JInt 123456789)])])]
  | JStr "t2" =>
      Some [("client", JDict [("company", JDict [("nip", JStr "PL-1")])])]
  | JStr "t3" => Some [("client", JDict [])]
  | _ => None
  end.

End Crm.


(** ** The cursor-paginated invoice fetch *)

Module Stripe.
Import Join.

Section Cursor.

(** An invoice of the payment API and the record built from it. *)
Variables R P : Type.

(** [invoice['id']]. *)
Variable invoice_id : R -> string.

(** The body of the [for invoice in invoices] loop, which builds
    [invoice_data]; a missing key is a [KeyError]. *)
Variable process : R -> result P.

(** The JSON body of a page, with [.get('data', [])] and
    [.get('has_more', False)] applied. *)
Record stripe_body : Type := mk_stripe_body {
  data : list R;
  has_more : bool
}.

Record stripe_response : Type := mk_stripe_response {
  stripe_status_code : Z;
  stripe_json : option stripe_body
}.

Definition max_pages : nat := 10.

(** The loop of [fetch_stripe_invoices_all]; [remaining] is
    [max_pages - pages_fetched], [starting_after] the cursor in [params]
    and [get] the server's answer to a cursor, the other parameters of
    the request ([limit] and [created[gte]]) being the same in every
    request of a call.  The result is the cursors requested, in order,
    and [processed_data]. *)
Fixpoint fetch_stripe_all_loop (get : option string -> stripe_response)
  (remaining : nat) (starting_after : option string)
  (requested : list (option string)) (processed_data : list P)
  : result (list (option string) * list P) :=
  match remaining with
  | O => Return (requested, processed_data)
  | S remaining' =>
      let response := get starting_after in
      let requested := (requested ++ [starting_after])%list in
      if negb (stripe_status_code response =? 200)
      then Return (requested, processed_data)
      else
        match stripe_json response with
        | None => Raise JSONDecodeError
        | Some response_data =>
            match data response_data with
            | [] => Return (requested, processed_data)
            | i :: rest =>
                page <- apply process (i :: rest) ;;
                let processed_data := (processed_data ++ page)%list in
                if has_more response_data
                then fetch_stripe_all_loop get remaining'
                       (Some (invoice_id (last rest i)))
                       requested processed_data
                else Return (requested, processed_data)
            end
        end
  end.

Definition fetch_stripe_invoices_all (get : option string -> stripe_response)
  : result (list (option string) * list P) :=
  fetch_stripe_all_loop get max_pages None [] [].

(** The [while True] loop of [fetch_stripe_invoices] in the enhanced
    fetcher: no page limit, and an empty page is processed (to nothing)
    before the loop stops on it; [None] when [fuel] iterations were not
    enough. *)
Fixpoint fetch_stripe_loop (get : option string -> stripe_response)
  (fuel : nat) (starting_after : option string)
  (requested : list (option string)) (processed_data : list P)
  : option (result (list (option string) * list P)) :=
  match fuel with
  | O => None
  | S fuel' =>
      let response := get starting_after in
      let requested := (requested ++ [starting_after])%list in
      if negb (stripe_status_code response =? 200)
      then Some (Return (requested, processed_data))
      else
        match stripe_json response with
        | None => Some (Raise JSONDecodeError)
        | Some response_data =>
            let invoices := data response_data in
            match apply process invoices with
            | Raise e => Some (Raise e)
            | Return page =>
                let processed_data := (processed_data ++ page)%list in
                match invoices with
                | i :: rest =>
                    if has_more response_data
                    then fetch_stripe_loop get fuel'
                           (Some (invoice_id (last rest i)))
                           requested processed_data
                    else Some (Return (requested, processed_data))
                | [] => Some (Return (requested, processed_data))
                end
            end
        end
  end.

(** The query of a request: the page size, the lower bound on the
    creation time and the cursor. *)
Record params : Type := mk_params {
  limit : Z;
  created_gte : Z;
  starting_after : option string
}.

(** The answer of the API to a cursor, for a call whose filter is the
    timestamp [filter_timestamp]. *)
Definition request (api : params -> stripe_response) (filter_timestamp : Z)
  (cursor : option string) : stripe_response :=
  api (mk_params 100 filter_timestamp cursor).

(** The days from 1 January 1970 to a date of the proleptic Gregorian
    calendar, and [int(t.timestamp())] for a datetime [t] in UTC. *)
Definition days_from_civil (y m d : Z) : Z :=
  let y := if m <=? 2 then y - 1 else y in
  let era := y / 400 in
  let yoe := y - era * 400 in
  let doy := (153 * (if 2 <? m then m - 3 else m + 9) + 2) / 5 + d - 1 in
  let doe := yoe * 365 + yoe / 4 - yoe / 100 + doy in
  era * 146097 + doe - 719468.

Definition utc_timestamp (t : Dates.datetime) : Z :=
  86400 * days_from_civil (Dates.year t) (Dates.month t) (Dates.day t)
  + 3600 * Dates.hour t + 60 * Dates.minute t + Dates.second t.

(** [config['stripe_fetch_settings']['filter_date']]. *)
Record filter_date : Type := mk_filter_date {
  fd_year : Z;
  fd_month : Z;
  fd_day : Z
}.

(** The filter of [fetch_stripe_invoices_all]: midnight UTC of the
    configured date; [dt] raises on a date that does not exist. *)
Definition filter_timestamp (filter_config : filter_date) : result Z :=
  t <- Dates.dt (fd_year filter_config) (fd_month filter_config)
         (fd_day filter_config) ;;
  Return (utc_timestamp t).

(** [fetch_stripe_invoices_all()] with its configuration, against the
    API. *)
Definition fetch_stripe_invoices_all_configured (filter_config : filter_date)
  (api : params -> stripe_response)
  : result (list (option string) * list P) :=
  ts <- filter_timestamp filter_config ;;
  fetch_stripe_invoices_all (request api ts).

(** The filter of [fetch_stripe_invoices] in the enhanced fetcher:
    [dt(2025, 6, 1, 0, 0, 0, tzinfo=timezone.utc)], written in the code. *)
Definition enhanced_filter_date : filter_date := mk_filter_date 2025 6 1.

Definition fetch_stripe_invoices (api : params -> stripe_response)
  (fuel : nat) : option (result (list (option string) * list P)) :=
  match filter_timestamp enhanced_filter_date with
  | Raise e => Some (Raise e)
  | Return ts => fetch_stripe_loop (request api ts) fuel None [] []
  end.

(** The request for [c'] follows the request for [c]: the answer to [c]
    was a page of invoices with more to come, and [c'] is the id of the
    last of them. *)
Definition follows (get : option string -> stripe_response)
  (c c' : option string) : Prop :=
  exists body i rest,
    get c = mk_stripe_response 200 (Some body) /\
    data body = i :: rest /\
    has_more body = true /\
    c' = Some (invoice_id (last rest i)).

Fixpoint chained (get : option string -> stripe_response)
  (c : option string) (cs : list (option string)) : Prop :=
  match cs with
  | [] => True
  | c' :: cs' => follows get c c' /\ chained get c' cs'
  end.

(** The invoices the server lists at a cursor, none unless it answers
    200 with a body. *)
Definition page_at (get : option string -> stripe_response)
  (cursor : option string) : list R :=
  if stripe_status_code (get cursor) =? 200 then
    match stripe_json (get cursor) with
    | Some body => data body
    | None => []
    end
  else [].

End Cursor.

Arguments mk_stripe_body {R}.
Arguments data {R}.
Arguments has_more {R}.
Arguments mk_stripe_response {R}.
Arguments stripe_status_code {R}.
Arguments stripe_json {R}.
Arguments fetch_stripe_all_loop {R P}.
Arguments fetch_stripe_invoices_all {R P}.
Arguments fetch_stripe_loop {R P}.
Arguments fetch_stripe_invoices {R P}.
Arguments fetch_stripe_invoices_all_configured {R P}.
Arguments request {R}.
Arguments page_at {R}.
Arguments follows {R}.
Arguments chained {R}.

(** A sample server: three pages of invoices named by their ids, chained
    by the id of the last invoice of a page. *)
Definition sample_get (cursor : option string) : stripe_response string :=
  match cursor with
  | None => mk_stripe_response 200 (Some (mk_stripe_body ["a"; "b"] true))
  | Some "b" => mk_stripe_response 200 (Some (mk_stripe_body ["c"] true))
  | Some "c" => mk_stripe_response 200 (Some (mk_stripe_body ["d"; "e"] false))
  | Some _ => mk_stripe_response 404 None
  end.

(** The sample server as an API: it answers by the cursor when the
    filter is 1 June 2025 and the page size 100, and refuses any other
    query. *)
Definition sample_api (q : params) : stripe_response string :=
  if (limit q =? 100) && (created_gte q =? 1748736000)
  then sample_get (starting_after q)
  else mk_stripe_response 400 None.

End Stripe.


(** ** What the page fetchers have read *)

Module Fetched.
Import PyJson Http.

(** The records the fetchers take from the answer to the request for
    [page]: the items of the [data] of the body of a 200 response, none
    when there is no such response or its [data] cannot be iterated. *)
Definition records_at (server : Z -> nat -> outcome Nip.json) (page : Z)
  : list Nip.json :=
  match ok (request_page server page) with
  | Some r =>
      match (response_data <- response_json r ;;
             data <- get response_data "data" (Nip.JList []) ;;
             iter data) with
      | Return items => items
      | Raise _ => []
      end
  | None => []
  end.

(** The records of the pages [1 .. m], in page order. *)
Definition records_upto (server : Z -> nat -> outcome Nip.json) (m : nat)
  : list Nip.json :=
  List.concat (map (fun i => records_at server (Z.of_nat i)) (seq 1 m)).

(** A sample server whose declared page count is always one ahead of the
    page it answers. *)
Definition growing (page : Z) (a : nat) : outcome Nip.json :=
  Responds
    (mk_response 200
       (Some (Nip.JDict [("data", Nip.JList [record page]);
                         ("last_page", Nip.JInt (page + 1))]))).

End Fetched.

(** ** Column ranges *)

Module Columns.

(** The text has no colon. *)
Fixpoint no_colon (s : string) : bool :=
  match s with
  | EmptyString => true
  | String c s' => negb (Ascii.eqb c ":") && no_colon s'
  end.

End Columns.

(** * Properties *)

(** ** Strings *)

Lemma append_assoc (s t u : string) : (s ++ t) ++ u = s ++ (t ++ u).
Proof.
  induction s as [|c s IH]; simpl; [reflexivity|now rewrite IH].
Qed.

Lemma append_nil_r (s : string) : s ++ "" = s.
Proof.
  induction s as [|c s IH]; simpl; [reflexivity|now rewrite IH].
Qed.

Lemma length_append (s t : string) :
  String.length (s ++ t) = (String.length s + String.length t)%nat.
Proof.
  induction s as [|c s IH]; simpl; [reflexivity|now rewrite IH].
Qed.

(** ** SheetSyncWriter *)

Module SheetProps.
Import Sheet.

Lemma loop_fuel (f1 : nat) :
  forall (f2 : nat) (n : Z) (r : string),
    (Z.to_nat n <= f1)%nat -> (Z.to_nat n <= f2)%nat ->
    get_column_letter_loop f1 n r = get_column_letter_loop f2 n r.
Proof.
  induction f1 as [|f1 IH]; intros f2 n r H1 H2.
  - assert (n <= 0) by lia.
    destruct f2; simpl; [reflexivity|].
    destruct (Z.ltb_spec 0 n); [lia|reflexivity].
  - destruct f2 as [|f2]; simpl.
    + destruct (Z.ltb_spec 0 n); [lia|reflexivity].
    + destruct (Z.ltb_spec 0 n) as [Hn|Hn]; [|reflexivity].
      assert ((n - 1) / 26 < n).
      { apply Z.le_lt_trans with (n - 1); [|lia].
        apply Z.div_le_upper_bound; lia. }
      assert (0 <= (n - 1) / 26) by (apply Z.div_pos; lia).
      apply IH; lia.
Qed.

Lemma loop_acc (f : nat) :
  forall (n : Z) (r : string),
    get_column_letter_loop f n r = get_column_letter_loop f n "" ++ r.
Proof.
  induction f as [|f IH]; intros n r; simpl; [reflexivity|].
  destruct (0 <? n); [|reflexivity].
  rewrite IH.
  rewrite (IH _ (String _ "")).
  rewrite append_assoc. reflexivity.
Qed.

(** The loop, one iteration unfolded: the fuel given by
    [get_column_letter] is always enough. *)
Lemma get_column_letter_fuel (n : Z) :
  0 < n ->
  get_column_letter n =
  get_column_letter ((n - 1) / 26) ++ String (chr ((n - 1) mod 26 + 65)) "".
Proof.
  intros Hn. unfold get_column_letter.
  destruct (Z.to_nat n) as [|f] eqn:Hf; [lia|].
  simpl. destruct (Z.ltb_spec 0 n); [|lia].
  rewrite loop_acc.
  f_equal.
  assert ((n - 1) / 26 < n).
  { apply Z.le_lt_trans with (n - 1); [|lia].
    apply Z.div_le_upper_bound; lia. }
  assert (0 <= (n - 1) / 26) by (apply Z.div_pos; lia).
  apply loop_fuel; lia.
Qed.

Lemma get_column_letter_nonpos (n : Z) : n <= 0 -> get_column_letter n = "".
Proof.
  intros Hn. unfold get_column_letter.
  replace (Z.to_nat n) with O by lia. reflexivity.
Qed.

Lemma column_index_from_app (s t : string) :
  forall acc, column_index_from acc (s ++ t)
              = column_index_from (column_index_from acc s) t.
Proof.
  induction s as [|c s IH]; intros acc; simpl; [reflexivity|apply IH].
Qed.

Lemma letters_app (s t : string) :
  letters (s ++ t) = letters s && letters t.
Proof.
  induction s as [|c s IH]; simpl; [reflexivity|].
  rewrite IH. apply andb_assoc.
Qed.

Lemma ord_chr (k : Z) : 0 <= k < 256 -> ord (chr k) = k.
Proof.
  intros Hk. unfold ord, chr.
  rewrite nat_ascii_embedding; lia.
Qed.

Lemma chr_ord (c : ascii) : chr (ord c) = c.
Proof.
  unfold ord, chr. rewrite Nat2Z.id. apply ascii_nat_embedding.
Qed.

(** Reading back the name of a positive column gives the column, and the
    name is made of capital letters only. *)
Lemma column_index_get_column_letter (n : Z) :
  0 <= n ->
  column_index (get_column_letter n) = n /\
  letters (get_column_letter n) = true.
Proof.
  intros Hn. pattern n.
  apply Zlt_0_ind; [|exact Hn]. clear n Hn.
  intros n IH Hn.
  destruct (Z.eq_dec n 0) as [->|Hnz]; [split; reflexivity|].
  rewrite get_column_letter_fuel by lia.
  assert (Hq : 0 <= (n - 1) / 26 < n).
  { split; [apply Z.div_pos; lia|].
    apply Z.le_lt_trans with (n - 1); [|lia].
    apply Z.div_le_upper_bound; lia. }
  destruct (IH _ Hq) as [IHi IHl].
  pose proof (Z.mod_pos_bound (n - 1) 26 ltac:(lia)) as Hm.
  split.
  - unfold column_index in *. rewrite column_index_from_app, IHi. simpl.
    rewrite ord_chr by lia.
    change (ord "A") with 65.
    pose proof (Z.div_mod (n - 1) 26 ltac:(lia)). lia.
  - rewrite letters_app, IHl. simpl.
    unfold is_letter. rewrite ord_chr by lia.
    change (ord "A") with 65. change (ord "Z") with 90.
    rewrite andb_true_r.
    apply andb_true_intro; split; apply Z.leb_le; lia.
Qed.

Lemma column_index_from_ge (s : string) :
  forall acc, 0 <= acc -> letters s = true ->
    acc <= column_index_from acc s /\
    (s <> "" -> 0 < column_index_from acc s).
Proof.
  induction s as [|c s IH]; intros acc Hacc Hl; simpl in *.
  - split; [lia|congruence].
  - apply andb_prop in Hl. destruct Hl as [Hc Hs].
    unfold is_letter in Hc. apply andb_prop in Hc.
    destruct Hc as [Hc1 Hc2].
    apply Z.leb_le in Hc1. apply Z.leb_le in Hc2.
    change (ord "A") with 65 in *. change (ord "Z") with 90 in *.
    destruct (IH (acc * 26 + (ord c - 65 + 1)) ltac:(lia) Hs) as [IH1 _].
    split; [lia|intros _; lia].
Qed.

Lemma split_last (s : string) :
  s <> "" -> exists s0 c, s = s0 ++ String c "".
Proof.
  induction s as [|a s IHs]; [congruence|]. intros _.
  destruct (string_dec s "") as [->|Hs].
  - exists "", a. reflexivity.
  - destruct (IHs Hs) as (s0 & c & ->).
    exists (String a s0), c. reflexivity.
Qed.

(** Every name over A..Z is the name of the column it denotes. *)
Lemma get_column_letter_column_index (s : string) :
  letters s = true -> get_column_letter (column_index s) = s.
Proof.
  remember (String.length s) as n eqn:Hlen. revert s Hlen.
  induction n as [n IH] using lt_wf_ind. intros s Hlen Hl.
  destruct (string_dec s "") as [->|Hne]; [reflexivity|].
  destruct (split_last s Hne) as (s0 & c & ->).
  rewrite letters_app in Hl. apply andb_prop in Hl.
  destruct Hl as [Hl0 Hc]. simpl in Hc. rewrite andb_true_r in Hc.
  unfold is_letter in Hc. apply andb_prop in Hc. destruct Hc as [Hc1 Hc2].
  apply Z.leb_le in Hc1. apply Z.leb_le in Hc2.
  change (ord "A") with 65 in *. change (ord "Z") with 90 in *.
  unfold column_index. rewrite column_index_from_app. simpl.
  change (ord "A") with 65.
  fold (column_index s0).
  destruct (column_index_from_ge s0 0 ltac:(lia) Hl0) as [Hge _].
  fold (column_index s0) in Hge.
  assert (IHs0 : get_column_letter (column_index s0) = s0).
  { apply (IH (String.length s0)); [|reflexivity|exact Hl0].
    rewrite Hlen, length_append. simpl. lia. }
  set (q := column_index s0) in *.
  rewrite get_column_letter_fuel by lia.
  replace (q * 26 + (ord c - 65 + 1) - 1) with ((ord c - 65) + q * 26) by lia.
  rewrite Z.div_add by lia. rewrite Z.mod_add by lia.
  rewrite Z.div_small by lia. rewrite Z.mod_small by lia.
  simpl (0 + q). rewrite IHs0.
  replace (ord c - 65 + 65) with (ord c) by lia.
  rewrite chr_ord. reflexivity.
Qed.

(** The conversion on the columns the specification lists. *)
Example get_column_letter_examples :
  get_column_letter 1 = "A" /\ get_column_letter 26 = "Z" /\
  get_column_letter 27 = "AA" /\ get_column_letter 28 = "AB" /\
  get_column_letter 702 = "ZZ" /\ get_column_letter 703 = "AAA".
Proof. repeat split; reflexivity. Qed.

(** [get_column_letter] is the bijective base-26 numbering: a bijection
    between the positive columns and the non-empty names over A..Z, whose
    inverse reads the name as digits A=1 .. Z=26. *)
Lemma get_column_letter_bijective :
  (forall n, 0 < n ->
     letters (get_column_letter n) = true /\
     get_column_letter n <> "" /\
     column_index (get_column_letter n) = n) /\
  (forall s, letters s = true -> s <> "" ->
     0 < column_index s /\ get_column_letter (column_index s) = s).
Proof.
  split.
  - intros n Hn.
    destruct (column_index_get_column_letter n ltac:(lia)) as [Hi Hl].
    repeat split; try assumption.
    intros He. rewrite He in Hi. unfold column_index in Hi. simpl in Hi. lia.
  - intros s Hl Hne. split.
    + apply (column_index_from_ge s 0); [lia|assumption|assumption].
    + apply get_column_letter_column_index. exact Hl.
Qed.

(** The clear always covers rows 2 to 15000 of the configured columns,
    whatever the size of the frame that is written afterwards. *)
Lemma clear_range_fixed (worksheet_name start_column : string)
  (num_rows num_cols : Z) :
  exists rest,
    update_excel_worksheet_directly worksheet_name num_rows num_cols
      start_column
    = Return (Clear (if String.eqb worksheet_name subscriptions_sheet_name
                     then a1_range 3 2 21 15000 else "2:15000") :: rest).
Proof.
  unfold update_excel_worksheet_directly, clear_columns.
  destruct (String.eqb worksheet_name subscriptions_sheet_name); simpl;
    destruct (num_rows =? 0); eexists; reflexivity.
Qed.

(** On the managed sheet the write starts at column C (3) and covers
    [num_cols] columns and [num_rows] rows below the header. *)
Lemma range_address_subscriptions (num_rows num_cols : Z)
  (start_column : string) :
  range_address subscriptions_sheet_name num_rows num_cols start_column
  = a1_range 3 2 (3 + num_cols - 1) (num_rows + 1).
Proof. reflexivity. Qed.

(** On any other sheet, with the default start column A, the write covers
    columns 1 to [num_cols]. *)
Lemma range_address_default (worksheet_name : string) (num_rows num_cols : Z) :
  String.eqb worksheet_name subscriptions_sheet_name = false ->
  range_address worksheet_name num_rows num_cols "A"
  = a1_range 1 2 (1 + num_cols - 1) (num_rows + 1).
Proof.
  intros Hw. unfold range_address, a1_range. rewrite Hw.
  replace (1 + num_cols - 1) with num_cols by lia. reflexivity.
Qed.

(** The end column of the second branch does not follow the start
    column: were a start column other than the default passed for a sheet
    other than the managed one, a frame of one record and two fields
    written from column C would get the address C2:B2.  No call does so:
    the script calls the function once, for the managed sheet, without a
    start column. *)
Example range_address_ignores_start_column :
  range_address "StripeInvoices" 1 2 (get_column_letter 3) = "C2:B2" /\
  a1_range 3 2 (3 + 2 - 1) (1 + 1) = "C2:D2" /\
  update_excel_worksheet_directly "StripeInvoices" 1 2 "C"
  = Return [Clear "2:15000"; Patch "C2:B2"].
Proof. repeat split; vm_compute; reflexivity. Qed.

(** C8. The clear targets the rows 2 to 15000 of the configured columns
    (C to U on the managed sheet, every column elsewhere) whatever the
    frame.  The write of [num_rows] records and [num_cols] fields covers
    the rows 2 to [num_rows + 1] and the columns [c] to [c + num_cols - 1],
    where [c] is column C (3) on the managed sheet, which is the sheet
    the script writes, and column A (1) on another sheet written from the
    default start column; an empty frame is not written.  And
    [get_column_letter] is the bijective base-26 numbering, with 1, 26,
    27 and 28 named A, Z, AA and AB. *)
Theorem sheet_ranges :
  (forall worksheet_name num_rows num_cols start_column,
     exists rest,
       update_excel_worksheet_directly worksheet_name num_rows num_cols
         start_column
       = Return (Clear (if String.eqb worksheet_name subscriptions_sheet_name
                        then a1_range 3 2 21 15000
                        else "2:15000") :: rest)) /\
  a1_range 3 2 21 15000 = "C2:U15000" /\
  (forall num_rows num_cols start_column,
     update_excel_worksheet_directly subscriptions_sheet_name num_rows
       num_cols start_column
     = Return (if num_rows =? 0 then [Clear "C2:U15000"]
               else [Clear "C2:U15000";
                     Patch (a1_range 3 2 (3 + num_cols - 1)
                              (num_rows + 1))])) /\
  (forall worksheet_name num_rows num_cols,
     String.eqb worksheet_name subscriptions_sheet_name = false ->
     update_excel_worksheet_directly worksheet_name num_rows num_cols "A"
     = Return (if num_rows =? 0 then [Clear "2:15000"]
               else [Clear "2:15000";
                     Patch (a1_range 1 2 (1 + num_cols - 1)
                              (num_rows + 1))])) /\
  (get_column_letter 1 = "A" /\ get_column_letter 26 = "Z" /\
   get_column_letter 27 = "AA" /\ get_column_letter 28 = "AB") /\
  (forall n, 0 < n ->
     letters (get_column_letter n) = true /\
     get_column_letter n <> "" /\
     column_index (get_column_letter n) = n) /\
  (forall s, letters s = true -> s <> "" ->
     0 < column_index s /\ get_column_letter (column_index s) = s).
Proof.
  split; [|split; [reflexivity|split; [|split; [|split; [|split]]]]].
  - intros worksheet_name num_rows num_cols start_column.
    unfold update_excel_worksheet_directly, clear_columns.
    destruct (String.eqb worksheet_name subscriptions_sheet_name); simpl;
      destruct (num_rows =? 0); eexists; reflexivity.
  - intros num_rows num_cols start_column.
    unfold update_excel_worksheet_directly, clear_columns.
    rewrite String.eqb_refl.
    change (clear_range (Some "C:U")) with (@Return string "C2:U15000").
    cbn [bind]. rewrite range_address_subscriptions.
    destruct (num_rows =? 0); reflexivity.
  - intros worksheet_name num_rows num_cols Hw.
    unfold update_excel_worksheet_directly, clear_columns. rewrite Hw.
    change (clear_range None) with (@Return string "2:15000").
    cbn [bind]. rewrite (range_address_default _ _ _ Hw).
    destruct (num_rows =? 0); reflexivity.
  - repeat split; reflexivity.
  - intros n Hn.
    destruct (column_index_get_column_letter n ltac:(lia)) as [Hi Hl].
    repeat split; try assumption.
    intros He. rewrite He in Hi. unfold column_index in Hi. simpl in Hi. lia.
  - intros s Hl Hne. split.
    + apply (column_index_from_ge s 0); [lia|assumption|assumption].
    + apply get_column_letter_column_index. exact Hl.
Qed.

End SheetProps.

(** ** Lifecycle state *)

Module Status3Props.
Import Dates Status3.

Lemma dt_le_gt (a b : datetime) : dt_le a b = negb (dt_gt a b).
Proof. unfold dt_le, dt_gt. destruct (dt_compare a b); reflexivity. Qed.

(** What the conversion block leaves behind, in terms of the reading
    [expiration_of] of the cell. *)
Lemma convert_expiration_reading strptime (c : cell) :
  match expiration_of strptime c with
  | Return (Some t) =>
      convert_expiration strptime c (is_blank c) = (Datetime t, false)
  | Return None =>
      snd (convert_expiration strptime c (is_blank c)) = true
  | Raise e =>
      e = TypeError /\
      exists n, convert_expiration strptime c (is_blank c) = (Num n, false)
  end.
Proof.
  destruct c as [|s|n|t|t]; simpl; try reflexivity.
  - unfold convert_expiration. simpl.
    destruct (String.eqb s ""); simpl; [reflexivity|].
    destruct (strptime s "%Y-%m-%d %H:%M:%S"); [reflexivity|].
    destruct (strptime s "%Y-%m-%d"); reflexivity.
  - split; [reflexivity|exists n; reflexivity].
Qed.

Lemma calculate_status3_reading strptime now r :
  identity_present r = true ->
  calculate_status3 strptime now r =
  (e <- expiration_of strptime (row_get r "Data wygaśnięcia") ;;
   Return (label (lifecycle_state true e now))).
Proof.
  unfold identity_present, calculate_status3. intros Hid.
  apply negb_true_iff in Hid. rewrite Hid.
  pose proof (convert_expiration_reading strptime
                (row_get r "Data wygaśnięcia")) as Hc.
  destruct (expiration_of strptime (row_get r "Data wygaśnięcia"))
    as [[t|]|e]; simpl.
  - rewrite Hc. simpl. unfold lifecycle_state. simpl.
    rewrite dt_le_gt. destruct (dt_gt t now); reflexivity.
  - destruct (convert_expiration strptime (row_get r "Data wygaśnięcia")
                (is_blank (row_get r "Data wygaśnięcia"))) as [c b].
    simpl in Hc. subst b. reflexivity.
  - destruct Hc as [-> [n Hc]]. rewrite Hc. reflexivity.
Qed.

(** C2. [calculate_status3] is the first-match-wins cascade of the
    specification: without a customer-subscription identity the state is
    undetermined; otherwise it is the state the ordered branches give for
    the expiration date read from the row.  A row whose expiration is in
    the future is canceled-but-still-active and never active, and the
    result depends on the identity and expiration columns only, so on no
    invoice column. *)
Theorem calculate_status3_first_match strptime (now : datetime) (r : row) :
  (identity_present r = false ->
     forall e, calculate_status3 strptime now r
               = Return (label (lifecycle_state false e now))) /\
  (identity_present r = true ->
     forall e, expiration_of strptime (row_get r "Data wygaśnięcia") = Return e ->
       calculate_status3 strptime now r
       = Return (label (lifecycle_state true e now))) /\
  (identity_present r = true ->
     forall t, expiration_of strptime (row_get r "Data wygaśnięcia")
               = Return (Some t) ->
       dt_gt t now = true ->
       calculate_status3 strptime now r = Return "Anulowana (aktywna)" /\
       calculate_status3 strptime now r <> Return "Aktywna") /\
  (forall r',
     row_get r' "ID Subskrypcji Klienta" = row_get r "ID Subskrypcji Klienta" ->
     row_get r' "Data wygaśnięcia" = row_get r "Data wygaśnięcia" ->
     calculate_status3 strptime now r' = calculate_status3 strptime now r).
Proof.
  split; [|split; [|split]].
  - unfold identity_present, calculate_status3. intros Hid e.
    apply negb_false_iff in Hid. rewrite Hid. reflexivity.
  - intros Hid e He. rewrite calculate_status3_reading by exact Hid.
    rewrite He. reflexivity.
  - intros Hid t Ht Hfuture.
    rewrite calculate_status3_reading by exact Hid.
    rewrite Ht. simpl. unfold lifecycle_state. simpl. rewrite Hfuture.
    split; [reflexivity|discriminate].
  - intros r' Hid Hexp. unfold calculate_status3. rewrite Hid, Hexp.
    reflexivity.
Qed.

(** The branches on concrete rows, at noon on 3 November 2026. *)
Example status3_examples :
  calculate_status3 strptime_fixed noon
    [("ID Subskrypcji Klienta", Num 17);
     ("Data wygaśnięcia", Timestamp (mk_datetime 2026 12 1 0 0 0 0))]
  = Return "Anulowana (aktywna)" /\
  calculate_status3 strptime_fixed noon
    [("ID Subskrypcji Klienta", Num 17); ("Data wygaśnięcia", NaN)]
  = Return "Aktywna" /\
  calculate_status3 strptime_fixed noon
    [("ID Subskrypcji Klienta", Num 17);
     ("Data wygaśnięcia", Str "2026-11-03 12:00:00")]
  = Return "Anulowana" /\
  calculate_status3 strptime_fixed noon
    [("ID Subskrypcji Klienta", Num 17);
     ("Data wygaśnięcia", Str "2026-11-04")]
  = Return "Anulowana (aktywna)" /\
  calculate_status3 strptime_fixed noon
    [("ID Subskrypcji Klienta", Str "");
     ("Data wygaśnięcia", Timestamp (mk_datetime 2026 12 1 0 0 0 0))]
  = Return "Nieokreślony" /\
  calculate_status3 strptime_fixed noon
    [("ID Subskrypcji Klienta", Num 17); ("Data wygaśnięcia", Num 5)]
  = Raise TypeError.
Proof. repeat split; vm_compute; reflexivity. Qed.

(** C10. A non-empty expiration string that neither format parses is
    treated as a blank expiration date: with a customer-subscription
    identity the row is active, as is every row with the same identity
    and a blank expiration. *)
Theorem calculate_status3_unparsable strptime (now : datetime) (r : row)
  (s : string) :
  identity_present r = true ->
  row_get r "Data wygaśnięcia" = Str s ->
  strptime s "%Y-%m-%d %H:%M:%S" = None ->
  strptime s "%Y-%m-%d" = None ->
  calculate_status3 strptime now r = Return "Aktywna" /\
  forall r',
    row_get r' "ID Subskrypcji Klienta" = row_get r "ID Subskrypcji Klienta" ->
    is_blank (row_get r' "Data wygaśnięcia") = true ->
    calculate_status3 strptime now r' = calculate_status3 strptime now r.
Proof.
  intros Hid Hs H1 H2.
  assert (Hr : calculate_status3 strptime now r = Return "Aktywna").
  { unfold identity_present in Hid. apply negb_true_iff in Hid.
    unfold calculate_status3. rewrite Hid, Hs.
    unfold convert_expiration. simpl.
    destruct (String.eqb s ""); simpl; [reflexivity|].
    rewrite H1, H2. reflexivity. }
  split; [exact Hr|].
  intros r' Hid' Hb. rewrite Hr.
  unfold identity_present in Hid. apply negb_true_iff in Hid.
  unfold calculate_status3. rewrite Hid', Hid.
  unfold convert_expiration. rewrite Hb. reflexivity.
Qed.

Lemma calculate_status3_unparsable_witness :
  calculate_status3 strptime_fixed noon
    [("ID Subskrypcji Klienta", Num 17); ("Data wygaśnięcia", Str "31/12/2026")]
  = Return "Aktywna" /\
  forall r',
    row_get r' "ID Subskrypcji Klienta" = Num 17 ->
    is_blank (row_get r' "Data wygaśnięcia") = true ->
    calculate_status3 strptime_fixed noon r'
    = calculate_status3 strptime_fixed noon
        [("ID Subskrypcji Klienta", Num 17);
         ("Data wygaśnięcia", Str "31/12/2026")].
Proof.
  apply (calculate_status3_unparsable strptime_fixed noon
           [("ID Subskrypcji Klienta", Num 17);
            ("Data wygaśnięcia", Str "31/12/2026")] "31/12/2026");
    reflexivity.
Defined.

End Status3Props.

(** ** Invoice status *)

Module InvoicesProps.
Import Dates Invoices.

Lemma dt_raises_value_error (y m d : Z) (e : exn) :
  dt y m d = Raise e -> e = ValueError.
Proof.
  unfold dt.
  destruct (negb _); [congruence|].
  destruct (negb _); [congruence|].
  destruct (negb _); congruence.
Qed.

Lemma dt_returns (y m d : Z) (t : datetime) :
  dt y m d = Return t ->
  valid_year y /\ 1 <= m <= 12 /\ 1 <= d <= days_in_month y m /\
  t = mk_datetime y m d 0 0 0 0.
Proof.
  unfold dt, valid_year.
  destruct ((1 <=? y) && (y <=? 9999)) eqn:Hy; simpl; [|discriminate].
  destruct ((1 <=? m) && (m <=? 12)) eqn:Hm; simpl; [|discriminate].
  destruct ((1 <=? d) && (d <=? days_in_month y m)) eqn:Hd; simpl;
    [|discriminate].
  intros [= <-].
  apply andb_prop in Hy, Hm, Hd.
  destruct Hy as [?%Z.leb_le ?%Z.leb_le].
  destruct Hm as [?%Z.leb_le ?%Z.leb_le].
  destruct Hd as [?%Z.leb_le ?%Z.leb_le].
  repeat split; assumption.
Qed.

Lemma dt_valid (y m d : Z) :
  valid_year y -> 1 <= m <= 12 -> 1 <= d <= days_in_month y m ->
  dt y m d = Return (mk_datetime y m d 0 0 0 0).
Proof.
  unfold dt, valid_year. intros Hy Hm Hd.
  replace ((1 <=? y) && (y <=? 9999)) with true
    by (symmetry; apply andb_true_intro; split; apply Z.leb_le; lia).
  replace ((1 <=? m) && (m <=? 12)) with true
    by (symmetry; apply andb_true_intro; split; apply Z.leb_le; lia).
  replace ((1 <=? d) && (d <=? days_in_month y m)) with true
    by (symmetry; apply andb_true_intro; split; apply Z.leb_le; lia).
  reflexivity.
Qed.

Lemma days_in_month_bounds (y m : Z) : 28 <= days_in_month y m <= 31.
Proof.
  unfold days_in_month.
  destruct (m =? 2); [destruct (is_leap y); lia|].
  destruct ((m =? 4) || (m =? 6) || (m =? 9) || (m =? 11)); lia.
Qed.

Lemma days_in_month_31 (y m : Z) :
  1 <= m <= 12 -> (days_in_month y m = 31 <-> has_31_days m).
Proof.
  intros Hm. unfold has_31_days.
  assert (Hcases : m = 1 \/ m = 2 \/ m = 3 \/ m = 4 \/ m = 5 \/ m = 6 \/
                   m = 7 \/ m = 8 \/ m = 9 \/ m = 10 \/ m = 11 \/ m = 12)
    by lia.
  unfold days_in_month.
  repeat (destruct Hcases as [->|Hcases]); try subst m; simpl;
    try (destruct (is_leap y)); split; intros H;
    try lia; try reflexivity; try (simpl; tauto);
    repeat (destruct H as [H|H]; try discriminate H); try contradiction.
Qed.

Lemma has_fewer_days_not_31 (m : Z) : has_fewer_days m -> ~ has_31_days m.
Proof.
  unfold has_fewer_days, has_31_days. simpl. intros H H'.
  repeat (destruct H as [<-|H]; [lia|]). contradiction.
Qed.

(** Day 31 exists exactly in the seven long months. *)
Lemma dt_31 (y m : Z) :
  (has_fewer_days m -> dt y m 31 = Raise ValueError) /\
  (returns (dt y m 31) -> has_31_days m) /\
  (valid_year y -> has_31_days m -> returns (dt y m 31)).
Proof.
  assert (Hret : returns (dt y m 31) -> has_31_days m).
  { intros [t Ht]. apply dt_returns in Ht.
    destruct Ht as (_ & Hm & Hd & _).
    apply (days_in_month_31 y m Hm).
    pose proof (days_in_month_bounds y m). lia. }
  split; [|split].
  - intros Hf. destruct (dt y m 31) as [t|e] eqn:Hdt.
    + exfalso. apply (has_fewer_days_not_31 m Hf).
      apply Hret. exists t. reflexivity.
    + f_equal. eapply dt_raises_value_error. exact Hdt.
  - exact Hret.
  - intros Hy H31. eexists. apply dt_valid; [exact Hy| |].
    + unfold has_31_days in H31. simpl in H31. lia.
    + assert (1 <= m <= 12) by (unfold has_31_days in H31; simpl in H31; lia).
      apply (days_in_month_31 y m) in H31; [lia|assumption].
Qed.

Lemma cell_is_eq (c : cell) (l : string) : cell_is c l = true -> c = Str l.
Proof.
  destruct c; simpl; try discriminate.
  intros H. apply String.eqb_eq in H. now subst.
Qed.

(** C9. For a row with a payment-subscription reference and a monthly or
    yearly plan, [calculate_invoice_status_last_2_months] builds day 31 of
    the second configured month: with a second month of fewer than 31 days
    the call raises [ValueError]; it returns only if the second month has
    31 days, and it does return for such a month when the other settings
    are valid. *)
Theorem last_2_months_needs_31_days (r : row) (invoices_df : list invoice)
  (cfg : last_2_months_config) :
  has_stripe_reference r ->
  has_plan_type r "miesięczny" \/ has_plan_type r "roczny" ->
  (has_fewer_days (l2_month2 cfg) ->
     calculate_invoice_status_last_2_months r invoices_df cfg
     = Raise ValueError) /\
  (returns (calculate_invoice_status_last_2_months r invoices_df cfg) ->
     has_31_days (l2_month2 cfg)) /\
  (has_31_days (l2_month2 cfg) ->
     1 <= l2_month1 cfg <= 12 ->
     valid_year (l2_year cfg) ->
     valid_year (l2_yearly_subscription_start_year cfg) ->
     returns (calculate_invoice_status_last_2_months r invoices_df cfg)).
Proof.
  intros (sid & Hsid & Hblank) Hplan.
  destruct (dt_31 (l2_year cfg) (l2_month2 cfg)) as (Hraise & Hret & Hok).
  unfold calculate_invoice_status_last_2_months.
  rewrite Hsid. simpl. rewrite Hblank.
  destruct Hplan as [(c & Hc & Hty)|(c & Hc & Hty)];
    rewrite Hc; simpl; pose proof (cell_is_eq _ _ Hty) as ->; simpl.
  - (* monthly *)
    split; [|split].
    + intros Hf. rewrite (Hraise Hf).
      destruct (dt (l2_year cfg) (l2_month1 cfg) 1) as [s|e] eqn:Hs; simpl;
        [reflexivity|].
      f_equal. eapply dt_raises_value_error. exact Hs.
    + intros [v Hv]. apply Hret.
      destruct (dt (l2_year cfg) (l2_month1 cfg) 1); simpl in Hv;
        [|discriminate].
      destruct (dt (l2_year cfg) (l2_month2 cfg) 31) as [t|];
        [exists t; reflexivity|discriminate].
    + intros H31 Hm1 Hy _.
      rewrite (dt_valid (l2_year cfg) (l2_month1 cfg) 1 Hy Hm1)
        by (pose proof (days_in_month_bounds (l2_year cfg) (l2_month1 cfg));
            lia).
      destruct (Hok Hy H31) as [t ->]. simpl. eexists. reflexivity.
  - (* yearly *)
    split; [|split].
    + intros Hf. rewrite (Hraise Hf).
      destruct (dt (l2_yearly_subscription_start_year cfg) (l2_month2 cfg) 1)
        as [s|e] eqn:Hs; simpl; [reflexivity|].
      f_equal. eapply dt_raises_value_error. exact Hs.
    + intros [v Hv]. apply Hret.
      destruct (dt (l2_yearly_subscription_start_year cfg) (l2_month2 cfg) 1);
        simpl in Hv; [|discriminate].
      destruct (dt (l2_year cfg) (l2_month2 cfg) 31) as [t|];
        [exists t; reflexivity|discriminate].
    + intros H31 _ Hy Hsy.
      assert (Hm2 : 1 <= l2_month2 cfg <= 12)
        by (unfold has_31_days in H31; simpl in H31; lia).
      rewrite (dt_valid (l2_yearly_subscription_start_year cfg)
                 (l2_month2 cfg) 1 Hsy Hm2)
        by (pose proof (days_in_month_bounds
                          (l2_yearly_subscription_start_year cfg)
                          (l2_month2 cfg)); lia).
      destruct (Hok Hy H31) as [t ->]. simpl. eexists. reflexivity.
Qed.

Lemma last_2_months_needs_31_days_witness :
  calculate_invoice_status_last_2_months
    [("ID Suba STRIPE", Str "sub_1"); ("Typ pakietu", Str "miesięczny")]
    [] (mk_last_2_months_config 5 6 2025 2024)
  = Raise ValueError /\
  returns (calculate_invoice_status_last_2_months
             [("ID Suba STRIPE", Str "sub_1"); ("Typ pakietu", Str "roczny")]
             [] (mk_last_2_months_config 6 7 2025 2024)).
Proof.
  split.
  - apply (last_2_months_needs_31_days
             [("ID Suba STRIPE", Str "sub_1"); ("Typ pakietu", Str "miesięczny")]
             [] (mk_last_2_months_config 5 6 2025 2024)).
    + exists (Str "sub_1"). split; reflexivity.
    + left. exists (Str "miesięczny"). split; reflexivity.
    + unfold has_fewer_days. simpl. tauto.
  - apply (last_2_months_needs_31_days
             [("ID Suba STRIPE", Str "sub_1"); ("Typ pakietu", Str "roczny")]
             [] (mk_last_2_months_config 6 7 2025 2024)).
    + exists (Str "sub_1"). split; reflexivity.
    + right. exists (Str "roczny"). split; reflexivity.
    + unfold has_31_days. simpl. tauto.
    + simpl. lia.
    + unfold valid_year. simpl. lia.
    + unfold valid_year. simpl. lia.
Defined.

(** Without a payment-subscription reference the status is undetermined. *)
Lemma chosen_month_no_reference (r : row) (invoices_df : list invoice)
  (cfg : chosen_month_config) (c : cell) :
  row_item r "ID Suba STRIPE" = Return c -> is_blank c = true ->
  calculate_invoice_status_chosen_month r invoices_df cfg
  = Return (Str "Nie można określić").
Proof.
  intros Hc Hb. unfold calculate_invoice_status_chosen_month.
  rewrite Hc. simpl. rewrite Hb. reflexivity.
Qed.

(** For a yearly plan and a chosen month that has a day 30, the status is
    the payment status of the first invoice of the subscription created
    between day 1 of that month in the start year and day 30 of that month
    in the chosen year, and the empty string when there is none. *)
Lemma chosen_month_yearly_window (r : row) (invoices_df : list invoice)
  (cfg : chosen_month_config) (sid : cell) :
  row_item r "ID Suba STRIPE" = Return sid -> is_blank sid = false ->
  has_plan_type r "roczny" ->
  valid_year (cm_year cfg) ->
  valid_year (cm_yearly_subscription_start_year cfg) ->
  1 <= cm_month cfg <= 12 -> cm_month cfg <> 2 ->
  calculate_invoice_status_chosen_month r invoices_df cfg
  = Return (first_status
              (filter (in_window sid
                         (mk_datetime (cm_yearly_subscription_start_year cfg)
                            (cm_month cfg) 1 0 0 0 0)
                         (mk_datetime (cm_year cfg) (cm_month cfg) 30 0 0 0 0))
                 invoices_df)).
Proof.
  intros Hsid Hb (c & Hc & Hty) Hy Hsy Hm Hfeb.
  unfold calculate_invoice_status_chosen_month.
  rewrite Hsid. simpl. rewrite Hb, Hc. simpl.
  apply cell_is_eq in Hty. subst c. simpl.
  rewrite (dt_valid _ _ 1 Hsy Hm)
    by (pose proof (days_in_month_bounds
                      (cm_yearly_subscription_start_year cfg) (cm_month cfg));
        lia).
  rewrite (dt_valid _ _ 30 Hy Hm).
  - reflexivity.
  - split; [lia|]. unfold days_in_month.
    destruct (Z.eqb_spec (cm_month cfg) 2); [contradiction|].
    destruct (_ || _); lia.
Qed.

Lemma chosen_month_yearly_window_witness :
  calculate_invoice_status_chosen_month yearly_row
    [invoice_on 2025 7 31 "paid"; invoice_on 2025 7 30 "open"]
    (mk_chosen_month_config 7 2025 2024)
  = Return (first_status
              (filter (in_window (Str "sub_1")
                         (mk_datetime 2024 7 1 0 0 0 0)
                         (mk_datetime 2025 7 30 0 0 0 0))
                 [invoice_on 2025 7 31 "paid"; invoice_on 2025 7 30 "open"])).
Proof.
  apply (chosen_month_yearly_window yearly_row
           [invoice_on 2025 7 31 "paid"; invoice_on 2025 7 30 "open"]
           (mk_chosen_month_config 7 2025 2024) (Str "sub_1")).
  - reflexivity.
  - reflexivity.
  - exists (Str "roczny"). split; reflexivity.
  - unfold valid_year. simpl. lia.
  - unfold valid_year. simpl. lia.
  - simpl. lia.
  - simpl. lia.
Defined.

(** The window on concrete invoices: the invoice of 31 July is outside,
    the one of 30 July inside; with only a day-31 invoice the status is
    the empty string. *)
Example chosen_month_yearly_examples :
  calculate_invoice_status_chosen_month yearly_row
    [invoice_on 2025 7 31 "paid"; invoice_on 2025 7 30 "open"]
    (mk_chosen_month_config 7 2025 2024)
  = Return (Str "open") /\
  calculate_invoice_status_chosen_month yearly_row
    [invoice_on 2025 7 31 "paid"]
    (mk_chosen_month_config 7 2025 2024)
  = Return (Str "") /\
  calculate_invoice_status_chosen_month yearly_row
    [invoice_on 2024 7 1 "paid"; invoice_on 2025 7 30 "open"]
    (mk_chosen_month_config 7 2025 2024)
  = Return (Str "paid") /\
  calculate_invoice_status_chosen_month
    [("ID Suba STRIPE", NaN); ("Typ pakietu", Str "roczny")]
    [invoice_on 2025 7 30 "open"]
    (mk_chosen_month_config 2 2025 2024)
  = Return (Str "Nie można określić") /\
  Enhanced.calculate_invoice_status_chosen_month yearly_row
    [invoice_on 2025 6 30 "paid"]
    Enhanced.default_chosen_month Enhanced.default_chosen_year
  = Return (Str "paid").
Proof. repeat split; vm_compute; reflexivity. Qed.

(** Midnight of day 31 is after the upper bound, midnight of day 30. *)
Lemma day_31_excluded (y m : Z) :
  dt_le (mk_datetime y m 31 0 0 0 0) (mk_datetime y m 30 0 0 0 0) = false /\
  dt_le (mk_datetime y m 30 0 0 0 0) (mk_datetime y m 30 0 0 0 0) = true.
Proof.
  unfold dt_le, dt_compare, fields. simpl.
  rewrite !Z.compare_refl. split; reflexivity.
Qed.

(** C7 (yearly plan, chosen month February).  Day 30 of February does not
    exist: for a yearly row with a payment-subscription reference the call
    raises [ValueError] whatever the invoices and the years, where the
    monthly branch returns for the same settings. *)
Theorem chosen_month_february_raises (invoices_df : list invoice)
  (chosen_year yearly_start_year : Z) :
  calculate_invoice_status_chosen_month yearly_row
    invoices_df (mk_chosen_month_config 2 chosen_year yearly_start_year)
  = Raise ValueError /\
  returns (calculate_invoice_status_chosen_month monthly_row
             invoices_df
             (mk_chosen_month_config 2 chosen_year yearly_start_year)).
Proof.
  split.
  - unfold calculate_invoice_status_chosen_month. simpl.
    assert (H30 : dt chosen_year 2 30 = Raise ValueError).
    { destruct (dt chosen_year 2 30) as [t|e] eqn:Hdt.
      - apply dt_returns in Hdt. destruct Hdt as (_ & _ & Hd & _).
        unfold days_in_month in Hd. simpl in Hd.
        destruct (is_leap chosen_year); lia.
      - f_equal. eapply dt_raises_value_error. exact Hdt. }
    rewrite H30.
    destruct (dt yearly_start_year 2 1) as [s|e] eqn:Hs; simpl;
      [reflexivity|].
    f_equal. eapply dt_raises_value_error. exact Hs.
  - eexists. reflexivity.
Qed.

End InvoicesProps.

(** ** Tax identifier *)

Module NipProps.
Import Dates Nip.

Lemma all_digits_string_of_uint (d : Decimal.uint) :
  all_digits (NilEmpty.string_of_uint d) = true.
Proof. induction d; simpl; try reflexivity; exact IHd. Qed.

Lemma string_of_uint_nonempty (d : Decimal.uint) :
  NilZero.string_of_uint d <> "".
Proof. destruct d; simpl; discriminate. Qed.

Lemma all_digits_nilzero (d : Decimal.uint) :
  all_digits (NilZero.string_of_uint d) = true.
Proof.
  destruct d; try reflexivity;
    apply (all_digits_string_of_uint (_ d)).
Qed.

(** [str(n)] of a natural number is a non-empty string of digits, and
    [int] reads it back. *)
Lemma py_str_digits (n : Z) : 0 <= n -> isdigit (py_str n) = true.
Proof.
  intros Hn. unfold isdigit, py_str.
  destruct n as [|p|p]; [reflexivity| |lia].
  simpl. rewrite all_digits_nilzero.
  destruct (String.eqb_spec (NilZero.string_of_uint (Pos.to_uint p)) "")
    as [He|_]; [|reflexivity].
  exfalso. exact (string_of_uint_nonempty _ He).
Qed.

Lemma py_int_py_str (n : Z) : py_int (py_str n) = Return n.
Proof.
  unfold py_int, py_str.
  rewrite NilZero.isi.
  - now rewrite DecimalZ.of_to.
  - destruct n; simpl; try discriminate.
    intros [= H]. exact (Unsigned.to_uint_nonnil _ H).
  - destruct n; simpl; try discriminate.
    intros [= H]. exact (Unsigned.to_uint_nonnil _ H).
Qed.

Lemma is_digit_not_space (c : ascii) : is_digit c = true -> is_space c = false.
Proof.
  unfold is_digit, is_space. change (ord "0") with 48. change (ord "9") with 57.
  intros H. apply andb_prop in H. destruct H as [H1%Z.leb_le H2%Z.leb_le].
  apply orb_false_intro; apply andb_false_iff.
  - right. apply Z.leb_gt. lia.
  - right. apply Z.leb_gt. lia.
Qed.

Lemma rstrip_digits (s : string) : all_digits s = true -> rstrip s = s.
Proof.
  induction s as [|c s IH]; simpl; [reflexivity|].
  intros H. apply andb_prop in H. destruct H as [Hc Hs].
  rewrite (is_digit_not_space c Hc). simpl. now rewrite IH.
Qed.

Lemma strip_digits (s : string) : all_digits s = true -> strip s = s.
Proof.
  intros H. unfold strip.
  assert (Hl : lstrip s = s).
  { destruct s as [|c s]; [reflexivity|]. simpl in *.
    apply andb_prop in H. destruct H as [Hc _].
    now rewrite (is_digit_not_space c Hc). }
  rewrite Hl. now apply rstrip_digits.
Qed.

Lemma lstrip_length (s : string) :
  (String.length (lstrip s) <= String.length s)%nat.
Proof.
  induction s as [|c s IH]; simpl; [lia|].
  destruct (is_space c); simpl; lia.
Qed.

Lemma rstrip_length (s : string) :
  (String.length (rstrip s) <= String.length s)%nat.
Proof.
  induction s as [|c s IH]; simpl; [lia|].
  destruct (is_space c && String.eqb (rstrip s) ""); simpl; lia.
Qed.

Lemma strip_length (s : string) :
  (String.length (strip s) <= String.length s)%nat.
Proof.
  unfold strip. pose proof (rstrip_length (lstrip s)).
  pose proof (lstrip_length s). lia.
Qed.

Lemma zeros_length (n : nat) : String.length (zeros n) = n.
Proof. induction n; simpl; [reflexivity|now rewrite IHn]. Qed.

(** On a string that starts with a digit [zfill] only prepends zeros. *)
Lemma zfill_digits (w : nat) (s : string) :
  all_digits s = true -> zfill w s = zeros (w - String.length s) ++ s.
Proof.
  destruct s as [|c s]; simpl; [intros _; now rewrite append_nil_r|].
  intros H. apply andb_prop in H. destruct H as [Hc _].
  unfold is_digit in Hc. change (ord "0") with 48 in Hc.
  change (ord "9") with 57 in Hc.
  apply andb_prop in Hc. destruct Hc as [H1%Z.leb_le H2%Z.leb_le].
  destruct (Ascii.eqb_spec c "+") as [->|_];
    [change (ord "+") with 43 in H1; lia|].
  destruct (Ascii.eqb_spec c "-") as [->|_];
    [change (ord "-") with 45 in H1; lia|].
  reflexivity.
Qed.

(** The numeric branch: at least ten characters, zeros then the decimal
    digits of the number. *)
Lemma pad_nip_spec (n : Z) :
  0 <= n ->
  pad_nip n = zeros (10 - String.length (py_str n)) ++ py_str n /\
  (10 <= String.length (pad_nip n))%nat.
Proof.
  intros Hn. unfold pad_nip.
  pose proof (py_str_digits n Hn) as Hd. unfold isdigit in Hd.
  apply andb_prop in Hd. destruct Hd as [_ Hd].
  destruct (Nat.ltb_spec (String.length (py_str n)) 10) as [Hlt|Hge].
  - rewrite (zfill_digits 10 _ Hd). split; [reflexivity|].
    rewrite length_append, zeros_length. lia.
  - replace (10 - String.length (py_str n))%nat with O by lia.
    split; [reflexivity|lia].
Qed.

(** [int] succeeds on every non-empty string of ASCII digits. *)
Lemma uint_of_string_digits (s : string) :
  all_digits s = true -> exists d, NilEmpty.uint_of_string s = Some d.
Proof.
  induction s as [|c s IH]; simpl; [intros _; eexists; reflexivity|].
  intros H. apply andb_prop in H. destruct H as [Hc Hs].
  destruct (IH Hs) as [d Hd]. rewrite Hd.
  unfold is_digit in Hc. change (ord "0") with 48 in Hc.
  change (ord "9") with 57 in Hc.
  apply andb_prop in Hc. destruct Hc as [H1%Z.leb_le H2%Z.leb_le].
  assert (Hcases : ord c = 48 \/ ord c = 49 \/ ord c = 50 \/ ord c = 51 \/
                   ord c = 52 \/ ord c = 53 \/ ord c = 54 \/ ord c = 55 \/
                   ord c = 56 \/ ord c = 57) by lia.
  rewrite <- (SheetProps.chr_ord c).
  repeat (destruct Hcases as [->|Hcases]; [eexists; reflexivity|]).
  rewrite Hcases. eexists; reflexivity.
Qed.

Lemma py_int_digits (s : string) :
  isdigit s = true -> returns (py_int s).
Proof.
  unfold isdigit, py_int. intros H. apply andb_prop in H.
  destruct H as [Hne Hd].
  destruct s as [|c s]; [discriminate|].
  destruct (uint_of_string_digits _ Hd) as [d Hu].
  unfold NilZero.int_of_string.
  destruct (Ascii.eqb_spec c "-") as [->|_]; [discriminate|].
  unfold NilZero.uint_of_string. rewrite Hu. simpl. eexists. reflexivity.
Qed.

Lemma py_int_digits_nonneg (s : string) (n : Z) :
  isdigit s = true -> py_int s = Return n -> 0 <= n.
Proof.
  unfold isdigit, py_int. intros H. apply andb_prop in H.
  destruct H as [_ Hd].
  destruct s as [|c s]; [discriminate|].
  unfold NilZero.int_of_string.
  destruct (Ascii.eqb_spec c "-") as [->|_]; [discriminate|].
  destruct (NilZero.uint_of_string (String c s)) as [d|]; simpl;
    [|discriminate].
  intros [= <-]. unfold Z.of_uint. apply N2Z.is_nonneg.
Qed.

Lemma rstrip_rstrip (s : string) : rstrip (rstrip s) = rstrip s.
Proof.
  induction s as [|c s IH]; [reflexivity|]. simpl.
  destruct (is_space c) eqn:Hc; simpl.
  - destruct (String.eqb_spec (rstrip s) "") as [He|Hne]; [reflexivity|].
    simpl. rewrite Hc, IH. simpl.
    destruct (String.eqb_spec (rstrip s) ""); [contradiction|reflexivity].
  - rewrite Hc, IH. reflexivity.
Qed.

(** A string that does not start with a space keeps its first character
    under [rstrip]. *)
Lemma lstrip_rstrip_lstrip (s : string) :
  lstrip (rstrip (lstrip s)) = rstrip (lstrip s).
Proof.
  induction s as [|c s IH]; [reflexivity|]. simpl.
  destruct (is_space c) eqn:Hc; [exact IH|].
  simpl. rewrite Hc. simpl. rewrite Hc. reflexivity.
Qed.

Lemma strip_strip (s : string) : strip (strip s) = strip s.
Proof.
  unfold strip. rewrite lstrip_rstrip_lstrip. apply rstrip_rstrip.
Qed.

Lemma int_of_float_nonneg (q : Q) : (0 < q)%Q -> 0 <= int_of_float q.
Proof.
  unfold int_of_float, Qlt. simpl. intros H.
  apply Z.quot_pos; lia.
Qed.

Lemma extract_client_nip_int (n : Z) :
  extract_client_nip (task_with_nip (JInt n)) = if 0 <? n then pad_nip n else "".
Proof. reflexivity. Qed.

Lemma extract_client_nip_float (q : Q) :
  extract_client_nip (task_with_nip (JFloat q))
  = if Qlt_le_dec 0 q then pad_nip (int_of_float q) else "".
Proof. reflexivity. Qed.

(** *** The ASCII runtime satisfies what is used of the runtime *)

Lemma ascii_text_digits (s : string) :
  all_digits s = true -> ascii_text s = true.
Proof.
  induction s as [|c s IH]; simpl; [reflexivity|].
  intros H. apply andb_prop in H. destruct H as [Hc Hs].
  rewrite (IH Hs), andb_true_r.
  unfold is_digit in Hc. change (ord "9") with 57 in Hc.
  apply andb_prop in Hc. destruct Hc as [_ H2%Z.leb_le].
  apply Z.ltb_lt. lia.
Qed.

Lemma ascii_text_py_str (n : Z) : 0 <= n -> ascii_text (py_str n) = true.
Proof.
  intros Hn. apply ascii_text_digits.
  pose proof (py_str_digits n Hn) as Hd. unfold isdigit in Hd.
  apply andb_prop in Hd. tauto.
Qed.

Lemma contains_digits (s : string) :
  all_digits s = true -> contains "." s = false.
Proof.
  induction s as [|c s IH]; simpl; [reflexivity|].
  intros H. apply andb_prop in H. destruct H as [Hc Hs].
  rewrite (IH Hs), orb_false_r.
  destruct (Ascii.eqb_spec c ".") as [->|_]; [discriminate Hc|reflexivity].
Qed.

Lemma contains_lstrip (s : string) :
  contains "." (lstrip s) = contains "." s.
Proof.
  induction s as [|c s IH]; simpl; [reflexivity|].
  destruct (is_space c) eqn:Hc; [|reflexivity].
  rewrite IH. destruct (Ascii.eqb_spec c ".") as [->|_];
    [discriminate Hc|reflexivity].
Qed.

Lemma contains_rstrip (s : string) :
  contains "." (rstrip s) = contains "." s.
Proof.
  induction s as [|c s IH]; simpl; [reflexivity|].
  destruct (is_space c) eqn:Hc; simpl.
  - destruct (String.eqb_spec (rstrip s) "") as [He|_].
    + rewrite <- IH, He. simpl.
      destruct (Ascii.eqb_spec c ".") as [->|_];
        [discriminate Hc|reflexivity].
    + simpl. now rewrite IH.
  - now rewrite IH.
Qed.

Lemma contains_app (s t : string) :
  contains "." (s ++ t) = contains "." s || contains "." t.
Proof.
  induction s as [|c s IH]; simpl; [reflexivity|].
  rewrite IH. apply orb_assoc.
Qed.

Lemma ascii_python : python ascii_library.
Proof.
  constructor; simpl.
  - reflexivity.
  - reflexivity.
  - reflexivity.
  - apply strip_strip.
  - intros s n Hd Hn. split.
    + exact (py_int_digits_nonneg s n Hd Hn).
    + apply py_int_py_str.
  - intros q.
    destruct (isdigit (strip (py_str (int_of_float q) ++ ".0"))) eqn:Hd;
      [|reflexivity].
    unfold isdigit in Hd. apply andb_prop in Hd. destruct Hd as [_ Hd].
    apply contains_digits in Hd. unfold strip in Hd.
    rewrite contains_rstrip, contains_lstrip, contains_app in Hd.
    simpl in Hd. rewrite orb_true_r in Hd. discriminate Hd.
Qed.

(** *** [process_nip] *)

Section Runtime.

Variable py : library.
Hypothesis runtime : python py.

Lemma process_nip_str (s : string) :
  s <> "" ->
  process_nip py (NipStr s) =
  if str_isdigit py (str_strip py s)
  then (n <- int_of_str py (str_strip py s) ;; Return (NipInt n))
  else Return (NipStr (str_strip py s)).
Proof. destruct s; [congruence|reflexivity]. Qed.

(** The decimal text of a natural number goes through the three
    operations as ASCII text. *)
Lemma py_str_runtime (n : Z) :
  0 <= n ->
  str_strip py (py_str n) = py_str n /\
  str_isdigit py (py_str n) = true.
Proof.
  intros Hn. pose proof (py_str_digits n Hn) as Hd.
  pose proof (ascii_text_py_str n Hn) as Ha.
  rewrite (strip_ascii py runtime _ Ha), (isdigit_ascii py runtime _ Ha).
  split; [|exact Hd].
  apply strip_digits. unfold isdigit in Hd. apply andb_prop in Hd. tauto.
Qed.

(** An integer that [int] has read is left as it is. *)
Lemma process_nip_read (s : string) (n : Z) :
  str_isdigit py s = true -> int_of_str py s = Return n ->
  process_nip py (NipInt n) = Return (NipInt n).
Proof.
  intros Hd Hn.
  destruct (int_digits py runtime s n Hd Hn) as [Hpos Hback].
  destruct (py_str_runtime n Hpos) as [Hs Hi].
  unfold process_nip, str_of. rewrite Hs, Hi, Hback. reflexivity.
Qed.

Lemma process_nip_nat (n : Z) :
  0 <= n -> (String.length (py_str n) <= max_str_digits)%nat ->
  process_nip py (NipInt n) = Return (NipInt n).
Proof.
  intros Hn Hlen. destruct (py_str_runtime n Hn) as [Hs Hi].
  unfold process_nip, str_of. rewrite Hs, Hi.
  rewrite (int_ascii py runtime _ (py_str_digits n Hn) Hlen), py_int_py_str.
  reflexivity.
Qed.

(** The common part of [process_nip] on the text [t] of a cell: what it
    returns is left as it is by a second pass. *)
Lemma normalise_text (t : string) (r : nip_cell) :
  (if str_isdigit py (str_strip py t)
   then n <- int_of_str py (str_strip py t) ;; Return (NipInt n)
   else Return (NipStr (str_strip py t))) = Return r ->
  process_nip py r = Return r.
Proof.
  destruct (str_isdigit py (str_strip py t)) eqn:Hd.
  - destruct (int_of_str py (str_strip py t)) as [n|e] eqn:Hn; simpl;
      [|discriminate].
    intros [= <-]. exact (process_nip_read _ _ Hd Hn).
  - intros [= <-].
    destruct (string_dec (str_strip py t) "") as [He|Hne];
      [rewrite He; reflexivity|].
    rewrite process_nip_str by exact Hne.
    rewrite (strip_idempotent py runtime), Hd. reflexivity.
Qed.

Lemma process_nip_fixed (v r : nip_cell) :
  process_nip py v = Return r -> process_nip py r = Return r.
Proof.
  destruct v as [|s|n|q].
  - now intros [= <-].
  - destruct (string_dec s "") as [->|Hne]; [now intros [= <-]|].
    rewrite process_nip_str by exact Hne. apply normalise_text.
  - apply (normalise_text (py_str n)).
  - apply (normalise_text (str_of_float py q)).
Qed.

(** [process_nip] raises only what [int] raises on the stripped text of
    the cell, when that text passes [isdigit]. *)
Lemma process_nip_raises (v : nip_cell) (e : exn) :
  process_nip py v = Raise e ->
  str_isdigit py (str_strip py (str_of py v)) = true /\
  int_of_str py (str_strip py (str_of py v)) = Raise e.
Proof.
  assert (Hgen : forall t,
            (if str_isdigit py (str_strip py t)
             then n <- int_of_str py (str_strip py t) ;; Return (NipInt n)
             else Return (NipStr (str_strip py t))) = Raise e ->
            str_isdigit py (str_strip py t) = true /\
            int_of_str py (str_strip py t) = Raise e).
  { intros t. destruct (str_isdigit py (str_strip py t)); [|discriminate].
    destruct (int_of_str py (str_strip py t)) as [n|e']; simpl;
      [discriminate|].
    intros [= ->]. now split. }
  destruct v as [|s|n|q].
  - discriminate.
  - destruct (string_dec s "") as [->|Hne]; [discriminate|].
    rewrite process_nip_str by exact Hne. apply Hgen.
  - apply (Hgen (py_str n)).
  - apply (Hgen (str_of_float py q)).
Qed.

(** C4, as stated, fails on the CRM path for an identifier given as text:
    the 7-digit string comes back unchanged, not padded to ten digits. *)
Lemma crm_text_nip_not_padded :
  extract_client_nip (task_with_nip (JStr "1234567")) = "1234567" /\
  extract_client_nip (task_with_nip (JStr "1234567")) <> "0001234567".
Proof. split; [reflexivity|discriminate]. Qed.

(** C4, amended.  On the CRM path an identifier given as a positive
    number, integer or float, is rendered as the decimal text of its
    integral part, padded with zeros on the left to at least ten
    characters (1234567 gives 0001234567), and one given as non-empty text
    is returned unchanged.  On the platform path, text that is not made of
    digits is returned as text, unchanged when it has no white space
    around it (as 123-456-78-90); digits given as text or as an integer
    become that integer; a float cell becomes its text; and nothing is
    padded: a result is the cell itself, an integer, or the stripped text
    of the cell.  The only exception is the one [int] raises on text that
    passes [isdigit]. *)
Theorem nip_normalisation :
  (extract_client_nip (task_with_nip (JInt 1234567)) = "0001234567" /\
   extract_client_nip (task_with_nip (JFloat (1234567 # 1))) = "0001234567" /\
   (forall n, 0 < n ->
      extract_client_nip (task_with_nip (JInt n))
      = zeros (10 - String.length (py_str n)) ++ py_str n /\
      (10 <= String.length (extract_client_nip (task_with_nip (JInt n))))%nat) /\
   (forall q, (0 < q)%Q ->
      extract_client_nip (task_with_nip (JFloat q))
      = zeros (10 - String.length (py_str (int_of_float q)))
        ++ py_str (int_of_float q) /\
      (10 <= String.length
               (extract_client_nip (task_with_nip (JFloat q))))%nat) /\
   (forall s, s <> "" -> extract_client_nip (task_with_nip (JStr s)) = s)) /\
  (process_nip py (NipStr "123-456-78-90") = Return (NipStr "123-456-78-90") /\
   (forall s, s <> "" -> str_isdigit py (str_strip py s) = false ->
      process_nip py (NipStr s) = Return (NipStr (str_strip py s)) /\
      (str_strip py s = s -> process_nip py (NipStr s) = Return (NipStr s))) /\
   process_nip py (NipInt 1234567890) = Return (NipInt 1234567890) /\
   process_nip py (NipStr "1234567890") = Return (NipInt 1234567890) /\
   (forall s, isdigit s = true -> (String.length s <= max_str_digits)%nat ->
      exists n, py_int s = Return n /\
                process_nip py (NipStr s) = Return (NipInt n)) /\
   (forall n, 0 <= n -> (String.length (py_str n) <= max_str_digits)%nat ->
      process_nip py (NipInt n) = Return (NipInt n)) /\
   (forall q, process_nip py (NipFloat q)
              = Return (NipStr (str_strip py (str_of_float py q))))) /\
  (forall v r, process_nip py v = Return r ->
     r = v \/ (exists n, r = NipInt n) \/
     r = NipStr (str_strip py (str_of py v))) /\
  (forall v e, process_nip py v = Raise e ->
     str_isdigit py (str_strip py (str_of py v)) = true /\
     int_of_str py (str_strip py (str_of py v)) = Raise e).
Proof.
  assert (Htext : forall s, s <> "" ->
            str_isdigit py (str_strip py s) = false ->
            process_nip py (NipStr s) = Return (NipStr (str_strip py s))).
  { intros s Hne Hd. rewrite process_nip_str by exact Hne.
    now rewrite Hd. }
  assert (Hdigits : forall s, isdigit s = true ->
            (String.length s <= max_str_digits)%nat ->
            exists n, py_int s = Return n /\
                      process_nip py (NipStr s) = Return (NipInt n)).
  { intros s Hd Hlen. destruct (py_int_digits s Hd) as [n Hn].
    exists n. split; [exact Hn|].
    assert (Ha : ascii_text s = true).
    { apply ascii_text_digits. unfold isdigit in Hd.
      apply andb_prop in Hd. tauto. }
    assert (Hs : strip s = s).
    { apply strip_digits. unfold isdigit in Hd.
      apply andb_prop in Hd. tauto. }
    assert (Hne : s <> "") by (intros ->; discriminate Hd).
    rewrite process_nip_str by exact Hne.
    rewrite (strip_ascii py runtime _ Ha), Hs.
    rewrite (isdigit_ascii py runtime _ Ha), Hd.
    rewrite (int_ascii py runtime _ Hd Hlen), Hn. reflexivity. }
  split; [|split; [|split]].
  - split; [reflexivity|]. split; [reflexivity|]. split; [|split].
    + intros n Hn. rewrite extract_client_nip_int.
      destruct (Z.ltb_spec 0 n); [|lia].
      apply pad_nip_spec. lia.
    + intros q Hq. rewrite extract_client_nip_float.
      destruct (Qlt_le_dec 0 q) as [_|Hle];
        [|exfalso; exact (Qlt_not_le _ _ Hq Hle)].
      apply pad_nip_spec. now apply int_of_float_nonneg.
    + intros s Hs. unfold extract_client_nip. simpl.
      destruct (String.eqb_spec s ""); [contradiction|reflexivity].
  - split; [|split; [|split; [|split; [|split; [|split]]]]].
    + assert (Hs : str_strip py "123-456-78-90" = "123-456-78-90")
        by exact (strip_ascii py runtime "123-456-78-90" eq_refl).
      assert (Hd : str_isdigit py "123-456-78-90" = false)
        by exact (isdigit_ascii py runtime "123-456-78-90" eq_refl).
      rewrite Htext;
        [now rewrite Hs|intros He; discriminate He|now rewrite Hs].
    + intros s Hne Hd. split; [now apply Htext|].
      intros Hs. rewrite Htext by assumption. now rewrite Hs.
    + apply process_nip_nat; [lia|]. apply Nat.leb_le. reflexivity.
    + destruct (Hdigits "1234567890" eq_refl) as (n & Hn & Hp).
      * apply Nat.leb_le. reflexivity.
      * vm_compute in Hn. injection Hn as <-. exact Hp.
    + exact Hdigits.
    + exact process_nip_nat.
    + intros q. unfold process_nip, str_of.
      now rewrite (float_text py runtime q).
  - intros v r H.
    assert (Hgen : forall t,
              (if str_isdigit py (str_strip py t)
               then n <- int_of_str py (str_strip py t) ;; Return (NipInt n)
               else Return (NipStr (str_strip py t))) = Return r ->
              (exists n, r = NipInt n) \/ r = NipStr (str_strip py t)).
    { intros t. destruct (str_isdigit py (str_strip py t)).
      - destruct (int_of_str py (str_strip py t)) as [n|e]; simpl;
          [|discriminate].
        intros [= <-]. left. now exists n.
      - intros [= <-]. now right. }
    destruct v as [|s|n|q].
    + injection H as <-. now left.
    + destruct (string_dec s "") as [->|Hne];
        [injection H as <-; now left|].
      rewrite process_nip_str in H by exact Hne. right. exact (Hgen s H).
    + right. exact (Hgen (py_str n) H).
    + right. exact (Hgen (str_of_float py q) H).
  - exact process_nip_raises.
Qed.

End Runtime.

Lemma nip_normalisation_witness :
  process_nip ascii_library (NipStr "1234567890")
  = Return (NipInt 1234567890) /\
  process_nip ascii_library (NipFloat (1234567890 # 1))
  = Return (NipStr "1234567890.0") /\
  process_nip ascii_library (NipStr " 123-456-78-90 ")
  = Return (NipStr "123-456-78-90").
Proof.
  destruct (nip_normalisation ascii_library ascii_python)
    as (_ & (_ & Htext & _ & Hd & _ & _ & Hf) & _).
  split; [exact Hd|]. split; [exact (Hf (1234567890 # 1))|].
  apply (Htext " 123-456-78-90 "); [discriminate|reflexivity].
Defined.

End NipProps.

(** ** Reconciliation *)

Module JoinProps.
Import Dates Join.

Lemma loc_assign_map (f : canonical_row -> bool)
  (g : canonical_row -> option datetime) (df : list canonical_row) :
  loc_assign df (map f df) (map g df)
  = map (fun r => if f r then set_Data_anulowania r (g r) else r) df.
Proof.
  induction df as [|r df IH]; simpl; [reflexivity|now rewrite IH].
Qed.

Lemma update_cancellation_dates_map (df : list canonical_row) :
  fst (update_cancellation_dates df) = map update_row df.
Proof.
  unfold update_cancellation_dates. simpl.
  apply (loc_assign_map
           (fun r => isna (Data_anulowania r) && notna (Data_wygasniecia r))
           Data_wygasniecia).
Qed.

Lemma update_row_spec (r : canonical_row) :
  Data_anulowania (update_row r)
  = match Data_anulowania r with
    | Some c => Some c
    | None => Data_wygasniecia r
    end /\
  update_row r = set_Data_anulowania r (Data_anulowania (update_row r)).
Proof.
  unfold update_row.
  destruct r as [a b c d e wyg anul h i j k l m n o]. simpl.
  destruct anul as [x|], wyg as [y|]; simpl; split; reflexivity.
Qed.

(** [update_cancellation_dates] keeps the table's length and order and,
    row by row: a null cancellation date stays null when the expiration
    date is null, becomes the expiration date [D] when that is present,
    and a cancellation date that is present is kept; no other column
    changes. *)
Lemma update_cancellation_dates_rows (df : list canonical_row) (i : nat)
  (r : canonical_row) :
  nth_error df i = Some r ->
  List.length (fst (update_cancellation_dates df)) = List.length df /\
  exists r',
    nth_error (fst (update_cancellation_dates df)) i = Some r' /\
    (Data_anulowania r = None -> Data_wygasniecia r = None ->
       Data_anulowania r' = None) /\
    (forall D, Data_anulowania r = None -> Data_wygasniecia r = Some D ->
       Data_anulowania r' = Some D) /\
    (forall C, Data_anulowania r = Some C -> Data_anulowania r' = Some C) /\
    r' = set_Data_anulowania r (Data_anulowania r').
Proof.
  intros Hi. rewrite update_cancellation_dates_map.
  split; [apply length_map|].
  exists (update_row r). split.
  - rewrite nth_error_map, Hi. reflexivity.
  - destruct (update_row_spec r) as [Ha Hset]. rewrite Ha.
    repeat split.
    + intros -> ->. reflexivity.
    + intros D -> ->. reflexivity.
    + intros C ->. reflexivity.
    + rewrite Hset at 1. rewrite Ha. reflexivity.
Qed.

Lemma update_cancellation_dates_rows_witness :
  exists r',
    nth_error (fst (update_cancellation_dates sample_df)) 1 = Some r' /\
    Data_anulowania r' = Some sample_day.
Proof.
  destruct (update_cancellation_dates_rows sample_df 1
              (sample_row (Some sample_day) None) eq_refl)
    as (_ & r' & Hn & _ & HD & _).
  exists r'. split; [exact Hn|].
  apply HD; reflexivity.
Defined.

Example update_cancellation_dates_sample :
  map Data_anulowania (fst (update_cancellation_dates sample_df))
  = [None; Some sample_day; Some (mk_datetime 2025 6 1 2 0 0 0)] /\
  snd (update_cancellation_dates sample_df) = [false; true; false].
Proof. split; reflexivity. Qed.

(** *** The left join *)




(** A row with plan columns comes from a plan with the row's key. *)
Lemma merge_one_matched (subs : list subscription) (u : user_subscription)
  (j : merged_row) (k : Z) :
  In j (merge_one subs u) -> id_y j = Some k ->
  us_subscription_id u = Some k /\
  exists p, In p subs /\ sub_id p = k /\
            price_recurring_interval j = sub_recurring_interval p.
Proof.
  unfold merge_one.
  destruct (filter (key_matches u) subs) as [|q qs] eqn:Hf.
  - intros [<-|[]]. discriminate.
  - intros Hj Hk. apply in_map_iff in Hj. destruct Hj as (p & <- & Hp).
    simpl in Hk. injection Hk as Hk.
    rewrite <- Hf in Hp. apply filter_In in Hp. destruct Hp as [Hin Hm].
    unfold key_matches in Hm.
    destruct (us_subscription_id u) as [k'|]; [|discriminate].
    apply Z.eqb_eq in Hm. subst. split; [reflexivity|].
    exists p. repeat split. exact Hin.
Qed.








Lemma Forall2_right {A B : Type} (R : A -> B -> Prop) (l : list A)
  (l' : list B) :
  Forall2 R l l' -> forall b, In b l' -> exists a, In a l /\ R a b.
Proof.
  induction 1 as [|a b l l' Hab _ IH]; intros x Hx; [destruct Hx|].
  destruct Hx as [<-|Hx].
  - exists a. split; [now left|exact Hab].
  - destruct (IH x Hx) as (a' & Ha' & HR). exists a'.
    split; [now right|exact HR].
Qed.


Section Final.

Variable to_datetime_strict : option string -> result (option datetime).
Variable to_datetime : option string -> option datetime.
Variable py : Nip.library.

Lemma reconcile_steps (users : list user_subscription)
  (subs : list subscription) :
  reconcile to_datetime_strict to_datetime py users subs
  = (rows <- apply (canonical to_datetime_strict to_datetime)
               (filter keep (merge users subs)) ;;
     apply (normalise_nip py) (map update_row rows)).
Proof.
  unfold reconcile.
  destruct (apply _ (filter keep (merge users subs))) as [rows|e]; simpl;
    [|reflexivity].
  rewrite <- update_cancellation_dates_map. reflexivity.
Qed.

(** The columns of a row of the final table, from the merged row it was
    made of. *)
Lemma reconciled_row (j : merged_row) (c0 c : canonical_row) :
  canonical to_datetime_strict to_datetime j = Return c0 ->
  normalise_nip py (update_row c0) = Return c ->
  ID_Subskrypcji_Klienta c = us_id (left j) /\
  ID_Subskrypcji c = id_y j /\
  ID_Klienta c = us_user_id (left j) /\
  Status c = replace2 "canceled" "anulowana" "active" "aktywna"
               (us_status (left j)) /\
  Typ_pakietu c = option_map (replace2 "year" "roczny" "month" "miesięczny")
                    (price_recurring_interval j) /\
  Data_wygasniecia c = to_datetime (us_ends_at (left j)) /\
  Data_anulowania c = match to_datetime (us_canceled_at (left j)) with
                      | Some d => Some d
                      | None => to_datetime (us_ends_at (left j))
                      end /\
  Nip.process_nip py (us_tax_number (left j)) = Return (NIP c).
Proof.
  intros Hcan Hn. unfold canonical in Hcan.
  destruct (to_datetime_strict (us_created_at (left j))) as [z|];
    simpl in Hcan; [|discriminate].
  injection Hcan as <-.
  unfold normalise_nip in Hn.
  destruct (Nip.process_nip py (NIP (update_row _))) as [n|] eqn:Hp;
    simpl in Hn; [|discriminate].
  injection Hn as <-.
  unfold update_row in *. simpl in *.
  destruct (to_datetime (us_canceled_at (left j))) as [d|],
           (to_datetime (us_ends_at (left j))) as [e|];
    simpl in *; repeat split; try reflexivity; exact Hp.
Qed.

(** The final table has one row per kept row of the merge, in the same
    order: whatever relates a kept row to the row made of it relates the
    two tables position by position. *)
Lemma reconcile_aligned (R : merged_row -> canonical_row -> Prop)
  (users : list user_subscription) (subs : list subscription)
  (final : list canonical_row) :
  (forall j c0 c,
     In j (filter keep (merge users subs)) ->
     canonical to_datetime_strict to_datetime j = Return c0 ->
     normalise_nip py (update_row c0) = Return c -> R j c) ->
  reconcile to_datetime_strict to_datetime py users subs = Return final ->
  Forall2 R (filter keep (merge users subs)) final.
Proof.
  rewrite reconcile_steps.
  generalize (filter keep (merge users subs)) as kept.
  intros kept HR H.
  destruct (apply (canonical to_datetime_strict to_datetime) kept)
    as [rows|] eqn:Hrows; simpl in H; [|discriminate].
  revert rows final Hrows H.
  induction kept as [|j kept IH]; intros rows final Hrows H.
  - injection Hrows as <-. injection H as <-. constructor.
  - simpl in Hrows.
    destruct (canonical to_datetime_strict to_datetime j) as [c0|] eqn:Hc0;
      simpl in Hrows; [|discriminate].
    destruct (apply (canonical to_datetime_strict to_datetime) kept)
      as [rows'|]; simpl in Hrows; [|discriminate].
    injection Hrows as <-. simpl in H.
    destruct (normalise_nip py (update_row c0)) as [c|] eqn:Hc;
      simpl in H; [|discriminate].
    destruct (apply (normalise_nip py) (map update_row rows'))
      as [final'|] eqn:Hf; simpl in H; [|discriminate].
    injection H as <-. constructor.
    + exact (HR j c0 c (or_introl eq_refl) Hc0 Hc).
    + apply (IH (fun j' c0' c' Hj' => HR j' c0' c' (or_intror Hj'))
                rows' final' eq_refl Hf).
Qed.

Lemma reconcile_rows (users : list user_subscription)
  (subs : list subscription) (final : list canonical_row) :
  reconcile to_datetime_strict to_datetime py users subs = Return final ->
  forall c, In c final ->
    exists j, In j (filter keep (merge users subs)) /\
      ID_Subskrypcji_Klienta c = us_id (left j) /\
      ID_Subskrypcji c = id_y j /\
      ID_Klienta c = us_user_id (left j) /\
      Status c = replace2 "canceled" "anulowana" "active" "aktywna"
                   (us_status (left j)) /\
      Typ_pakietu c = option_map (replace2 "year" "roczny" "month" "miesięczny")
                        (price_recurring_interval j) /\
      Data_wygasniecia c = to_datetime (us_ends_at (left j)) /\
      Data_anulowania c = match to_datetime (us_canceled_at (left j)) with
                          | Some d => Some d
                          | None => to_datetime (us_ends_at (left j))
                          end.
Proof.
  intros H c Hc.
  pose proof (reconcile_aligned
                (fun j c =>
                   In j (filter keep (merge users subs)) /\
                   exists c0,
                     canonical to_datetime_strict to_datetime j = Return c0 /\
                     normalise_nip py (update_row c0) = Return c)
                users subs final
                (fun j c0 c Hj H0 H1 =>
                   conj Hj (ex_intro _ c0 (conj H0 H1))) H) as Hall.
  destruct (Forall2_right _ _ _ Hall c Hc) as (j & _ & Hj & c0 & H0 & H1).
  exists j. split; [exact Hj|].
  destruct (reconciled_row j c0 c H0 H1)
    as (A1 & A2 & A3 & A4 & A5 & A6 & A7 & _).
  repeat split; assumption.
Qed.

(** C3. After reconciliation the final table has one row per kept row of
    the merge, in order, and in each the expiration date is the converted
    [ends_at] and the cancellation date is settled from the converted
    [canceled_at]: when that is null it stays null if the expiration date
    is null and becomes the expiration date [D] if that is present, and
    when it is present it is kept. *)
Theorem reconciled_cancellation_dates (users : list user_subscription)
  (subs : list subscription) (final : list canonical_row) :
  reconcile to_datetime_strict to_datetime py users subs = Return final ->
  Forall2
    (fun j c =>
       let expiration := to_datetime (us_ends_at (left j)) in
       let cancellation := to_datetime (us_canceled_at (left j)) in
       Data_wygasniecia c = expiration /\
       (cancellation = None -> expiration = None ->
          Data_anulowania c = None) /\
       (forall D, cancellation = None -> expiration = Some D ->
          Data_anulowania c = Some D) /\
       (forall C, cancellation = Some C -> Data_anulowania c = Some C))
    (filter keep (merge users subs)) final.
Proof.
  apply reconcile_aligned. intros j c0 c _ H0 H1. cbv zeta.
  destruct (reconciled_row j c0 c H0 H1)
    as (_ & _ & _ & _ & _ & Hw & Ha & _).
  rewrite Hw, Ha. split; [reflexivity|]. split; [|split].
  - intros -> ->. reflexivity.
  - intros D -> ->. reflexivity.
  - intros C ->. reflexivity.
Qed.

End Final.

Lemma reconciled_cancellation_dates_witness :
  Forall2
    (fun j c =>
       let expiration := sample_to_datetime (us_ends_at (left j)) in
       let cancellation := sample_to_datetime (us_canceled_at (left j)) in
       Data_wygasniecia c = expiration /\
       (cancellation = None -> expiration = None ->
          Data_anulowania c = None) /\
       (forall D, cancellation = None -> expiration = Some D ->
          Data_anulowania c = Some D) /\
       (forall C, cancellation = Some C -> Data_anulowania c = Some C))
    (filter keep (merge sample_users sample_subscriptions)) sample_final.
Proof.
  exact (reconciled_cancellation_dates
           (fun x => Return (sample_to_datetime x)) sample_to_datetime
           Nip.ascii_library sample_users sample_subscriptions sample_final
           eq_refl).
Defined.

(** The sample table: the record with an expiration date and no
    cancellation date ends with the expiration date as its cancellation
    date. *)
Example reconciled_cancellation_dates_sample :
  reconcile (fun x => Return (sample_to_datetime x)) sample_to_datetime
    Nip.ascii_library sample_users sample_subscriptions
  = Return sample_final /\
  map (fun u => (us_ends_at u, us_canceled_at u)) sample_users
  = [(Some "2025-07-01T00:00:00.000000Z", None); (None, None)] /\
  map (fun c => (Data_wygasniecia c, Data_anulowania c)) sample_final
  = [(Some sample_day, Some sample_day)].
Proof. repeat split. Qed.


(** The end-to-end scenario of the specification: a record with a yearly
    plan and one without a plan whose status is neither active nor
    canceled. *)
Example reconcile_scenario :
  let users := [sample_user 17 (Some 5) "active" None None;
                sample_user 18 (Some 6) "past_due" None None] in
  let subs := [mk_subscription 5 (Some "year")] in
  map (fun j => (us_id (left j), id_y j, price_recurring_interval j))
      (merge users subs)
  = [(17, Some 5, Some "year"); (18, None, None)] /\
  map keep (merge users subs) = [true; false] /\
  exists final,
    reconcile (fun _ => Return None) (fun _ => None) Nip.ascii_library
      users subs = Return final /\
    map (fun c => (ID_Subskrypcji_Klienta c, Typ_pakietu c)) final
    = [(17, Some "roczny")].
Proof.
  repeat split. eexists. split; reflexivity.
Qed.

End JoinProps.

(** ** Retry and pagination *)

Module HttpProps.
Import Http.

Section Retry.

Variable A : Type.
Variable send : nat -> outcome A.
Variable max_retries : nat.
Variable delay : Z.

(** The first event of a non-empty run is the request of its first
    attempt. *)
Lemma retry_over_head (a : nat) (rest : list nat) :
  exists evs,
    fst (retry_over send max_retries delay (a :: rest)) = Get a :: evs.
Proof.
  simpl.
  destruct (send a) as [r| |].
  - destruct (status_code r =? 200); [eexists; reflexivity|].
    destruct (status_code r =? 429);
      [destruct (retry_over send max_retries delay rest);
       eexists; reflexivity|].
    destruct (status_code r >=? 500);
      [destruct (retry_over send max_retries delay rest);
       eexists; reflexivity|].
    eexists; reflexivity.
  - destruct (a <? max_retries - 1)%nat;
      destruct (retry_over send max_retries delay rest);
      eexists; reflexivity.
  - destruct (a <? max_retries - 1)%nat;
      destruct (retry_over send max_retries delay rest);
      eexists; reflexivity.
Qed.

(** Attempts that are all retried only add events in front. *)
Lemma retry_over_skip (l1 l2 : list nat) :
  (forall b, In b l1 -> retried (send b) = true) ->
  exists pre,
    retry_over send max_retries delay (l1 ++ l2)
    = ((pre ++ fst (retry_over send max_retries delay l2))%list,
       snd (retry_over send max_retries delay l2)).
Proof.
  induction l1 as [|b l1 IH]; intros Hall.
  - exists []. simpl.
    destruct (retry_over send max_retries delay l2); reflexivity.
  - destruct IH as [pre IH]; [intros c Hc; apply Hall; now right|].
    pose proof (Hall b (or_introl eq_refl)) as Hb.
    simpl. rewrite IH. unfold retried in Hb.
    destruct (send b) as [r| |].
    + destruct (status_code r =? 200); [discriminate|]. simpl in Hb.
      destruct (status_code r =? 429);
        [eexists (Get b :: Sleep _ :: pre); reflexivity|].
      destruct (status_code r >=? 500); [|discriminate].
      eexists (Get b :: Sleep _ :: pre); reflexivity.
    + destruct (b <? max_retries - 1)%nat;
        [eexists (Get b :: Sleep _ :: pre)|eexists (Get b :: pre)];
        reflexivity.
    + destruct (b <? max_retries - 1)%nat;
        [eexists (Get b :: Sleep _ :: pre)|eexists (Get b :: pre)];
        reflexivity.
Qed.

Lemma retry_over_rest (a : nat) :
  (a < max_retries)%nat ->
  if (a + 1 <? max_retries)%nat
  then exists post',
         fst (retry_over send max_retries delay
                (seq (S a) (max_retries - S a)))
         = Get (a + 1) :: post'
  else retry_over send max_retries delay (seq (S a) (max_retries - S a))
       = ([], None).
Proof.
  intros Ha.
  destruct (Nat.ltb_spec (a + 1) max_retries) as [Hlt|Hge].
  - destruct (max_retries - S a)%nat as [|k] eqn:Hk; [lia|].
    simpl seq. replace (a + 1)%nat with (S a) by lia.
    apply retry_over_head.
  - replace (max_retries - S a)%nat with O by lia. reflexivity.
Qed.

Lemma seq_split_at (a : nat) :
  (a < max_retries)%nat ->
  seq 0 max_retries
  = (seq 0 a ++ a :: seq (S a) (max_retries - S a))%list.
Proof.
  intros Ha.
  replace max_retries with (a + S (max_retries - S a))%nat at 1 by lia.
  rewrite seq_app. reflexivity.
Qed.

(** C6, amended.  When attempt [a] is reached, its request is made and:
    a 200 answer is returned at once; a 429 answer is followed by a wait
    of [delay * 2^a] and a 5xx answer by a wait of [delay * (a + 1)], at
    every attempt including the last; a timeout or another request error
    is followed by a wait of [delay * (a + 1)] except at the last attempt,
    where there is none; any other answer is returned at once.  After a
    wait the next attempt's request follows if there is one, and after the
    last attempt nothing follows and [None] is returned. *)
Theorem retry_policy (a : nat) :
  (a < max_retries)%nat ->
  reached send a ->
  exists pre post,
    fst (make_api_request_with_retry send max_retries delay)
    = (pre ++ Get a :: post)%list /\
    let returned := snd (make_api_request_with_retry send max_retries delay) in
    match send a with
    | Responds r =>
        if status_code r =? 200 then post = [] /\ returned = Some r
        else if status_code r =? 429 then
          waits_then max_retries a (delay * 2 ^ Z.of_nat a) post returned
        else if status_code r >=? 500 then
          waits_then max_retries a (delay * (Z.of_nat a + 1)) post returned
        else post = [] /\ returned = Some r
    | Timeout | RequestException =>
        if (a <? max_retries - 1)%nat then
          waits_then max_retries a (delay * (Z.of_nat a + 1)) post returned
        else goes_on max_retries a post returned
    end.
Proof.
  intros Ha Hreached. unfold make_api_request_with_retry.
  rewrite (seq_split_at a Ha).
  destruct (retry_over_skip (seq 0 a) (a :: seq (S a) (max_retries - S a)))
    as [pre Hpre].
  { intros b Hb. apply in_seq in Hb. apply Hreached. lia. }
  rewrite Hpre. simpl fst. simpl snd.
  pose proof (retry_over_rest a Ha) as Hrest.
  set (rest := seq (S a) (max_retries - S a)) in *.
  exists pre. simpl retry_over.
  assert (Hwait : forall w,
    exists post,
      fst (let '(evs, r) := retry_over send max_retries delay rest in
           (Get a :: Sleep w :: evs, r)) = Get a :: post /\
      waits_then max_retries a w post
        (snd (let '(evs, r) := retry_over send max_retries delay rest in
              (Get a :: Sleep w :: evs, r)))).
  { intros w. unfold waits_then.
    destruct (a + 1 <? max_retries)%nat.
    - destruct Hrest as [post' Hp].
      destruct (retry_over send max_retries delay rest) as [evs r].
      simpl in *. subst evs. eexists. split; [reflexivity|].
      eexists. split; [reflexivity|]. eexists. reflexivity.
    - rewrite Hrest. eexists. split; [reflexivity|].
      eexists. split; [reflexivity|]. split; reflexivity. }
  assert (Hgo :
    exists post,
      fst (let '(evs, r) := retry_over send max_retries delay rest in
           (Get a :: evs, r)) = Get a :: post /\
      goes_on max_retries a post
        (snd (let '(evs, r) := retry_over send max_retries delay rest in
              (Get a :: evs, r)))).
  { unfold goes_on.
    destruct (a + 1 <? max_retries)%nat.
    - destruct Hrest as [post' Hp].
      destruct (retry_over send max_retries delay rest) as [evs r].
      simpl in *. subst evs. eexists. split; [reflexivity|].
      eexists. reflexivity.
    - rewrite Hrest. eexists. split; [reflexivity|]. split; reflexivity. }
  destruct (send a) as [r| |].
  - destruct (status_code r =? 200);
      [exists []; split; [reflexivity|split; reflexivity]|].
    destruct (status_code r =? 429).
    { destruct (Hwait (delay * 2 ^ Z.of_nat a)) as (post & Hp & Hw).
      exists post. rewrite Hp. split; [reflexivity|exact Hw]. }
    destruct (status_code r >=? 500).
    { destruct (Hwait (delay * (Z.of_nat a + 1))) as (post & Hp & Hw).
      exists post. rewrite Hp. split; [reflexivity|exact Hw]. }
    exists []. split; [reflexivity|split; reflexivity].
  - destruct (a <? max_retries - 1)%nat.
    + destruct (Hwait (delay * (Z.of_nat a + 1))) as (post & Hp & Hw).
      exists post. rewrite Hp. split; [reflexivity|exact Hw].
    + destruct Hgo as (post & Hp & Hw).
      exists post. rewrite Hp. split; [reflexivity|exact Hw].
  - destruct (a <? max_retries - 1)%nat.
    + destruct (Hwait (delay * (Z.of_nat a + 1))) as (post & Hp & Hw).
      exists post. rewrite Hp. split; [reflexivity|exact Hw].
    + destruct Hgo as (post & Hp & Hw).
      exists post. rewrite Hp. split; [reflexivity|exact Hw].
Qed.

End Retry.

Lemma retry_policy_witness :
  exists pre post,
    fst (make_api_request_with_retry flaky 3 2) = (pre ++ Get 1 :: post)%list /\
    waits_then 3 1 (2 * (1 + 1)) post
      (snd (make_api_request_with_retry flaky 3 2)).
Proof.
  apply (retry_policy unit flaky 3 2 1).
  - lia.
  - intros b Hb. assert (b = O) as -> by lia. reflexivity.
Defined.

(** C6, as stated, fails at the last attempt: after a timeout at attempt
    2 there is no wait of [delay * 3], and after a 429 at attempt 2 the
    wait is not followed by a retry. *)
Lemma last_attempt_timeout_no_wait :
  make_api_request_with_retry (fun _ => @Timeout unit) 3 2
  = ([Get 0; Sleep 2; Get 1; Sleep 4; Get 2], None) /\
  ~ In (Sleep (2 * (2 + 1)))
       (fst (make_api_request_with_retry (fun _ => @Timeout unit) 3 2)) /\
  make_api_request_with_retry
    (fun _ => Responds (@mk_response unit 429 None)) 3 2
  = ([Get 0; Sleep 2; Get 1; Sleep 4; Get 2; Sleep 8], None).
Proof.
  split; [reflexivity|]. split; [|reflexivity].
  simpl. intros H.
  repeat (destruct H as [H|H]; [discriminate H|]). exact H.
Qed.

(** *** Comparisons with an integer page count *)

Lemma Qle_bool_inject_Z (a b : Z) :
  Qle_bool (inject_Z a) (inject_Z b) = (a <=? b).
Proof. unfold Qle_bool. simpl. now rewrite !Z.mul_1_r. Qed.

Lemma int_le_int (n m : Z) :
  PyJson.int_le n (Nip.JInt m) = Return (n <=? m).
Proof.
  unfold PyJson.int_le. cbn [PyJson.number]. now rewrite Qle_bool_inject_Z.
Qed.

Lemma int_ge_int (n m : Z) :
  PyJson.int_ge n (Nip.JInt m) = Return (m <=? n).
Proof.
  unfold PyJson.int_ge. cbn [PyJson.number]. now rewrite Qle_bool_inject_Z.
Qed.

Lemma int_ne_int (n m : Z) :
  PyJson.int_ne n (Nip.JInt m) = negb (n =? m).
Proof.
  unfold PyJson.int_ne. cbn [PyJson.number]. f_equal.
  destruct (Z.eqb_spec n m) as [->|Hne]; [apply Qeq_bool_refl|].
  destruct (Qeq_bool (inject_Z n) (inject_Z m)) eqn:He; [|reflexivity].
  apply Qeq_bool_iff in He.
  apply (proj1 (inject_Z_injective n m)) in He. contradiction.
Qed.

(** The dataset summary accepts records that are objects with an id
    that has a hash. *)
Lemma ids_of_records (l : list Nip.json) :
  Forall record_with_id l ->
  exists ids,
    Join.apply (fun r => PyJson.item r "id") l = Return ids /\
    forallb PyJson.hashable ids = true.
Proof.
  induction 1 as [|r l (d & v & -> & Hid & Hv) _ (ids & Hids & Hall)].
  - exists []. split; reflexivity.
  - exists (v :: ids). simpl. rewrite Hid. simpl. rewrite Hids. simpl.
    split; [reflexivity|]. now rewrite Hv, Hall.
Qed.

Lemma dataset_summary_records (l : list Nip.json) :
  Forall record_with_id l -> dataset_summary l = Return tt.
Proof.
  intros Hl. destruct l as [|first rest]; [reflexivity|].
  destruct (ids_of_records _ Hl) as (ids & Hids & Hall).
  apply Forall_cons_iff in Hl. destruct Hl as [(d & v & -> & Hid & _) _].
  unfold dataset_summary. rewrite Hid, Hids. simpl. now rewrite Hall.
Qed.

Section Pages.

Variable server : Z -> nat -> outcome Nip.json.

(** *** One page request *)

Lemma request_page_succeeds (page : Z) (b : Nip.json) :
  succeeds server page b ->
  request_page server page = Some (mk_response 200 (Some b)).
Proof.
  intros (a & Ha & Hsend & Hbefore).
  unfold request_page, make_api_request_with_retry.
  rewrite (seq_split_at default_max_retries a Ha).
  destruct (retry_over_skip Nip.json (server page) default_max_retries
              default_delay (seq 0 a)
              (a :: seq (S a) (default_max_retries - S a)))
    as [pre Hpre].
  { intros c Hc. apply in_seq in Hc. apply Hbefore. lia. }
  rewrite Hpre. simpl. rewrite Hsend. reflexivity.
Qed.

Lemma request_page_exhausts (page : Z) :
  exhausts server page -> request_page server page = None.
Proof.
  intros Hex. unfold request_page, make_api_request_with_retry.
  destruct (retry_over_skip Nip.json (server page) default_max_retries
              default_delay (seq 0 default_max_retries) []) as [pre Hpre].
  { intros c Hc. apply in_seq in Hc. apply Hex. lia. }
  rewrite app_nil_r in Hpre. rewrite Hpre. reflexivity.
Qed.

(** *** The page loops *)

Lemma answered_from_cons (done : nat) (p : list Nip.json)
  (ps : list (list Nip.json)) (tp : Z) :
  answered_from server done (p :: ps) tp ->
  answered server (done + 1) p tp /\ answered_from server (S done) ps tp.
Proof.
  intros H. split.
  - specialize (H O ltac:(simpl; lia)). simpl in H.
    now replace (done + 0 + 1)%nat with (done + 1)%nat in H by lia.
  - intros j Hj. specialize (H (S j) ltac:(simpl; lia)). simpl in H.
    now replace (done + S j + 1)%nat with (S done + j + 1)%nat in H by lia.
Qed.

(** One iteration of each loop on a page that is answered with
    records. *)
Lemma fetch_all_loop_step (i fuel : nat) (p acc : list Nip.json) (tp : Z) :
  answered server i p tp -> nonempty p -> (i <= 10)%nat ->
  fetch_all_loop server (S fuel) (Z.of_nat i) acc
  = fetch_all_loop server fuel (Z.of_nat i + 1) (acc ++ p)%list.
Proof.
  intros (d & Hreq & Hdata & _) Hp Hi. cbn [fetch_all_loop].
  destruct (Z.leb_spec (Z.of_nat i) max_pages) as [_|Hgt];
    [|unfold max_pages in Hgt; lia].
  rewrite Hreq. simpl. rewrite Hdata.
  destruct p as [|x p]; [now elim Hp|]. reflexivity.
Qed.

Lemma fetch_loop_step (i fuel : nat) (p acc : list Nip.json) (tp tp0 : Z) :
  answered server i p tp -> nonempty p -> Z.of_nat i <= tp0 ->
  exists stop : bool,
    (stop = true -> tp <= Z.of_nat i) /\
    fetch_loop server (S fuel) (Z.of_nat i) (Nip.JInt tp0) acc
    = if stop then Some (Return ((acc ++ p)%list, []))
      else fetch_loop server fuel (Z.of_nat i + 1) (Nip.JInt tp)
             (acc ++ p)%list.
Proof.
  intros (d & Hreq & Hdata & Hlast) Hp Hi. cbn [fetch_loop].
  rewrite int_le_int.
  destruct (Z.leb_spec (Z.of_nat i) tp0) as [_|Hgt]; [|lia].
  cbn [lift]. rewrite Hreq. simpl. rewrite Hdata, Hlast.
  destruct p as [|x p]; [now elim Hp|]. cbn [lift].
  destruct (PyJson.truth
              match Nip.dict_get d "next_page_url" with
              | Some v => v
              | None => Nip.JNull
              end); cbn [negb lift].
  - exists false. split; [discriminate|reflexivity].
  - rewrite int_ge_int. cbn [lift].
    exists (tp <=? Z.of_nat i). split; [apply Z.leb_le|reflexivity].
Qed.

Lemma fetch_loop_end (fuel : nat) (current_page tp : Z)
  (acc : list Nip.json) :
  tp < current_page ->
  fetch_loop server fuel current_page (Nip.JInt tp) acc
  = Some (Return (acc, [])).
Proof.
  intros Hlt. destruct fuel; cbn [fetch_loop]; rewrite int_le_int;
    (destruct (Z.leb_spec current_page tp); [lia|reflexivity]).
Qed.

Lemma fetch_all_loop_prefix (ps : list (list Nip.json)) :
  forall (done fuel : nat) (acc : list Nip.json) (tp : Z),
    answered_from server done ps tp -> Forall nonempty ps ->
    (done + List.length ps <= 10)%nat ->
    fetch_all_loop server (List.length ps + fuel) (Z.of_nat (done + 1)) acc
    = fetch_all_loop server fuel (Z.of_nat (done + List.length ps + 1))
        (acc ++ List.concat ps)%list.
Proof.
  induction ps as [|p ps IH]; intros done fuel acc tp Hans Hne Hbound.
  - simpl. rewrite app_nil_r. now replace (done + 0 + 1)%nat
      with (done + 1)%nat by lia.
  - apply answered_from_cons in Hans. destruct Hans as [Hp Hps].
    apply Forall_cons_iff in Hne. destruct Hne as [Hpne Hpsne].
    simpl in Hbound. simpl List.length. simpl Nat.add.
    rewrite (fetch_all_loop_step _ _ _ _ _ Hp Hpne) by lia.
    replace (Z.of_nat (done + 1) + 1) with (Z.of_nat (S done + 1)) by lia.
    rewrite (IH (S done) fuel _ tp Hps Hpsne) by lia.
    simpl List.concat. rewrite <- app_assoc.
    now replace (S done + List.length ps + 1)%nat
      with (done + S (List.length ps) + 1)%nat by lia.
Qed.

Lemma fetch_loop_complete (tp : Z) (ps : list (list Nip.json)) :
  forall (done fuel : nat) (acc : list Nip.json),
    answered_from server done ps tp -> Forall nonempty ps ->
    Z.of_nat (done + List.length ps) = tp ->
    (List.length ps <= fuel)%nat ->
    fetch_loop server fuel (Z.of_nat (done + 1)) (Nip.JInt tp) acc
    = Some (Return ((acc ++ List.concat ps)%list, [])).
Proof.
  induction ps as [|p ps IH]; intros done fuel acc Hans Hne Htp Hfuel.
  - simpl in *. rewrite app_nil_r. apply fetch_loop_end. lia.
  - apply answered_from_cons in Hans. destruct Hans as [Hp Hps].
    apply Forall_cons_iff in Hne. destruct Hne as [Hpne Hpsne].
    simpl in Hfuel. destruct fuel as [|fuel]; [lia|].
    simpl List.length in Htp.
    destruct (fetch_loop_step (done + 1) fuel p acc tp tp Hp Hpne
                ltac:(lia)) as (stop & Hstop & ->).
    replace (Z.of_nat (done + 1) + 1) with (Z.of_nat (S done + 1)) by lia.
    rewrite (IH (S done) fuel _ Hps Hpsne) by lia.
    simpl List.concat. rewrite <- app_assoc.
    destruct stop; [|reflexivity].
    assert (ps = []) as ->
      by (destruct ps; [reflexivity|specialize (Hstop eq_refl);
                                    simpl in Htp; lia]).
    simpl. now rewrite app_nil_r.
Qed.

Lemma fetch_loop_fails (tp : Z) (ps : list (list Nip.json)) :
  forall (done fuel : nat) (acc : list Nip.json),
    answered_from server done ps tp -> Forall nonempty ps ->
    Z.of_nat (done + List.length ps + 1) <= tp ->
    ok (request_page server (Z.of_nat (done + List.length ps + 1))) = None ->
    (List.length ps < fuel)%nat ->
    fetch_loop server fuel (Z.of_nat (done + 1)) (Nip.JInt tp) acc
    = Some (Return ((acc ++ List.concat ps)%list,
                    [PageFailed (Z.of_nat (done + List.length ps + 1))])).
Proof.
  induction ps as [|p ps IH]; intros done fuel acc Hans Hne Htp Hfail Hfuel.
  - simpl in *. rewrite app_nil_r.
    replace (done + 0 + 1)%nat with (done + 1)%nat in * by lia.
    destruct fuel as [|fuel]; [lia|]. cbn [fetch_loop].
    rewrite int_le_int.
    destruct (Z.leb_spec (Z.of_nat (done + 1)) tp); [|lia].
    cbn [lift]. rewrite Hfail. reflexivity.
  - apply answered_from_cons in Hans. destruct Hans as [Hp Hps].
    apply Forall_cons_iff in Hne. destruct Hne as [Hpne Hpsne].
    simpl List.length in *. destruct fuel as [|fuel]; [lia|].
    destruct (fetch_loop_step (done + 1) fuel p acc tp tp Hp Hpne
                ltac:(lia)) as (stop & Hstop & ->).
    destruct stop; [specialize (Hstop eq_refl); lia|].
    replace (Z.of_nat (done + 1) + 1) with (Z.of_nat (S done + 1)) by lia.
    replace (done + S (List.length ps) + 1)%nat
      with (S done + List.length ps + 1)%nat in * by lia.
    rewrite (IH (S done) fuel _ Hps Hpsne) by (assumption || lia).
    simpl List.concat. now rewrite <- app_assoc.
Qed.

(** *** The two fetchers against a server that holds [pages] *)

Variable pages : list (list Nip.json).
Hypothesis pages_nonempty : Forall nonempty pages.
Hypothesis pages_records : Forall record_with_id (List.concat pages).

Lemma serves_body (i : nat) :
  serves server pages i ->
  exists d,
    request_page server (Z.of_nat i)
    = Some (mk_response 200 (Some (Nip.JDict d))) /\
    Nip.dict_get d "data" = Some (Nip.JList (nth (i - 1) pages [])) /\
    Nip.dict_get d "last_page" = Some (Nip.JInt (page_count pages)) /\
    Nip.dict_get d "total" = Some (Nip.JInt (total_of pages)).
Proof.
  intros (b & Hs & d & -> & Hb). exists d. split; [|exact Hb].
  now apply request_page_succeeds.
Qed.

Lemma serves_answered (i : nat) :
  serves server pages i ->
  answered server i (nth (i - 1) pages []) (page_count pages).
Proof.
  intros H. destruct (serves_body i H) as (d & Hreq & Hd & Hl & _).
  exists d. repeat split; assumption.
Qed.

Lemma firstn_nonempty (m : nat) : Forall nonempty (firstn m pages).
Proof.
  apply Forall_forall. intros p Hp.
  eapply Forall_forall; [exact pages_nonempty|].
  rewrite <- (firstn_skipn m pages). apply in_or_app. now left.
Qed.

Lemma firstn_records (m : nat) :
  Forall record_with_id (List.concat (firstn m pages)).
Proof.
  apply Forall_forall. intros r Hr.
  eapply Forall_forall; [exact pages_records|].
  rewrite <- (firstn_skipn m pages), concat_app. apply in_or_app. now left.
Qed.

(** The pages before an existing page hold fewer records than all of
    them. *)
Lemma concat_firstn_lt (m : nat) :
  (m < List.length pages)%nat ->
  (List.length (List.concat (firstn m pages))
   < List.length (List.concat pages))%nat.
Proof.
  intros Hm. rewrite <- (firstn_skipn m pages) at 2.
  rewrite concat_app, length_app.
  destruct (skipn m pages) as [|p ps] eqn:Hs.
  - assert (Hl : List.length (skipn m pages) = O) by now rewrite Hs.
    rewrite length_skipn in Hl. lia.
  - assert (Hp : nonempty p).
    { eapply Forall_forall; [exact pages_nonempty|].
      rewrite <- (firstn_skipn m pages), Hs. apply in_or_app.
      right. now left. }
    simpl. rewrite length_app. destruct p; [now elim Hp|simpl; lia].
Qed.

Lemma answered_from_firstn (m : nat) :
  (m <= List.length pages)%nat ->
  (forall i, (1 <= i <= m)%nat -> serves server pages i) ->
  answered_from server 0 (firstn m pages) (page_count pages).
Proof.
  intros Hm Hserve j Hj. rewrite length_firstn in Hj.
  rewrite nth_firstn. destruct (Nat.ltb_spec j m); [|lia].
  replace j with ((0 + j + 1) - 1)%nat at 2 by lia.
  apply serves_answered. apply Hserve. lia.
Qed.

(** [fetch_calendesk_data_all] over the first [m <= 10] pages. *)
Lemma fetch_all_first (m : nat) :
  (m <= List.length pages)%nat -> (m <= 10)%nat ->
  (forall i, (1 <= i <= m)%nat -> serves server pages i) ->
  fetch_calendesk_data_all server
  = fetch_all_loop server (11 - m) (Z.of_nat (m + 1))
      (List.concat (firstn m pages)).
Proof.
  intros Hm H10 Hserve. unfold fetch_calendesk_data_all.
  pose proof (fetch_all_loop_prefix (firstn m pages) 0 (11 - m) []
                (page_count pages) (answered_from_firstn m Hm Hserve)
                (firstn_nonempty m)) as Hrun.
  rewrite length_firstn in Hrun.
  replace (Nat.min m (List.length pages)) with m in Hrun by lia.
  replace (m + (11 - m))%nat with 11%nat in Hrun by lia.
  simpl app in Hrun. exact (Hrun ltac:(lia)).
Qed.

Lemma fetch_all_complete :
  (forall i, (1 <= i <= List.length pages)%nat -> serves server pages i) ->
  ((List.length pages <= 10)%nat -> ends_after server pages ->
     exists diags,
       fetch_calendesk_data_all server = Return (List.concat pages, diags)) /\
  ((10 <= List.length pages)%nat ->
     fetch_calendesk_data_all server
     = Return (List.concat (firstn 10 pages), [])).
Proof.
  intros Hserve. split.
  - intros Hn Hend.
    rewrite (fetch_all_first (List.length pages)) by (lia || assumption).
    rewrite firstn_all.
    destruct (11 - List.length pages)%nat as [|f] eqn:Hf; [lia|].
    cbn [fetch_all_loop].
    destruct (Z.of_nat (List.length pages + 1) <=? max_pages);
      [|eexists; reflexivity].
    unfold ends_after in Hend.
    replace (Z.of_nat (List.length pages) + 1)
      with (Z.of_nat (List.length pages + 1)) in Hend by lia.
    destruct (ok (request_page server (Z.of_nat (List.length pages + 1))))
      as [r|]; [|eexists; reflexivity].
    destruct Hend as (b & data & Hj & Hd & Ht). unfold response_json.
    rewrite Hj. cbn [bind]. rewrite Hd. cbn [bind]. rewrite Ht.
    eexists; reflexivity.
  - intros Hn.
    rewrite (fetch_all_first 10) by (lia || (intros; apply Hserve; lia)).
    reflexivity.
Qed.

Lemma fetch_all_fails (k : nat) :
  (1 <= k <= List.length pages)%nat -> (k <= 10)%nat ->
  (forall i, (1 <= i < k)%nat -> serves server pages i) ->
  exhausts server (Z.of_nat k) ->
  fetch_calendesk_data_all server
  = Return (List.concat (firstn (k - 1) pages), [PageFailed (Z.of_nat k)]).
Proof.
  intros Hk H10 Hserve Hex.
  rewrite (fetch_all_first (k - 1)) by (lia || (intros; apply Hserve; lia)).
  destruct (11 - (k - 1))%nat as [|f] eqn:Hf; [lia|].
  replace (k - 1 + 1)%nat with k by lia. cbn [fetch_all_loop].
  destruct (Z.leb_spec (Z.of_nat k) max_pages) as [_|Hgt];
    [|unfold max_pages in Hgt; lia].
  rewrite (request_page_exhausts (Z.of_nat k) Hex). reflexivity.
Qed.

Lemma validate_complete :
  validate (Nip.JInt (total_of pages)) (List.concat pages) = Return [].
Proof.
  unfold validate, total_of. rewrite int_ne_int, Z.eqb_refl. reflexivity.
Qed.

(** The first request of [fetch_calendesk_data], answered with the first
    page. *)
Lemma fetch_first_page (fuel : nat) :
  serves server pages 1 ->
  fetch_calendesk_data server fuel
  = if page_count pages <=? 1 then Some (Return (nth 0 pages [], []))
    else
      match fetch_loop server fuel 2 (Nip.JInt (page_count pages))
              (nth 0 pages []) with
      | None => None
      | Some (Raise e) => Some (Raise e)
      | Some (Return (all_data, diags)) =>
          shortfall <~ validate (Nip.JInt (total_of pages)) all_data ;;
          _ <~ dataset_summary all_data ;;
          Some (Return (all_data, (diags ++ shortfall)%list))
      end.
Proof.
  intros H1. destruct (serves_body 1 H1) as (d & Hreq & Hd & Hl & Ht).
  unfold fetch_calendesk_data. change (Z.of_nat 1) with 1 in Hreq.
  rewrite Hreq. simpl. rewrite Hl, Ht, Hd. cbn [lift PyJson.iter].
  unfold PyJson.le_int. rewrite int_ge_int. reflexivity.
Qed.

Lemma fetch_complete (fuel : nat) :
  (forall i, (1 <= i <= Nat.max 1 (List.length pages))%nat ->
     serves server pages i) ->
  (List.length pages <= fuel)%nat ->
  fetch_calendesk_data server fuel = Some (Return (List.concat pages, [])).
Proof.
  intros Hserve Hfuel.
  rewrite (fetch_first_page fuel (Hserve 1%nat ltac:(lia))).
  pose proof validate_complete as Hv.
  pose proof (dataset_summary_records _ pages_records) as Hsum.
  unfold page_count.
  destruct pages as [|p1 rest] eqn:Hpages; [reflexivity|].
  destruct (Nat.eq_dec (List.length rest) 0) as [Hz|Hnz].
  { apply length_zero_iff_nil in Hz. rewrite Hz. simpl.
    now rewrite app_nil_r. }
  simpl List.length in *.
  destruct (Z.leb_spec (Z.max 1 (Z.of_nat (S (List.length rest)))) 1); [lia|].
  assert (Hloop : fetch_loop server fuel (Z.of_nat (1 + 1))
                    (Nip.JInt (Z.max 1 (Z.of_nat (S (List.length rest))))) p1
                  = Some (Return ((p1 ++ List.concat rest)%list, []))).
  { apply fetch_loop_complete.
    - intros j Hj. replace (nth j rest []) with
        (nth ((1 + j + 1) - 1) (p1 :: rest) []).
      + replace (Z.max 1 (Z.of_nat (S (List.length rest))))
          with (page_count (p1 :: rest)) by reflexivity.
        rewrite <- Hpages. apply serves_answered. rewrite Hpages.
        apply Hserve. simpl. lia.
      + replace (1 + j + 1 - 1)%nat with (S j) by lia. reflexivity.
    - apply Forall_cons_iff in pages_nonempty. tauto.
    - lia.
    - lia. }
  change (Z.of_nat (1 + 1)) with 2 in Hloop. cbn [nth]. rewrite Hloop.
  simpl List.concat in Hv, Hsum. rewrite Hv. cbn [lift]. rewrite Hsum.
  reflexivity.
Qed.

Lemma fetch_fails (k fuel : nat) :
  (1 <= k <= List.length pages)%nat ->
  (forall i, (1 <= i < k)%nat -> serves server pages i) ->
  exhausts server (Z.of_nat k) ->
  (k <= fuel)%nat ->
  exists diags, diags <> [] /\
    fetch_calendesk_data server fuel
    = Some (Return (List.concat (firstn (k - 1) pages), diags)).
Proof.
  intros Hk Hserve Hex Hfuel.
  pose proof (request_page_exhausts (Z.of_nat k) Hex) as Hnone.
  destruct (Nat.eq_dec k 1) as [->|Hk1].
  { unfold fetch_calendesk_data. change (Z.of_nat 1) with 1 in Hnone.
    rewrite Hnone. simpl.
    exists [InitialFailed]. split; [discriminate|reflexivity]. }
  rewrite (fetch_first_page fuel (Hserve 1%nat ltac:(lia))).
  pose proof (dataset_summary_records _ (firstn_records (k - 1))) as Hsum.
  unfold page_count.
  destruct pages as [|p1 rest] eqn:Hpages; [simpl in Hk; lia|].
  simpl List.length in *.
  destruct (Z.leb_spec (Z.max 1 (Z.of_nat (S (List.length rest)))) 1); [lia|].
  assert (Hloop : fetch_loop server fuel (Z.of_nat (1 + 1))
                    (Nip.JInt (Z.max 1 (Z.of_nat (S (List.length rest))))) p1
                  = Some (Return ((p1 ++ List.concat (firstn (k - 2) rest))%list,
                                  [PageFailed (Z.of_nat k)]))).
  { replace k with (1 + List.length (firstn (k - 2) rest) + 1)%nat at 2
      by (rewrite length_firstn; lia).
    apply fetch_loop_fails.
    - intros j Hj. rewrite length_firstn in Hj. rewrite nth_firstn.
      destruct (Nat.ltb_spec j (k - 2)); [|lia].
      replace (nth j rest []) with (nth ((1 + j + 1) - 1) (p1 :: rest) []).
      + replace (Z.max 1 (Z.of_nat (S (List.length rest))))
          with (page_count (p1 :: rest)) by reflexivity.
        rewrite <- Hpages. apply serves_answered. rewrite Hpages.
        apply Hserve. lia.
      + replace (1 + j + 1 - 1)%nat with (S j) by lia. reflexivity.
    - apply Forall_forall. intros p Hp.
      eapply Forall_forall; [exact pages_nonempty|].
      right. rewrite <- (firstn_skipn (k - 2) rest).
      apply in_or_app. now left.
    - rewrite length_firstn. lia.
    - rewrite length_firstn.
      replace (1 + Nat.min (k - 2) (List.length rest) + 1)%nat with k by lia.
      rewrite Hnone. reflexivity.
    - rewrite length_firstn. lia. }
  change (Z.of_nat (1 + 1)) with 2 in Hloop. cbn [nth]. rewrite Hloop.
  replace (k - 1)%nat with (S (k - 2)) in * by lia.
  cbn [firstn List.concat] in *.
  unfold validate.
  destruct (PyJson.int_ne _ (Nip.JInt (total_of (p1 :: rest))));
    cbn [PyJson.sub_int PyJson.number bind lift]; rewrite Hsum; cbn [lift];
    eexists; (split; [|reflexivity]); discriminate.
Qed.

(** C1, amended.  Against a server that holds the non-empty pages
    [pages], whose records are objects with an id, and that declares
    their page count and their total [T] in every answer:
    - when every page request succeeds, [fetch_calendesk_data] returns all
      the records, [T] of them, and so does [fetch_calendesk_data_all] when
      there are at most ten pages; with ten pages or more
      [fetch_calendesk_data_all] returns the records of the first ten
      pages only, fewer than [T] when there are more than ten;
    - when the request for page [k] exhausts its retries, the pages before
      it having been fetched, both return the records of those pages,
      fewer than [T], together with a diagnostic and raise nothing
      ([fetch_calendesk_data_all] for [k] up to ten). *)
Theorem paginated_fetch_counts :
  ((forall i, (1 <= i <= Nat.max 1 (List.length pages))%nat ->
      serves server pages i) ->
     (forall fuel, (List.length pages <= fuel)%nat ->
        fetch_calendesk_data server fuel
        = Some (Return (List.concat pages, []))) /\
     ((List.length pages <= 10)%nat -> ends_after server pages ->
        exists diags,
          fetch_calendesk_data_all server = Return (List.concat pages, diags)) /\
     ((10 <= List.length pages)%nat ->
        fetch_calendesk_data_all server
        = Return (List.concat (firstn 10 pages), []) /\
        ((10 < List.length pages)%nat ->
         Z.of_nat (List.length (List.concat (firstn 10 pages)))
         < total_of pages))) /\
  (forall k, (1 <= k <= List.length pages)%nat ->
     (forall i, (1 <= i < k)%nat -> serves server pages i) ->
     exhausts server (Z.of_nat k) ->
     Z.of_nat (List.length (List.concat (firstn (k - 1) pages)))
     < total_of pages /\
     (forall fuel, (k <= fuel)%nat ->
        exists diags, diags <> [] /\
          fetch_calendesk_data server fuel
          = Some (Return (List.concat (firstn (k - 1) pages), diags))) /\
     ((k <= 10)%nat ->
        fetch_calendesk_data_all server
        = Return (List.concat (firstn (k - 1) pages),
                  [PageFailed (Z.of_nat k)]))).
Proof.
  split.
  - intros Hserve.
    assert (Hserve' : forall i, (1 <= i <= List.length pages)%nat ->
                                serves server pages i)
      by (intros i Hi; apply Hserve; lia).
    destruct (fetch_all_complete Hserve') as [Hle Hge].
    split; [|split].
    + intros fuel Hfuel. now apply fetch_complete.
    + exact Hle.
    + intros H10. split; [exact (Hge H10)|].
      intros Hlt. unfold total_of.
      pose proof (concat_firstn_lt 10 Hlt). lia.
  - intros k Hk Hserve Hex. split; [|split].
    + unfold total_of.
      pose proof (concat_firstn_lt (k - 1) ltac:(lia)). lia.
    + intros fuel Hfuel. now apply fetch_fails.
    + intros H10. now apply fetch_all_fails.
Qed.

End Pages.

(** *** Sample servers *)

Lemma paged_serves (pages : list (list Nip.json)) (i : nat) :
  serves (paged pages) pages i.
Proof.
  exists (page_json pages (Z.of_nat i)). split.
  - exists O. split; [unfold default_max_retries; lia|].
    split; [reflexivity|]. intros a' Ha'. lia.
  - eexists. split; [reflexivity|]. simpl. rewrite Nat2Z.id.
    repeat split.
Qed.

Lemma failing_at_serves (k : Z) (pages : list (list Nip.json)) (i : nat) :
  Z.of_nat i <> k -> serves (failing_at k pages) pages i.
Proof.
  intros Hik. destruct (paged_serves pages i) as (b & (a & Ha & Hs & Hb) & Hbody).
  exists b. split; [|exact Hbody].
  exists a. unfold failing_at.
  destruct (Z.eqb_spec (Z.of_nat i) k) as [He|_]; [contradiction|].
  repeat split; assumption.
Qed.

Lemma failing_at_exhausts (k : Z) (pages : list (list Nip.json)) :
  exhausts (failing_at k pages) k.
Proof.
  intros a _. unfold failing_at. rewrite Z.eqb_refl. reflexivity.
Qed.

(** C1, as stated, fails for [fetch_calendesk_data_all]: a server with
    eleven pages of one record each declares a total of 11 and answers
    every request at once, and the fetch returns ten records. *)
Lemma fetch_all_stops_after_ten_pages :
  (forall i, serves (paged eleven_pages) eleven_pages i) /\
  total_of eleven_pages = 11 /\
  fetch_calendesk_data_all (paged eleven_pages)
  = Return (map record [1; 2; 3; 4; 5; 6; 7; 8; 9; 10], []) /\
  Z.of_nat (List.length (map record [1; 2; 3; 4; 5; 6; 7; 8; 9; 10]))
  <> total_of eleven_pages.
Proof.
  split; [apply paged_serves|].
  split; [reflexivity|].
  split; [vm_compute; reflexivity|].
  vm_compute. discriminate.
Qed.

Lemma two_pages_well_formed :
  Forall nonempty two_pages /\ Forall record_with_id (List.concat two_pages).
Proof.
  split.
  - repeat constructor; discriminate.
  - repeat constructor; eexists _, _; repeat split.
Qed.

Lemma paginated_fetch_counts_witness :
  fetch_calendesk_data (paged two_pages) 2
  = Some (Return ([record 1; record 2; record 3], [])) /\
  fetch_calendesk_data_all (failing_at 2 two_pages)
  = Return ([record 1; record 2], [PageFailed 2]).
Proof.
  destruct two_pages_well_formed as [Hne Hrec].
  split.
  - apply (proj1 (paginated_fetch_counts (paged two_pages) two_pages
                    Hne Hrec)).
    + intros i _. apply paged_serves.
    + simpl. lia.
  - apply (proj2 (paginated_fetch_counts (failing_at 2 two_pages) two_pages
                    Hne Hrec) 2%nat).
    + simpl. lia.
    + intros i Hi. apply failing_at_serves. lia.
    + apply failing_at_exhausts.
    + lia.
Defined.

End HttpProps.


(** ** What a request returns and costs *)

Module BudgetProps.
Import Http Budget.

Section Run.

Variable A : Type.
Variable send : nat -> outcome A.
Variable max_retries : nat.
Variable delay : Z.

Lemma retried_false (r : response A) :
  retried (Responds r) = false ->
  status_code r <> 429 /\ status_code r < 500.
Proof.
  unfold retried.
  destruct (Z.eqb_spec (status_code r) 200) as [->|_]; simpl; [lia|].
  destruct (Z.eqb_spec (status_code r) 429); simpl; [discriminate|].
  destruct (Z.geb_spec (status_code r) 500); [discriminate|].
  intros _. split; [assumption|lia].
Qed.

(** The value of a run over the attempts [a, a + n): the answer to the
    first attempt that is not retried, or [None] when all are. *)
Lemma retry_over_value (n : nat) :
  forall a,
    match snd (retry_over send max_retries delay (seq a n)) with
    | Some r =>
        exists b, (a <= b < a + n)%nat /\ send b = Responds r /\
                  retried (send b) = false /\
                  forall c, (a <= c < b)%nat -> retried (send c) = true
    | None => forall b, (a <= b < a + n)%nat -> retried (send b) = true
    end.
Proof.
  induction n as [|n IH]; intros a; [simpl; intros b Hb; lia|].
  specialize (IH (S a)). cbn [seq retry_over].
  assert (Hgo : retried (send a) = true ->
    forall w,
    match snd (let '(evs, r) :=
                 retry_over send max_retries delay (seq (S a) n) in
               ((Get a :: w ++ evs)%list, r)) with
    | Some r =>
        exists b, (a <= b < a + S n)%nat /\ send b = Responds r /\
                  retried (send b) = false /\
                  forall c, (a <= c < b)%nat -> retried (send c) = true
    | None => forall b, (a <= b < a + S n)%nat -> retried (send b) = true
    end).
  { intros Ha w.
    destruct (retry_over send max_retries delay (seq (S a) n)) as [evs [r|]];
      simpl in *.
    - destruct IH as (b & Hb & Hs & Hr & Hbefore).
      exists b. repeat split; try assumption; try lia.
      intros c Hc. destruct (Nat.eq_dec c a) as [->|Hne]; [exact Ha|].
      apply Hbefore. lia.
    - intros b Hb. destruct (Nat.eq_dec b a) as [->|Hne]; [exact Ha|].
      apply IH. lia. }
  assert (Hstop : forall r, send a = Responds r ->
    retried (send a) = false ->
    exists b, (a <= b < a + S n)%nat /\ send b = Responds r /\
              retried (send b) = false /\
              forall c, (a <= c < b)%nat -> retried (send c) = true).
  { intros r Hs Hr. exists a. split; [lia|]. split; [exact Hs|].
    split; [exact Hr|]. intros c Hc. lia. }
  destruct (send a) as [r| |] eqn:Hs.
  - destruct (status_code r =? 200) eqn:H200.
    { simpl. apply (Hstop r eq_refl). unfold retried. now rewrite H200. }
    destruct (status_code r =? 429) eqn:H429.
    { apply Hgo. unfold retried. now rewrite H200, H429. }
    destruct (status_code r >=? 500) eqn:H500.
    { apply Hgo. unfold retried. now rewrite H200, H429, H500. }
    simpl. apply (Hstop r eq_refl). unfold retried.
    now rewrite H200, H429, H500.
  - destruct (a <? max_retries - 1)%nat; apply Hgo; reflexivity.
  - destruct (a <? max_retries - 1)%nat; apply Hgo; reflexivity.
Qed.

(** X4. [make_api_request_with_retry] returns the answer to the first
    attempt that is not retried, and that answer is never a 429 or a 5xx;
    it returns [None] exactly when every attempt of the budget is
    retried. *)
Theorem retry_returns_first_final_answer :
  match snd (make_api_request_with_retry send max_retries delay) with
  | Some r =>
      status_code r <> 429 /\ status_code r < 500 /\
      exists a, (a < max_retries)%nat /\ send a = Responds r /\
                reached send a
  | None => forall a, (a < max_retries)%nat -> retried (send a) = true
  end.
Proof.
  unfold make_api_request_with_retry.
  pose proof (retry_over_value max_retries 0) as H.
  destruct (snd (retry_over send max_retries delay (seq 0 max_retries)))
    as [r|].
  - destruct H as (b & Hb & Hs & Hr & Hbefore).
    rewrite Hs in Hr. destruct (retried_false r Hr) as [H429 H500].
    repeat split; try assumption.
    exists b. repeat split; [lia|exact Hs|].
    intros c Hc. apply Hbefore. lia.
  - intros a Ha. apply H. lia.
Qed.

Lemma succ_le_pow2 (a : nat) : Z.of_nat a + 1 <= 2 ^ Z.of_nat a.
Proof.
  induction a as [|a IH]; [simpl; lia|].
  rewrite Nat2Z.inj_succ, Z.pow_succ_r by lia. lia.
Qed.

Lemma retry_over_cost (n : nat) :
  0 <= delay ->
  forall a,
    let evs := fst (retry_over send max_retries delay (seq a n)) in
    (requests evs <= n)%nat /\
    0 <= slept evs <= delay * (2 ^ Z.of_nat (a + n) - 2 ^ Z.of_nat a).
Proof.
  intros Hd. induction n as [|n IH]; intros a.
  - simpl. replace (a + 0)%nat with a by lia. lia.
  - specialize (IH (S a)). cbn [seq retry_over]. cbn zeta in IH.
    replace (S a + n)%nat with (a + S n)%nat in IH by lia.
    assert (Hpow : 2 ^ Z.of_nat (S a) = 2 * 2 ^ Z.of_nat a)
      by (rewrite Nat2Z.inj_succ, Z.pow_succ_r by lia; reflexivity).
    assert (Hpos : 0 < 2 ^ Z.of_nat a) by (apply Z.pow_pos_nonneg; lia).
    pose proof (succ_le_pow2 a) as Hle.
    assert (Hmono : 2 ^ Z.of_nat (S a) <= 2 ^ Z.of_nat (a + S n))
      by (apply Z.pow_le_mono_r; lia).
    assert (Hgo : forall w, 0 <= w <= delay * 2 ^ Z.of_nat a ->
      let evs := fst (let '(evs, r) :=
                        retry_over send max_retries delay (seq (S a) n) in
                      ((Get a :: [Sleep w] ++ evs)%list, r)) in
      (requests evs <= S n)%nat /\
      0 <= slept evs
        <= delay * (2 ^ Z.of_nat (a + S n) - 2 ^ Z.of_nat a)).
    { intros w Hw.
      destruct (retry_over send max_retries delay (seq (S a) n)) as [evs r].
      cbn [fst] in IH |- *. cbn [requests slept app].
      rewrite Hpow in *. split; [lia|]. nia. }
    assert (Hgo0 :
      let evs := fst (let '(evs, r) :=
                        retry_over send max_retries delay (seq (S a) n) in
                      ((Get a :: [] ++ evs)%list, r)) in
      (requests evs <= S n)%nat /\
      0 <= slept evs
        <= delay * (2 ^ Z.of_nat (a + S n) - 2 ^ Z.of_nat a)).
    { destruct (retry_over send max_retries delay (seq (S a) n)) as [evs r].
      cbn [fst] in IH |- *. cbn [requests slept app].
      rewrite Hpow in *. split; [lia|]. nia. }
    assert (Hstop :
      (requests [Get a] <= S n)%nat /\
      0 <= slept [Get a]
        <= delay * (2 ^ Z.of_nat (a + S n) - 2 ^ Z.of_nat a)).
    { cbn [requests slept]. rewrite Hpow in *. split; [lia|]. nia. }
    destruct (send a) as [r| |].
    + destruct (status_code r =? 200); [exact Hstop|].
      destruct (status_code r =? 429); [apply Hgo; nia|].
      destruct (status_code r >=? 500); [apply Hgo; nia|].
      exact Hstop.
    + destruct (a <? max_retries - 1)%nat; [apply Hgo; nia|exact Hgo0].
    + destruct (a <? max_retries - 1)%nat; [apply Hgo; nia|exact Hgo0].
Qed.

(** X5. With a delay that is not negative, a call makes at most
    [max_retries] requests and sleeps at most [delay * (2^max_retries - 1)]
    seconds in all: 14 seconds with the default arguments. *)
Theorem retry_cost_bounded :
  0 <= delay ->
  let evs := fst (make_api_request_with_retry send max_retries delay) in
  (requests evs <= max_retries)%nat /\
  0 <= slept evs <= delay * (2 ^ Z.of_nat max_retries - 1).
Proof.
  intros Hd. unfold make_api_request_with_retry.
  pose proof (retry_over_cost max_retries Hd 0) as H. simpl in H.
  exact H.
Qed.

End Run.

Lemma retry_cost_bounded_witness :
  (requests (fst (make_api_request_with_retry flaky 3 2)) <= 3)%nat /\
  0 <= slept (fst (make_api_request_with_retry flaky 3 2)) <= 14.
Proof.
  apply (retry_cost_bounded unit flaky 3 2). lia.
Defined.

End BudgetProps.


(** ** More on the reconciliation *)

Module JoinMoreProps.
Import Dates Join JoinProps.

Lemma update_row_fixed (r : canonical_row) :
  update_row (update_row r) = update_row r.
Proof.
  unfold update_row.
  destruct r as [a b c d e wyg anul h i j k l m n o]. simpl.
  destruct anul as [x|], wyg as [y|]; reflexivity.
Qed.

Lemma update_row_changes (r : canonical_row) :
  isna (Data_anulowania r) && notna (Data_wygasniecia r) = true <->
  update_row r <> r.
Proof.
  unfold update_row.
  destruct r as [a b c d e wyg anul h i j k l m n o]. simpl.
  destruct anul as [x|], wyg as [y|]; simpl; split; intros H;
    try discriminate H; try reflexivity;
    try (exfalso; apply H; reflexivity);
    try (intros He; discriminate He).
Qed.

(** X6. After [update_cancellation_dates] no row has an expiration date
    without a cancellation date; updating again changes nothing; and the
    mask it returns marks exactly the rows it changed. *)
Theorem update_cancellation_dates_settles (df : list canonical_row) :
  let df' := fst (update_cancellation_dates df) in
  (forall r, In r df' ->
     Data_wygasniecia r <> None -> Data_anulowania r <> None) /\
  fst (update_cancellation_dates df') = df' /\
  (forall i r r' m,
     nth_error df i = Some r -> nth_error df' i = Some r' ->
     nth_error (snd (update_cancellation_dates df)) i = Some m ->
     (m = true <-> r' <> r)).
Proof.
  cbn zeta. rewrite !update_cancellation_dates_map.
  split; [|split].
  - intros r Hr. apply in_map_iff in Hr. destruct Hr as (r0 & <- & _).
    destruct (update_row_spec r0) as [Ha _]. rewrite Ha.
    unfold update_row.
    destruct (Data_anulowania r0) as [x|] eqn:Hx,
             (Data_wygasniecia r0) as [y|] eqn:Hy; simpl;
      try rewrite Hy; congruence.
  - rewrite map_map. apply map_ext. apply update_row_fixed.
  - intros i r r' m Hr Hr' Hm.
    rewrite nth_error_map, Hr in Hr'. injection Hr' as <-.
    unfold update_cancellation_dates in Hm. simpl in Hm.
    rewrite nth_error_map, Hr in Hm. injection Hm as <-.
    apply update_row_changes.
Qed.

Lemma at_most_one_match (subs : list subscription) (u : user_subscription) :
  NoDup (map sub_id subs) ->
  (List.length (filter (key_matches u) subs) <= 1)%nat.
Proof.
  unfold key_matches. destruct (us_subscription_id u) as [k|].
  - induction subs as [|p subs IH]; intros Hnd; simpl; [lia|].
    inversion Hnd as [|? ? Hnotin Hnd']; subst.
    destruct (Z.eqb_spec k (sub_id p)) as [->|_]; [|now apply IH].
    simpl. assert (Hnone : filter (fun p0 => sub_id p =? sub_id p0) subs = []).
    { clear - Hnotin. induction subs as [|q subs IH]; [reflexivity|].
      simpl. destruct (Z.eqb_spec (sub_id p) (sub_id q)) as [He|_].
      - elim Hnotin. left. now symmetry.
      - apply IH. intros H. apply Hnotin. now right. }
    rewrite Hnone. simpl. lia.
  - intros _. induction subs as [|p subs IH]; simpl; [lia|exact IH].
Qed.

Lemma merge_one_lefts (subs : list subscription) (u : user_subscription) :
  map left (merge_one subs u)
  = repeat u (Nat.max 1 (List.length (filter (key_matches u) subs))).
Proof.
  unfold merge_one.
  destruct (filter (key_matches u) subs) as [|p ps]; [reflexivity|].
  rewrite map_map. cbn [left].
  replace (Nat.max 1 (List.length (p :: ps))) with (List.length (p :: ps))
    by (simpl; lia).
  induction (p :: ps) as [|q qs IH]; [reflexivity|].
  simpl. now rewrite IH.
Qed.

(** X7. When the plan ids are pairwise distinct the merge has exactly
    one row per customer-subscription record, in the order of the
    records (with repeated plan ids a record is repeated, see
    [merge_one_lefts]). *)
Theorem merge_one_row_per_record (users : list user_subscription)
  (subs : list subscription) :
  NoDup (map sub_id subs) ->
  map left (merge users subs) = users /\
  List.length (merge users subs) = List.length users.
Proof.
  intros Hnd.
  assert (H : map left (merge users subs) = users).
  { unfold merge. induction users as [|u users IH]; [reflexivity|].
    simpl. rewrite map_app, IH, merge_one_lefts.
    pose proof (at_most_one_match subs u Hnd).
    replace (Nat.max 1 (List.length (filter (key_matches u) subs)))
      with 1%nat by lia.
    reflexivity. }
  split; [exact H|].
  rewrite <- H at 2. now rewrite length_map.
Qed.

Lemma merge_one_row_per_record_witness :
  map left (merge sample_users sample_subscriptions) = sample_users /\
  List.length (merge sample_users sample_subscriptions)
  = List.length sample_users.
Proof.
  apply (merge_one_row_per_record sample_users sample_subscriptions).
  simpl. constructor; [intros []|constructor].
Defined.

(** With two plans under one id the record is there twice. *)
Example merge_duplicates_rows :
  map (fun j => (us_id (left j), price_recurring_interval j))
      (merge [sample_user 17 (Some 5) "active" None None]
             [mk_subscription 5 (Some "year"); mk_subscription 5 (Some "month")])
  = [(17, Some "year"); (17, Some "month")].
Proof. reflexivity. Qed.

End JoinMoreProps.


(** ** More on the tax identifier *)

Module NipMoreProps.
Import Dates Nip NipField NipProps.

(** X8. Whenever [process_nip] returns, normalising its result again
    returns it unchanged; and the only exception it raises is the one
    [int] raises on the stripped text of the cell, when that text passes
    [isdigit]. *)
Theorem process_nip_settles (py : library) :
  python py ->
  (forall v r, process_nip py v = Return r -> process_nip py r = Return r) /\
  (forall v e, process_nip py v = Raise e ->
     str_isdigit py (str_strip py (str_of py v)) = true /\
     int_of_str py (str_strip py (str_of py v)) = Raise e).
Proof.
  intros runtime. split.
  - intros v r Hv. exact (process_nip_fixed py runtime v r Hv).
  - intros v e Hv. exact (process_nip_raises py v e Hv).
Qed.

Lemma process_nip_settles_witness :
  process_nip ascii_library (NipInt 1234567890)
  = Return (NipInt 1234567890) /\
  process_nip ascii_library (NipStr "123-456-78-90")
  = Return (NipStr "123-456-78-90").
Proof.
  destruct (process_nip_settles ascii_library ascii_python) as [Hfix _].
  split.
  - exact (Hfix (NipStr "1234567890") _ eq_refl).
  - exact (Hfix (NipStr " 123-456-78-90 ") _ eq_refl).
Defined.

Lemma all_digits_app (s t : string) :
  all_digits (s ++ t) = all_digits s && all_digits t.
Proof.
  induction s as [|c s IH]; simpl; [reflexivity|].
  rewrite IH. apply andb_assoc.
Qed.

Lemma all_digits_zeros (n : nat) : all_digits (zeros n) = true.
Proof. induction n; simpl; [reflexivity|exact IHn]. Qed.

Lemma pad_nip_digits (n : Z) :
  0 <= n ->
  isdigit (pad_nip n) = true /\ (10 <= String.length (pad_nip n))%nat.
Proof.
  intros Hn. destruct (pad_nip_spec n Hn) as [Heq Hlen].
  split; [|exact Hlen].
  pose proof (py_str_digits n Hn) as Hd. unfold isdigit in *.
  apply andb_prop in Hd. destruct Hd as [_ Hd].
  apply andb_true_intro. split.
  - destruct (String.eqb_spec (pad_nip n) "") as [He|_]; [|reflexivity].
    rewrite He in Hlen. simpl in Hlen. lia.
  - rewrite Heq, all_digits_app, all_digits_zeros, Hd. reflexivity.
Qed.

(** X9. [extract_client_nip] returns the empty string, or the non-empty
    text of the identifier unchanged, or a string of at least ten decimal
    digits; it is empty when the client or the company is missing or is
    not an object. *)
Theorem extract_client_nip_shape (task : list (string * json)) :
  (nip_of task = None -> extract_client_nip task = "") /\
  (extract_client_nip task = "" \/
   (exists s, nip_of task = Some (JStr s) /\ s <> "" /\
              extract_client_nip task = s) \/
   (isdigit (extract_client_nip task) = true /\
    (10 <= String.length (extract_client_nip task))%nat)).
Proof.
  unfold nip_of, extract_client_nip.
  destruct (dict_get task "client") as [[| | | | | |client]|];
    try (split; [reflexivity|left; reflexivity]).
  destruct (dict_get client "company") as [[| | | | | |company]|];
    try (split; [reflexivity|left; reflexivity]).
  split; [destruct (dict_get company "nip"); discriminate|].
  destruct (dict_get company "nip") as [[|b|n|q|s|l|d]|];
    try (left; reflexivity).
  - destruct b; [|left; reflexivity].
    right. right. apply pad_nip_digits. lia.
  - destruct (Z.ltb_spec 0 n); [|left; reflexivity].
    right. right. apply pad_nip_digits. lia.
  - destruct (Qlt_le_dec 0 q) as [Hq|_]; [|left; reflexivity].
    right. right. apply pad_nip_digits. now apply int_of_float_nonneg.
  - destruct (String.eqb_spec s "") as [->|Hne]; [left; reflexivity|].
    right. left. exists s. repeat split. exact Hne.
Qed.

End NipMoreProps.


(** ** The reconciled table *)

Module ReconcileProps.
Import Dates Join JoinProps NipMoreProps.

Lemma apply_returns {A B : Type} (f : A -> result B) (l : list A) :
  (forall a, In a l -> returns (f a)) ->
  exists l', apply f l = Return l' /\ List.length l' = List.length l.
Proof.
  induction l as [|a l IH]; intros H; [exists []; split; reflexivity|].
  destruct (H a (or_introl eq_refl)) as [b Hb].
  destruct IH as (bs & Hbs & Hlen); [intros x Hx; apply H; now right|].
  exists (b :: bs). simpl. rewrite Hb. simpl. rewrite Hbs. simpl.
  split; [reflexivity|now rewrite Hlen].
Qed.





Section Table.

Variable to_datetime_strict : option string -> result (option datetime).
Variable to_datetime : option string -> option datetime.
Variable py : Nip.library.
Variable users : list user_subscription.
Variable subs : list subscription.




End Table.


End ReconcileProps.


(** ** The order of dates *)

Module OrderProps.
Import Dates.

Lemma lex_compare_refl (a : list Z) : lex_compare a a = Eq.
Proof.
  induction a as [|x a IH]; [reflexivity|].
  simpl. now rewrite Z.compare_refl.
Qed.

Lemma lex_compare_antisym (a : list Z) :
  forall b, lex_compare b a = CompOpp (lex_compare a b).
Proof.
  induction a as [|x a IH]; intros [|y b]; try reflexivity.
  simpl. rewrite (Z.compare_antisym x y).
  destruct (x ?= y); simpl; [apply IH|reflexivity|reflexivity].
Qed.

Lemma lex_le_trans (a : list Z) :
  forall b c,
    lex_compare a b <> Gt -> lex_compare b c <> Gt -> lex_compare a c <> Gt.
Proof.
  induction a as [|x a IH]; intros [|y b] [|z c]; simpl;
    try congruence.
  destruct (Z.compare_spec x y), (Z.compare_spec y z),
           (Z.compare_spec x z); try congruence; try lia.
  apply IH.
Qed.

Lemma dt_le_refl (a : datetime) : dt_le a a = true.
Proof. unfold dt_le, dt_compare. now rewrite lex_compare_refl. Qed.

Lemma dt_le_trans (a b c : datetime) :
  dt_le a b = true -> dt_le b c = true -> dt_le a c = true.
Proof.
  unfold dt_le, dt_compare. intros Hab Hbc.
  pose proof (lex_le_trans (fields a) (fields b) (fields c)) as H.
  destruct (lex_compare (fields a) (fields b));
    destruct (lex_compare (fields b) (fields c));
    destruct (lex_compare (fields a) (fields c));
    try reflexivity; try discriminate;
    exfalso; apply H; congruence.
Qed.

Lemma dt_le_total (a b : datetime) : dt_le a b = true \/ dt_le b a = true.
Proof.
  unfold dt_le, dt_compare.
  rewrite (lex_compare_antisym (fields a) (fields b)).
  destruct (lex_compare (fields a) (fields b)); simpl; tauto.
Qed.

Lemma dt_ge_le (a b : datetime) : dt_ge a b = dt_le b a.
Proof.
  unfold dt_ge, dt_le, dt_compare.
  rewrite (lex_compare_antisym (fields a) (fields b)).
  destruct (lex_compare (fields a) (fields b)); reflexivity.
Qed.

End OrderProps.

(** ** More on the lifecycle state *)

Module Status3MoreProps.
Import Dates Status3 Status3Props OrderProps.

Lemma lifecycle_with_identity (e : option datetime) (now : datetime) :
  lifecycle_state true e now
  = match e with
    | None => Active
    | Some t => if dt_gt t now then CanceledActive else Canceled
    end.
Proof.
  unfold lifecycle_state. destruct e as [t|]; simpl; [|reflexivity].
  destruct (dt_gt t now); reflexivity.
Qed.

(** X12. When [calculate_status3] returns, the label is one of the four,
    and it is [Nieokreślony] exactly when the customer-subscription
    identity is blank: with an identity the last branch of the cascade is
    never taken. *)
Theorem status3_undetermined_iff_no_identity strptime (now : datetime)
  (r : row) (l : string) :
  calculate_status3 strptime now r = Return l ->
  In l ["Nieokreślony"; "Anulowana (aktywna)"; "Aktywna"; "Anulowana"] /\
  (l = "Nieokreślony" <-> identity_present r = false).
Proof.
  intros H. destruct (identity_present r) eqn:Hid.
  - rewrite calculate_status3_reading in H by exact Hid.
    destruct (expiration_of strptime (row_get r "Data wygaśnięcia"))
      as [e|]; simpl in H; [|discriminate].
    rewrite lifecycle_with_identity in H. injection H as <-.
    destruct e as [t|]; [destruct (dt_gt t now)|]; simpl;
      (split; [tauto|split; discriminate]).
  - unfold identity_present in Hid. apply negb_false_iff in Hid.
    unfold calculate_status3 in H. rewrite Hid in H. injection H as <-.
    split; [now left|tauto].
Qed.

Lemma status3_undetermined_iff_no_identity_witness :
  In "Aktywna" ["Nieokreślony"; "Anulowana (aktywna)"; "Aktywna"; "Anulowana"]
  /\ ("Aktywna" = "Nieokreślony" <->
      identity_present [("ID Subskrypcji Klienta", Num 0)] = false).
Proof.
  apply (status3_undetermined_iff_no_identity strptime_fixed noon
           [("ID Subskrypcji Klienta", Num 0)] "Aktywna").
  reflexivity.
Defined.

Lemma dt_gt_later (t now now' : datetime) :
  dt_le now now' = true -> dt_gt t now = false -> dt_gt t now' = false.
Proof.
  intros Hle Hgt.
  assert (H1 : dt_le t now = true) by (rewrite dt_le_gt, Hgt; reflexivity).
  pose proof (dt_le_trans t now now' H1 Hle) as H2.
  rewrite dt_le_gt in H2. now apply negb_true_iff in H2.
Qed.

(** X13. As time passes only one change of state is possible: a result
    other than [Anulowana (aktywna)] at one time is the result at every
    later time. *)
Theorem status3_settles_over_time strptime (now now' : datetime) (r : row) :
  dt_le now now' = true ->
  calculate_status3 strptime now r <> Return "Anulowana (aktywna)" ->
  calculate_status3 strptime now' r = calculate_status3 strptime now r.
Proof.
  intros Hle Hnot. destruct (identity_present r) eqn:Hid.
  - rewrite !calculate_status3_reading in * by exact Hid.
    destruct (expiration_of strptime (row_get r "Data wygaśnięcia"))
      as [e|]; simpl in *; [|reflexivity].
    rewrite !lifecycle_with_identity in *.
    destruct e as [t|]; [|reflexivity].
    destruct (dt_gt t now) eqn:Hgt; [now elim Hnot|].
    now rewrite (dt_gt_later t now now' Hle Hgt).
  - unfold identity_present in Hid. apply negb_false_iff in Hid.
    unfold calculate_status3. now rewrite Hid.
Qed.

Lemma status3_settles_over_time_witness :
  calculate_status3 strptime_fixed (mk_datetime 2027 1 1 0 0 0 0)
    [("ID Subskrypcji Klienta", Num 17);
     ("Data wygaśnięcia", Str "2026-11-03 12:00:00")]
  = calculate_status3 strptime_fixed noon
      [("ID Subskrypcji Klienta", Num 17);
       ("Data wygaśnięcia", Str "2026-11-03 12:00:00")].
Proof.
  apply (status3_settles_over_time strptime_fixed noon
           (mk_datetime 2027 1 1 0 0 0 0)).
  - reflexivity.
  - vm_compute. discriminate.
Defined.

End Status3MoreProps.


(** ** More on the invoice status *)

Module InvoicesMoreProps.
Import Dates Invoices InvoicesProps LastInvoice OrderProps.

Lemma filter_nonempty_iff {A : Type} (f : A -> bool) (l : list A) :
  filter f l <> [] <-> exists a, In a l /\ f a = true.
Proof.
  split.
  - destruct (filter f l) as [|a l'] eqn:Hf; [congruence|]. intros _.
    exists a. apply filter_In. rewrite Hf. now left.
  - intros (a & Ha & Hfa) He.
    assert (H : In a (filter f l)) by (apply filter_In; now split).
    rewrite He in H. destruct H.
Qed.

(** X14. For a row with a Stripe reference and a monthly or yearly plan,
    whenever [calculate_invoice_status_last_2_months] returns, it returns
    [paid] or the empty string, and [paid] exactly when some paid invoice
    of the subscription was created inside the window: from day 1 of
    [month1] of the year (monthly plan) or of [month2] of the start year
    (yearly plan) to day 31 of [month2] of the year. *)
Theorem last_2_months_paid_iff (r : row) (invoices_df : list invoice)
  (cfg : last_2_months_config) (sid package_type v : cell) :
  row_item r "ID Suba STRIPE" = Return sid -> is_blank sid = false ->
  row_item r "Typ pakietu" = Return package_type ->
  cell_is package_type "miesięczny" = true \/
  cell_is package_type "roczny" = true ->
  calculate_invoice_status_last_2_months r invoices_df cfg = Return v ->
  (v = Str "paid" \/ v = Str "") /\
  (v = Str "paid" <->
   exists i, In i invoices_df /\
     in_window sid (window_start cfg package_type) (window_end cfg) i = true /\
     cell_is (Status_Faktury i) "paid" = true).
Proof.
  intros Hsid Hb Hpt Hplan. unfold calculate_invoice_status_last_2_months.
  rewrite Hsid. simpl. rewrite Hb, Hpt. simpl.
  assert (Hshape : forall s e,
    forall v0, Return (paid_if_any
      (filter (fun i => cell_eqb (ID_Subskrypcji i) sid
                        && dt_ge (Data_Utworzenia i) s
                        && dt_le (Data_Utworzenia i) e
                        && cell_is (Status_Faktury i) "paid") invoices_df))
      = Return v0 ->
    (v0 = Str "paid" \/ v0 = Str "") /\
    (v0 = Str "paid" <->
     exists i, In i invoices_df /\ in_window sid s e i = true /\
               cell_is (Status_Faktury i) "paid" = true)).
  { intros s e v0 [= <-].
    pose proof (filter_nonempty_iff
      (fun i => cell_eqb (ID_Subskrypcji i) sid
                && dt_ge (Data_Utworzenia i) s
                && dt_le (Data_Utworzenia i) e
                && cell_is (Status_Faktury i) "paid") invoices_df) as Hne.
    unfold in_window.
    destruct (filter _ invoices_df) as [|i l]; simpl.
    - split; [now right|]. split; [discriminate|].
      intros (i & Hi & Hw & Hp). exfalso. apply (proj2 Hne); [|reflexivity].
      exists i. split; [exact Hi|]. now rewrite Hw, Hp.
    - split; [now left|]. split; [|reflexivity]. intros _.
      destruct (proj1 Hne ltac:(discriminate)) as (i0 & Hi0 & Hf).
      apply andb_prop in Hf. destruct Hf as [Hw Hp].
      exists i0. repeat split; assumption. }
  unfold window_start, window_end.
  destruct (cell_is package_type "miesięczny") eqn:Hm.
  - destruct (dt (l2_year cfg) (l2_month1 cfg) 1) as [s|] eqn:Hs;
      simpl; [|discriminate].
    destruct (dt (l2_year cfg) (l2_month2 cfg) 31) as [e|] eqn:He;
      simpl; [|discriminate].
    apply dt_returns in Hs, He.
    destruct Hs as (_ & _ & _ & ->). destruct He as (_ & _ & _ & ->).
    apply Hshape.
  - destruct Hplan as [Hc|Hy]; [discriminate|]. rewrite Hy.
    destruct (dt (l2_yearly_subscription_start_year cfg) (l2_month2 cfg) 1)
      as [s|] eqn:Hs; simpl; [|discriminate].
    destruct (dt (l2_year cfg) (l2_month2 cfg) 31) as [e|] eqn:He;
      simpl; [|discriminate].
    apply dt_returns in Hs, He.
    destruct Hs as (_ & _ & _ & ->). destruct He as (_ & _ & _ & ->).
    apply Hshape.
Qed.

Lemma last_2_months_paid_iff_witness :
  (Str "paid" = Str "paid" \/ Str "paid" = Str "") /\
  (Str "paid" = Str "paid" <->
   exists i, In i [invoice_on 2024 7 15 "paid"] /\
     in_window (Str "sub_1")
       (window_start (mk_last_2_months_config 6 7 2025 2024) (Str "roczny"))
       (window_end (mk_last_2_months_config 6 7 2025 2024)) i = true /\
     cell_is (Status_Faktury i) "paid" = true).
Proof.
  apply (last_2_months_paid_iff yearly_row [invoice_on 2024 7 15 "paid"]
           (mk_last_2_months_config 6 7 2025 2024)
           (Str "sub_1") (Str "roczny") (Str "paid")).
  - reflexivity.
  - reflexivity.
  - reflexivity.
  - right. reflexivity.
  - reflexivity.
Defined.

(** The maximum of a column is one of its dates and no date is after
    it. *)
Lemma max_date_spec (l : list datetime) :
  forall d,
    In (max_date d l) (d :: l) /\
    forall x, In x (d :: l) -> dt_le x (max_date d l) = true.
Proof.
  unfold max_date. induction l as [|y l IH]; intros d; simpl.
  - split; [now left|]. intros x [<-|[]]. apply dt_le_refl.
  - destruct (IH (if dt_gt y d then y else d)) as [Hin Hmax].
    split.
    + destruct Hin as [He|Hin]; [|right; now right].
      rewrite <- He. destruct (dt_gt y d); [right|]; now left.
    + intros x Hx.
      assert (Hstep : dt_le d (if dt_gt y d then y else d) = true /\
                      dt_le y (if dt_gt y d then y else d) = true).
      { destruct (dt_gt y d) eqn:Hgt.
        - split; [|apply dt_le_refl].
          destruct (dt_le_total d y) as [H|H]; [exact H|].
          rewrite Status3Props.dt_le_gt, Hgt in H. discriminate.
        - split; [apply dt_le_refl|].
          rewrite Status3Props.dt_le_gt, Hgt. reflexivity. }
      destruct Hstep as [Hd Hy].
      destruct Hx as [<-|[<-|Hx]].
      * eapply dt_le_trans; [exact Hd|]. apply Hmax. now left.
      * eapply dt_le_trans; [exact Hy|]. apply Hmax. now left.
      * apply Hmax. now right.
Qed.

(** X15. Whenever [calculate_last_invoice_month] returns for a row with a
    Stripe reference, it returns the empty string if no paid invoice of
    the subscription counts for the plan type, and otherwise the Polish
    name of the month of such an invoice that none of the others is
    after. *)
Theorem last_invoice_month_is_latest (r : row) (invoices_df : list invoice)
  (cfg : last_invoice_config) (sid package_type v : cell) :
  row_item r "ID Suba STRIPE" = Return sid -> is_blank sid = false ->
  row_item r "Typ pakietu" = Return package_type ->
  calculate_last_invoice_month r invoices_df cfg = Return v ->
  (v = Str "" /\
   forall i, In i invoices_df -> counts cfg package_type sid i = false) \/
  (exists i, In i invoices_df /\ counts cfg package_type sid i = true /\
     v = Str (polish_months (month (Data_Utworzenia i))) /\
     forall i', In i' invoices_df -> counts cfg package_type sid i' = true ->
       dt_le (Data_Utworzenia i') (Data_Utworzenia i) = true).
Proof.
  intros Hsid Hb Hpt. unfold calculate_last_invoice_month.
  rewrite Hsid. simpl. rewrite Hb, Hpt. simpl.
  set (paid := filter (fun i => cell_eqb (ID_Subskrypcji i) sid
                                && cell_is (Status_Faktury i) "paid")
                 invoices_df).
  assert (Hsel : forall sel,
    (forall i, In i sel <-> In i invoices_df /\
                            counts cfg package_type sid i = true) ->
    forall v0,
    match sel with
    | [] => Return (Str "")
    | i :: rest =>
        Return (Str (polish_months
                       (month (max_date (Data_Utworzenia i)
                                 (map Data_Utworzenia rest)))))
    end = Return v0 ->
    (v0 = Str "" /\
     forall i, In i invoices_df -> counts cfg package_type sid i = false) \/
    (exists i, In i invoices_df /\ counts cfg package_type sid i = true /\
       v0 = Str (polish_months (month (Data_Utworzenia i))) /\
       forall i', In i' invoices_df ->
         counts cfg package_type sid i' = true ->
         dt_le (Data_Utworzenia i') (Data_Utworzenia i) = true)).
  { intros sel Hiff v0. destruct sel as [|i rest].
    - intros [= <-]. left. split; [reflexivity|].
      intros i Hi. destruct (counts cfg package_type sid i) eqn:Hc;
        [|reflexivity].
      exfalso. apply (proj2 (Hiff i)). now split.
    - intros [= <-]. right.
      destruct (max_date_spec (map Data_Utworzenia rest) (Data_Utworzenia i))
        as [Hin Hmax].
      change (Data_Utworzenia i :: map Data_Utworzenia rest)
        with (map Data_Utworzenia (i :: rest)) in Hin, Hmax.
      apply in_map_iff in Hin. destruct Hin as (i0 & He & Hi0).
      apply Hiff in Hi0. destruct Hi0 as [Hi0 Hc0].
      exists i0. split; [exact Hi0|]. split; [exact Hc0|].
      split; [now rewrite He|].
      intros i' Hi' Hc'. rewrite He. apply Hmax.
      apply in_map. apply Hiff. now split. }
  destruct (cell_is package_type "miesięczny") eqn:Hm; simpl.
  - apply Hsel. intros i. unfold paid, counts. rewrite Hm.
    rewrite !filter_In, !andb_true_iff. tauto.
  - destruct (cell_is package_type "roczny") eqn:Hy; simpl.
    + destruct (dt (li_yearly_subscription_start_year cfg) 1 1)
        as [s|] eqn:Hs; simpl; [|discriminate].
      apply dt_returns in Hs. destruct Hs as (_ & _ & _ & ->).
      apply Hsel. intros i. unfold paid, counts. rewrite Hm, Hy.
      rewrite !filter_In, !andb_true_iff. tauto.
    + apply Hsel. intros i. unfold paid, counts. rewrite Hm, Hy.
      rewrite !filter_In, !andb_true_iff. tauto.
Qed.

Lemma last_invoice_month_is_latest_witness :
  (Str "lipiec" = Str "" /\
   forall i, In i [invoice_on 2025 6 30 "paid"; invoice_on 2025 7 2 "paid";
                   invoice_on 2025 8 1 "open"] ->
     counts (mk_last_invoice_config 2025 2024) (Str "roczny") (Str "sub_1") i
     = false) \/
  (exists i, In i [invoice_on 2025 6 30 "paid"; invoice_on 2025 7 2 "paid";
                   invoice_on 2025 8 1 "open"] /\
     counts (mk_last_invoice_config 2025 2024) (Str "roczny") (Str "sub_1") i
     = true /\
     Str "lipiec" = Str (polish_months (month (Data_Utworzenia i))) /\
     forall i', In i' [invoice_on 2025 6 30 "paid"; invoice_on 2025 7 2 "paid";
                       invoice_on 2025 8 1 "open"] ->
       counts (mk_last_invoice_config 2025 2024) (Str "roczny") (Str "sub_1") i'
       = true ->
       dt_le (Data_Utworzenia i') (Data_Utworzenia i) = true).
Proof.
  apply (last_invoice_month_is_latest yearly_row
           [invoice_on 2025 6 30 "paid"; invoice_on 2025 7 2 "paid";
            invoice_on 2025 8 1 "open"]
           (mk_last_invoice_config 2025 2024)
           (Str "sub_1") (Str "roczny") (Str "lipiec")).
  - reflexivity.
  - reflexivity.
  - reflexivity.
  - reflexivity.
Defined.

End InvoicesMoreProps.


(** ** Validation of the fetched records *)

Module ValidateProps.
Import Nip Validate.

Lemma flat_map_nil_iff {A B : Type} (f : A -> list B) (l : list A) :
  flat_map f l = [] <-> forall x, In x l -> f x = [].
Proof.
  induction l as [|a l IH]; simpl.
  - split; [intros _ x []|reflexivity].
  - split.
    + intros H x [<-|Hx].
      * now apply app_eq_nil in H.
      * apply app_eq_nil in H. now apply IH.
    + intros H. rewrite (H a (or_introl eq_refl)). simpl.
      apply IH. intros x Hx. apply H. now right.
Qed.

Lemma filter_nil_iff {A : Type} (p : A -> bool) (l : list A) :
  filter p l = [] <-> forall x, In x l -> p x = false.
Proof.
  induction l as [|a l IH]; simpl.
  - split; [intros _ x []|reflexivity].
  - destruct (p a) eqn:Hp; split.
    + discriminate.
    + intros H. rewrite (H a (or_introl eq_refl)) in Hp. discriminate.
    + intros H x [<-|Hx]; [exact Hp|now apply IH].
    + intros H. apply IH. intros x Hx. apply H. now right.
Qed.

Lemma firstn_min_length {A : Type} (n : nat) (l : list A) :
  firstn (Nat.min n (List.length l)) l = firstn n l.
Proof.
  destruct (Nat.le_gt_cases n (List.length l)) as [H|H].
  - now rewrite Nat.min_l.
  - rewrite Nat.min_r by lia. rewrite firstn_all.
    symmetry. apply firstn_all2. lia.
Qed.

(** The verdict in terms of the first three records. *)
Lemma validate_spec (data : list (list (string * json))) (et : string) :
  validate_calendesk_data data et = true <->
  data <> [] /\
  forall record field,
    In record (firstn 3 data) -> In field (required_fields et) ->
    has_key record field = true.
Proof.
  unfold validate_calendesk_data.
  destruct data as [|r0 data]; [split; [discriminate|intros [H _]; now elim H]|].
  set (d := r0 :: data).
  destruct (required_fields et) as [|f0 fs] eqn:Hreq.
  - split; [|reflexivity]. intros _. split; [discriminate|]. intros _ _ _ [].
  - rewrite firstn_min_length. cbv zeta.
    set (missing := flat_map _ _).
    assert (Hm : missing = [] <->
                 forall record field,
                   In record (firstn 3 d) -> In field (f0 :: fs) ->
                   has_key record field = true).
    { unfold missing. rewrite flat_map_nil_iff. split.
      - intros H record field Hr Hf.
        specialize (H record Hr). rewrite filter_nil_iff in H.
        specialize (H field Hf). now apply negb_false_iff in H.
      - intros H record Hr. apply filter_nil_iff. intros field Hf.
        apply negb_false_iff. now apply H. }
    destruct missing as [|m ms].
    + split; [|reflexivity]. intros _. split; [discriminate|].
      now apply Hm.
    + split; [discriminate|]. intros [_ H]. apply Hm in H. discriminate.
Qed.

(** X16 ([validate_calendesk_data]): a fetched list is accepted exactly
    when it is not empty and each of its first three records has every
    field required for the endpoint; for an endpoint other than
    [subscriptions] and [users] nothing is required, so every non-empty
    list is accepted; and the records after the third never change the
    verdict. *)
Theorem validate_inspects_first_three
  (data : list (list (string * json))) (et : string) :
  (validate_calendesk_data data et = true <->
   data <> [] /\
   forall record field,
     In record (firstn 3 data) -> In field (required_fields et) ->
     has_key record field = true) /\
  (et <> "subscriptions" -> et <> "users" -> data <> [] ->
   validate_calendesk_data data et = true) /\
  (forall data',
     firstn 3 data' = firstn 3 data ->
     validate_calendesk_data data' et = validate_calendesk_data data et).
Proof.
  split; [apply validate_spec|]. split.
  - intros H1 H2 Hne. apply validate_spec. split; [exact Hne|].
    unfold required_fields.
    destruct (String.eqb_spec et "subscriptions") as [->|_]; [now elim H1|].
    destruct (String.eqb_spec et "users") as [->|_]; [now elim H2|].
    intros _ _ _ [].
  - intros data' Hfirst.
    assert (Hne : data' <> [] <-> data <> []).
    { destruct data', data; simpl in Hfirst; try discriminate;
        split; intros H; try exact H; discriminate. }
    destruct (validate_calendesk_data data et) eqn:Hv.
    + apply validate_spec in Hv as [Hd Hall]. apply validate_spec.
      rewrite Hfirst. split; [now apply Hne|exact Hall].
    + destruct (validate_calendesk_data data' et) eqn:Hv'; [|reflexivity].
      apply validate_spec in Hv' as [Hd Hall]. rewrite Hfirst in Hall.
      rewrite <- Hv. symmetry. apply validate_spec.
      split; [now apply Hne|exact Hall].
Qed.

End ValidateProps.

(** ** The CRM source *)

Module CrmProps.
Import Dates Nip Crm.





Section TaskPages.

Variable T : Type.
Variable post : Z -> crm_response T.

Lemma pages_upto_S (n : nat) :
  pages_upto (S n) = (pages_upto n ++ [Z.of_nat n])%list.
Proof.
  unfold pages_upto. rewrite seq_S, map_app. reflexivity.
Qed.

Lemma tasks_upto_S (n : nat) :
  tasks_upto post (S n) =
  (tasks_upto post n ++ tasks_at post (Z.of_nat n))%list.
Proof.
  unfold tasks_upto. rewrite pages_upto_S, map_app, concat_app. simpl.
  now rewrite app_nil_r.
Qed.

(** The loop walks over the pages that are answered with a page count
    above their own number. *)
Lemma fetch_tasks_loop_run (k fuel : nat) :
  (forall j, (j < k)%nat ->
     exists data,
       post (Z.of_nat j) = mk_crm_response 200 (Some data) /\
       Z.of_nat j < total_pages_of data) ->
  fetch_tasks_loop post (k + fuel) 0 [] [] =
  fetch_tasks_loop post fuel (Z.of_nat k) (pages_upto k) (tasks_upto post k).
Proof.
  revert fuel. induction k as [|k IH]; intros fuel H; [reflexivity|].
  replace (S k + fuel)%nat with (k + S fuel)%nat by lia.
  rewrite IH by (intros j Hj; apply H; lia).
  destruct (H k (Nat.lt_succ_diag_r k)) as (data & Hpost & Hlt).
  cbn [fetch_tasks_loop]. rewrite Hpost. cbn [crm_status_code crm_json].
  change (200 =? 200) with true. cbn [negb].
  destruct (Z.geb_spec (Z.of_nat k) (total_pages_of data)) as [Hge|_]; [lia|].
  rewrite pages_upto_S, tasks_upto_S.
  unfold tasks_at. rewrite Hpost. cbn [crm_json].
  replace (Z.of_nat (S k)) with (Z.of_nat k + 1) by lia.
  reflexivity.
Qed.

(** X18 ([fetch_tasks_by_status], all pages answered): against a server
    that answers the pages [0 .. n] with status 200 and the page count
    [n], the loop requests exactly the pages [0, 1, ..., n], that is
    [n + 1] of them, and returns their tasks in page order. *)
Theorem fetch_tasks_requests_pages_zero_to_count (n fuel : nat) :
  (forall j, (j <= n)%nat ->
     exists data,
       post (Z.of_nat j) = mk_crm_response 200 (Some data) /\
       total_pages_of data = Z.of_nat n) ->
  (n < fuel)%nat ->
  fetch_tasks_by_status post fuel =
  Some (Return (pages_upto (S n), tasks_upto post (S n))).
Proof.
  intros H Hfuel. unfold fetch_tasks_by_status.
  replace fuel with (n + S (fuel - S n))%nat by lia.
  rewrite fetch_tasks_loop_run.
  - destruct (H n (Nat.le_refl n)) as (data & Hpost & Htotal).
    cbn [fetch_tasks_loop]. rewrite Hpost. cbn [crm_status_code crm_json].
    change (200 =? 200) with true. cbn [negb].
    destruct (Z.geb_spec (Z.of_nat n) (total_pages_of data)) as [_|Hlt];
      [|lia].
    rewrite pages_upto_S, tasks_upto_S.
    unfold tasks_at. rewrite Hpost. reflexivity.
  - intros j Hj. destruct (H j) as (data & Hpost & Htotal); [lia|].
    exists data. split; [exact Hpost|lia].
Qed.

(** X19 ([fetch_tasks_by_status], a page fails): when the pages before
    page [k] are answered and page [k] is answered with a status other
    than 200, the loop stops there and returns the tasks of the pages
    before [k] as if they were all: no exception and no retry. *)
Theorem fetch_tasks_truncates_on_error (k fuel : nat) :
  (forall j, (j < k)%nat ->
     exists data,
       post (Z.of_nat j) = mk_crm_response 200 (Some data) /\
       Z.of_nat j < total_pages_of data) ->
  crm_status_code (post (Z.of_nat k)) <> 200 ->
  (k < fuel)%nat ->
  fetch_tasks_by_status post fuel =
  Some (Return (pages_upto (S k), tasks_upto post k)).
Proof.
  intros H Hfail Hfuel. unfold fetch_tasks_by_status.
  replace fuel with (k + S (fuel - S k))%nat by lia.
  rewrite fetch_tasks_loop_run by exact H.
  cbn [fetch_tasks_loop].
  destruct (Z.eqb_spec (crm_status_code (post (Z.of_nat k))) 200) as [He|_];
    [contradiction|].
  cbn [negb]. now rewrite pages_upto_S.
Qed.

End TaskPages.

Lemma fetch_tasks_requests_pages_zero_to_count_witness :
  fetch_tasks_by_status sample_post 5 =
  Some (Return ([0; 1; 2], [0; 1; 10; 11; 20; 21])).
Proof.
  apply (fetch_tasks_requests_pages_zero_to_count Z sample_post 2 5).
  - intros j Hj. eexists. split; reflexivity.
  - lia.
Defined.

Lemma fetch_tasks_truncates_on_error_witness :
  fetch_tasks_by_status sample_post_failing 5 =
  Some (Return ([0; 1], [0; 1])).
Proof.
  apply (fetch_tasks_truncates_on_error Z sample_post_failing 1 5).
  - intros j Hj. assert (j = 0%nat) as -> by lia.
    eexists. split; [reflexivity|]. vm_compute. reflexivity.
  - vm_compute. discriminate.
  - lia.
Defined.

Lemma collect_nips_spec (fetch_task_data : json -> option task)
  (tasks : list task) (nip : string) :
  In nip (collect_nips fetch_task_data tasks) ->
  nip <> "" /\
  exists t d,
    In t tasks /\
    fetch_task_data (match dict_get t "_id" with
                     | Some v => v
                     | None => JStr ""
                     end) = Some d /\
    extract_client_nip d = nip.
Proof.
  induction tasks as [|t rest IH]; simpl; [intros []|].
  intros H. apply in_app_or in H as [H|H].
  - destruct (fetch_task_data _) as [[|kv d]|] eqn:Hd;
      [destruct H| |destruct H].
    destruct (String.eqb_spec (extract_client_nip (kv :: d)) "") as [He|Hne];
      cbn [negb] in H; [destruct H|].
    destruct H as [<-|[]]. split; [exact Hne|].
    exists t, (kv :: d). split; [now left|]. split; [exact Hd|reflexivity].
  - destruct (IH H) as (Hne & t' & d & Ht & Hd & He).
    split; [exact Hne|]. exists t', d. split; [now right|]. now split.
Qed.

Lemma collect_nips_length (fetch_task_data : json -> option task)
  (tasks : list task) :
  (List.length (collect_nips fetch_task_data tasks) <= List.length tasks)%nat.
Proof.
  induction tasks as [|t rest IH]; simpl; [lia|].
  rewrite length_app.
  destruct (fetch_task_data _) as [[|kv d]|]; simpl; try lia.
  destruct (String.eqb _ ""); simpl; lia.
Qed.

(** X20 ([fetch_crm_data]): the list handed to the frame builder holds
    only non-empty identifiers, each the one [extract_client_nip] reads
    from the detail of a fetched task; and when the session cannot be
    opened, the project cannot be read or no status has the wanted name,
    the list is empty and no task is requested. *)
Theorem fetch_crm_data_identifiers (session_ok : bool)
  (project_data : option (list status)) (target_status : string)
  (post : string -> Z -> crm_response task)
  (fetch_task_data : json -> option task) (fuel : nat) :
  (forall nips,
     fetch_crm_data session_ok project_data target_status post
       fetch_task_data fuel = Some (Return nips) ->
     forall nip, In nip nips ->
       nip <> "" /\
       exists id d, fetch_task_data id = Some d /\
                    extract_client_nip d = nip) /\
  (session_ok = false \/ project_data = None \/
   (exists statuses, project_data = Some statuses /\
      forall s, In s statuses -> name_matches target_status s = false) ->
   fetch_crm_data session_ok project_data target_status post
     fetch_task_data fuel = Some (Return [])).
Proof.
  split.
  - intros nips H nip Hin. unfold fetch_crm_data in H.
    destruct session_ok; cbn [negb] in H;
      [|injection H as <-; destruct Hin].
    destruct project_data as [statuses|]; [|injection H as <-; destruct Hin].
    destruct (find_status_by_name statuses target_status) as [[id|]|e];
      [| injection H as <-; destruct Hin | discriminate].
    destruct (String.eqb id ""); [injection H as <-; destruct Hin|].
    destruct (fetch_tasks_by_status (post id) fuel) as [[[reqs ts]|e]|];
      try discriminate.
    destruct ts as [|t ts]; injection H as <-; [destruct Hin|].
    change (In nip (collect_nips fetch_task_data (t :: ts))) in Hin.
    destruct (collect_nips_spec _ _ _ Hin) as (Hne & t' & d & _ & Hd & He).
    split; [exact Hne|]. eexists _, d. split; [exact Hd|exact He].
  - intros [->|[->|(statuses & -> & Hnone)]]; unfold fetch_crm_data.
    + reflexivity.
    + now destruct session_ok.
    + destruct session_ok; [|reflexivity]. cbn [negb].
      assert (Hfind : find_status_by_name statuses target_status
                      = Return None).
      { clear -Hnone. induction statuses as [|s l IH]; [reflexivity|].
        simpl. rewrite (Hnone s (or_introl eq_refl)).
        apply IH. intros x Hx. apply Hnone. now right. }
      now rewrite Hfind.
Qed.

(** A run against the sample project: the status is found by its padded
    name, and the task without a company gives no identifier. *)
Example fetch_crm_data_sample :
  fetch_crm_data true (Some sample_statuses) "UMOWY TRADYCYJNE"
    sample_task_post sample_task_data 3
  = Some (Return ["0123456789"; "PL-1"]) /\
  fetch_crm_data true (Some sample_statuses) "ARCHIWUM"
    sample_task_post sample_task_data 3
  = Some (Return []).
Proof. split; vm_compute; reflexivity. Qed.

Lemma append_crm_app (df : list row) (nips : list string) :
  append_crm df (create_crm_dataframe nips)
  = (df ++ map crm_record nips)%list.
Proof.
  destruct nips as [|n nips]; simpl; [now rewrite app_nil_r|reflexivity].
Qed.

Lemma firstn_length_app {A : Type} (a b : list A) :
  firstn (List.length a) (a ++ b)%list = a.
Proof.
  induction a as [|x a IH]; simpl; [reflexivity|now rewrite IH].
Qed.

Lemma skipn_length_app {A : Type} (a b : list A) :
  skipn (List.length a) (a ++ b)%list = b.
Proof.
  induction a as [|x a IH]; simpl; [reflexivity|exact IH].
Qed.

(** X21 ([create_crm_dataframe] and the append in [main]): the CRM
    records are appended after the reconciled rows, which stay as they
    are, one row per identifier in the order of the list; such a row has
    the sentinel id 0 and the stored label [Nieokreślony], which is not
    what [calculate_status3] gives for it: the sentinel id counts as an
    identity and the missing expiration as open-ended, so the function
    would answer [Aktywna] at any time. *)
Theorem crm_rows_appended (df : list row) (nips : list string) :
  let out := append_crm df (create_crm_dataframe nips) in
  firstn (List.length df) out = df /\
  List.length out = (List.length df + List.length nips)%nat /\
  map (fun r => row_get r "NIP") (skipn (List.length df) out)
  = map Str nips /\
  forall r, In r (skipn (List.length df) out) ->
    row_get r "ID Subskrypcji Klienta" = Num 0 /\
    row_get r "Pakiet" = Str "UMOWA TRADYCYJNA" /\
    row_get r "Status3" = Str "Nieokreślony" /\
    forall strptime now,
      Status3.calculate_status3 strptime now r = Return "Aktywna".
Proof.
  cbv zeta. rewrite append_crm_app.
  rewrite firstn_length_app, skipn_length_app, length_app, length_map, map_map.
  split; [reflexivity|]. split; [reflexivity|]. split.
  - apply map_ext. intros nip. reflexivity.
  - intros r Hr. apply in_map_iff in Hr as (nip & <- & _).
    split; [reflexivity|]. split; [reflexivity|]. split; [reflexivity|].
    intros strptime now. reflexivity.
Qed.

End CrmProps.


(** ** The cursor-paginated invoice fetch *)

Module StripeProps.
Import Join Stripe.

Lemma apply_app {A B : Type} (f : A -> result B) (a b : list A) :
  apply f (a ++ b)%list =
  (x <- apply f a ;; y <- apply f b ;; Return (x ++ y)%list).
Proof.
  induction a as [|h a IH]; simpl.
  - destruct (apply f b); reflexivity.
  - destruct (f h) as [v|e]; simpl; [|reflexivity].
    rewrite IH. destruct (apply f a) as [x|e]; simpl; [|reflexivity].
    destruct (apply f b); reflexivity.
Qed.

Section Cursor.

Variables R P : Type.
Variable invoice_id : R -> string.
Variable process : R -> result P.
Variable get : option string -> stripe_response R.

Lemma response_eta (r : stripe_response R) :
  r = mk_stripe_response (stripe_status_code r) (stripe_json r).
Proof. now destruct r. Qed.

(** What a run of the limited loop has done when it returns. *)
Lemma fetch_stripe_all_loop_spec (remaining : nat) :
  forall starting_after requested processed_data reqs out,
    fetch_stripe_all_loop invoice_id process get remaining starting_after
      requested processed_data = Return (reqs, out) ->
    (remaining = 0%nat /\ reqs = requested /\ out = processed_data) \/
    exists rest page,
      reqs = (requested ++ starting_after :: rest)%list /\
      (List.length rest < remaining)%nat /\
      chained invoice_id get starting_after rest /\
      apply process
        (List.concat (map (page_at get) (starting_after :: rest)))
      = Return page /\
      out = (processed_data ++ page)%list.
Proof.
  induction remaining as [|n IH]; intros sa req acc reqs out H.
  - left. injection H as <- <-. now repeat split.
  - right. cbn [fetch_stripe_all_loop] in H.
    assert (Hstop : forall l, l = [] ->
              page_at get sa = l ->
              Return ((req ++ [sa])%list, acc) = Return (reqs, out) ->
              exists rest page,
                reqs = (req ++ sa :: rest)%list /\
                (List.length rest < S n)%nat /\
                chained invoice_id get sa rest /\
                apply process
                  (List.concat (map (page_at get) (sa :: rest)))
                = Return page /\
                out = (acc ++ page)%list).
    { intros l -> Hpage [= <- <-]. exists [], [].
      split; [reflexivity|]. split; [simpl; lia|]. split; [exact I|].
      split; [simpl; now rewrite Hpage|now rewrite app_nil_r]. }
    unfold page_at in Hstop.
    destruct (stripe_status_code (get sa) =? 200) eqn:Hcode; cbn [negb] in H;
      [|now apply (Hstop [])].
    destruct (stripe_json (get sa)) as [body|] eqn:Hjson; [|discriminate].
    destruct (data body) as [|i rest0] eqn:Hdata; [now apply (Hstop [])|].
    clear Hstop.
    destruct (apply process (i :: rest0)) as [page1|e] eqn:Hpage1;
      [|discriminate].
    cbn [bind] in H.
    assert (Hat : page_at get sa = i :: rest0).
    { unfold page_at. now rewrite Hcode, Hjson. }
    destruct (has_more body) eqn:Hmore.
    + apply IH in H as [(-> & -> & ->)|(rest & page & -> & Hlen & Hch & Hp & ->)].
      * exists [], page1. split; [reflexivity|]. split; [simpl; lia|].
        split; [exact I|]. split; [|reflexivity].
        simpl. now rewrite Hat, app_nil_r.
      * exists (Some (invoice_id (last rest0 i)) :: rest), (page1 ++ page)%list.
        split; [now rewrite <- app_assoc|]. split; [simpl; lia|].
        split.
        { split; [|exact Hch]. exists body, i, rest0.
          split; [|now repeat split].
          rewrite (response_eta (get sa)), Hjson.
          apply Z.eqb_eq in Hcode. now rewrite Hcode. }
        split; [|now rewrite app_assoc].
        change (List.concat (map (page_at get) (sa :: ?l)))
          with (page_at get sa ++ List.concat (map (page_at get) l))%list.
        rewrite apply_app, Hat, Hpage1. cbn [bind]. rewrite Hp. reflexivity.
    + injection H as <- <-. exists [], page1.
      split; [reflexivity|]. split; [simpl; lia|]. split; [exact I|].
      split; [|reflexivity]. simpl. now rewrite Hat, app_nil_r.
Qed.

(** X22 ([fetch_stripe_invoices_all]): when the fetch returns, it has
    made between one and ten requests; the first carries no cursor and
    each later one carries the id of the last invoice of the page before
    it, which was not empty and announced more; and the result is the
    processed invoices of the pages requested, in order. *)
Theorem stripe_fetch_follows_cursor
  (reqs : list (option string)) (out : list P) :
  fetch_stripe_invoices_all invoice_id process get = Return (reqs, out) ->
  exists rest,
    reqs = None :: rest /\
    (List.length reqs <= 10)%nat /\
    chained invoice_id get None rest /\
    apply process (List.concat (map (page_at get) reqs)) = Return out.
Proof.
  intros H. unfold fetch_stripe_invoices_all in H.
  apply fetch_stripe_all_loop_spec in H
    as [(Hmax & _)|(rest & page & -> & Hlen & Hch & Hp & ->)];
    [discriminate Hmax|].
  exists rest. split; [reflexivity|]. split.
  - unfold max_pages in Hlen. simpl. lia.
  - split; [exact Hch|exact Hp].
Qed.

Lemma fetch_stripe_loop_requests (fuel : nat) :
  forall starting_after requested processed_data reqs out,
    fetch_stripe_loop invoice_id process get fuel starting_after
      requested processed_data = Some (Return (reqs, out)) ->
    (List.length requested < List.length reqs)%nat.
Proof.
  induction fuel as [|n IH]; intros sa req acc reqs out H; [discriminate|].
  cbn [fetch_stripe_loop] in H.
  assert (Hlen : List.length (req ++ [sa])%list = S (List.length req))
    by (rewrite length_app; simpl; lia).
  destruct (negb (stripe_status_code (get sa) =? 200));
    [injection H as <- _; lia|].
  destruct (stripe_json (get sa)) as [body|]; [|discriminate].
  destruct (apply process (data body)) as [page|e]; [|discriminate].
  destruct (data body) as [|i rest]; [injection H as <- _; lia|].
  destruct (has_more body); [|injection H as <- _; lia].
  apply IH in H. lia.
Qed.

Lemma fetch_stripe_loop_within (fuel : nat) :
  forall remaining starting_after requested processed_data reqs out,
    fetch_stripe_loop invoice_id process get fuel starting_after
      requested processed_data = Some (Return (reqs, out)) ->
    (List.length reqs <= List.length requested + remaining)%nat ->
    fetch_stripe_all_loop invoice_id process get remaining starting_after
      requested processed_data = Return (reqs, out).
Proof.
  induction fuel as [|n IH]; intros k sa req acc reqs out H Hk;
    [discriminate|].
  destruct k as [|k].
  - apply fetch_stripe_loop_requests in H. lia.
  - cbn [fetch_stripe_loop] in H. cbn [fetch_stripe_all_loop].
    destruct (negb (stripe_status_code (get sa) =? 200));
      [now injection H as <- <-|].
    destruct (stripe_json (get sa)) as [body|]; [|discriminate].
    destruct (data body) as [|i rest] eqn:Hdata.
    + cbn [apply] in H. injection H as <- <-. now rewrite app_nil_r.
    + destruct (apply process (i :: rest)) as [page|e]; [|discriminate].
      cbn [bind]. destruct (has_more body); [|now injection H as <- <-].
      apply IH; [exact H|]. rewrite length_app. simpl. lia.
Qed.

End Cursor.

Section Filter.

Variables R P : Type.
Variable invoice_id : R -> string.
Variable process : R -> result P.
Variable api : params -> stripe_response R.

(** X23 ([fetch_stripe_invoices] against [fetch_stripe_invoices_all]):
    the enhanced fetcher filters from 1 June 2025, a timestamp of
    1748736000.  When the configured filter date of
    [fetch_stripe_invoices_all] is that date, then whenever the unlimited
    fetch returns after at most ten requests, the limited fetch sends the
    same requests, with the same filter and cursors, and returns the same
    invoices; the two differ only past the tenth page. *)
Theorem stripe_limited_fetch_agrees (filter_config : filter_date)
  (fuel : nat) (reqs : list (option string)) (out : list P) :
  filter_timestamp filter_config = filter_timestamp enhanced_filter_date ->
  fetch_stripe_invoices invoice_id process api fuel
  = Some (Return (reqs, out)) ->
  (List.length reqs <= 10)%nat ->
  filter_timestamp enhanced_filter_date = Return 1748736000 /\
  fetch_stripe_invoices_all_configured invoice_id process filter_config api
  = Return (reqs, out).
Proof.
  intros Hfilter H Hlen. split; [reflexivity|].
  unfold fetch_stripe_invoices_all_configured. rewrite Hfilter.
  unfold fetch_stripe_invoices in H.
  destruct (filter_timestamp enhanced_filter_date) as [ts|e];
    [|discriminate]. cbn [bind].
  unfold fetch_stripe_invoices_all, max_pages.
  apply (fetch_stripe_loop_within R P invoice_id process (request api ts)
           fuel);
    [exact H|simpl; lia].
Qed.

End Filter.

Lemma stripe_fetch_follows_cursor_witness :
  exists rest,
    [None; Some "b"; Some "c"] = None :: rest /\
    (List.length [None; Some "b"; Some "c"] <= 10)%nat /\
    chained (fun i : string => i) sample_get None rest /\
    apply (fun i : string => Return i)
      (List.concat
         (map (page_at sample_get) [None; Some "b"; Some "c"]))
    = Return ["a"; "b"; "c"; "d"; "e"].
Proof.
  apply (stripe_fetch_follows_cursor string string (fun i => i)
           (fun i => Return i) sample_get).
  reflexivity.
Defined.

Lemma stripe_limited_fetch_agrees_witness :
  filter_timestamp enhanced_filter_date = Return 1748736000 /\
  fetch_stripe_invoices_all_configured (fun i : string => i)
    (fun i : string => Return i) (mk_filter_date 2025 6 1) sample_api
  = Return ([None; Some "b"; Some "c"], ["a"; "b"; "c"; "d"; "e"]).
Proof.
  apply (stripe_limited_fetch_agrees string string (fun i => i)
           (fun i => Return i) sample_api (mk_filter_date 2025 6 1) 5).
  - reflexivity.
  - reflexivity.
  - simpl. lia.
Defined.

(** With another configured date the two fetchers do not send the same
    first request. *)
Example stripe_filters_differ :
  filter_timestamp (mk_filter_date 2025 1 1) = Return 1735689600 /\
  fetch_stripe_invoices_all_configured (fun i : string => i)
    (fun i : string => Return i) (mk_filter_date 2025 1 1) sample_api
  = Return ([None], []) /\
  fetch_stripe_invoices (fun i : string => i) (fun i : string => Return i)
    sample_api 5
  = Some (Return ([None; Some "b"; Some "c"], ["a"; "b"; "c"; "d"; "e"])) /\
  filter_timestamp (mk_filter_date 2025 2 30) = Raise ValueError.
Proof. repeat split. Qed.

End StripeProps.


(** ** What the page fetchers have read *)

Module FetchedProps.
Import PyJson Http Fetched.

Section Server.

Variable server : Z -> nat -> outcome Nip.json.

Lemma records_upto_S (m : nat) :
  records_upto server (S m) =
  (records_upto server m ++ records_at server (Z.of_nat (S m)))%list.
Proof.
  unfold records_upto. rewrite seq_S, map_app, concat_app. simpl.
  now rewrite app_nil_r.
Qed.

Lemma answered_records (i : nat) (p : list Nip.json) (tp : Z) :
  answered server i p tp -> records_at server (Z.of_nat i) = p.
Proof.
  intros (d & Hreq & Hdata & _). unfold records_at.
  rewrite Hreq. simpl. now rewrite Hdata.
Qed.

Lemma fetch_loop_prefix (fuel : nat) :
  forall (done : nat) (tp : Nip.json) (acc : list Nip.json),
    acc = records_upto server done ->
    match fetch_loop server fuel (Z.of_nat (done + 1)) tp acc with
    | Some (Return (out, _)) => exists m, out = records_upto server m
    | _ => True
    end.
Proof.
  induction fuel as [|fuel IH]; intros done tp acc Hacc.
  - cbn [fetch_loop].
    destruct (int_le (Z.of_nat (done + 1)) tp) as [[|]|e]; cbn [lift];
      try exact I. now exists done.
  - cbn [fetch_loop].
    destruct (int_le (Z.of_nat (done + 1)) tp) as [[|]|e]; cbn [lift];
      [|now exists done|exact I].
    pose proof (records_upto_S done) as HS. unfold records_at in HS.
    replace (Z.of_nat (S done)) with (Z.of_nat (done + 1)) in HS by lia.
    destruct (ok (request_page server (Z.of_nat (done + 1)))) as [r|];
      [|now exists done].
    destruct (response_json r) as [b|e]; cbn [lift bind] in *; [|exact I].
    destruct (get b "data" (Nip.JList [])) as [data|e];
      cbn [lift bind] in *; [|exact I].
    destruct (truth data); [|now exists done].
    destruct (iter data) as [items|e]; cbn [lift] in *; [|exact I].
    assert (Hnext : (acc ++ items)%list = records_upto server (S done))
      by now rewrite HS, Hacc.
    destruct (get b "last_page" tp) as [tp'|e]; cbn [lift]; [|exact I].
    destruct (get b "next_page_url" Nip.JNull) as [url|e]; cbn [lift];
      [|exact I].
    destruct (if negb (truth url)
              then int_ge (Z.of_nat (done + 1)) tp'
              else Return false) as [[|]|e]; cbn [lift]; [| |exact I].
    + now exists (S done).
    + replace (Z.of_nat (done + 1) + 1) with (Z.of_nat (S done + 1)) by lia.
      now apply IH.
Qed.

Lemma fetch_all_loop_page_prefix (fuel : nat) :
  forall (done : nat) (acc : list Nip.json),
    (done <= 10)%nat ->
    acc = records_upto server done ->
    match fetch_all_loop server fuel (Z.of_nat (done + 1)) acc with
    | Return (out, _) =>
        exists m, (m <= 10)%nat /\ out = records_upto server m
    | Raise _ => True
    end.
Proof.
  induction fuel as [|fuel IH]; intros done acc Hdone Hacc.
  - simpl. now exists done.
  - cbn [fetch_all_loop]. unfold max_pages.
    destruct (Z.leb_spec (Z.of_nat (done + 1)) 10) as [Hle|_];
      [|now exists done].
    pose proof (records_upto_S done) as HS. unfold records_at in HS.
    replace (Z.of_nat (S done)) with (Z.of_nat (done + 1)) in HS by lia.
    destruct (ok (request_page server (Z.of_nat (done + 1)))) as [r|];
      [|now exists done].
    destruct (response_json r) as [b|e]; cbn [bind] in *; [|exact I].
    destruct (get b "data" (Nip.JList [])) as [data|e];
      cbn [bind] in *; [|exact I].
    destruct (truth data); [|now exists done].
    destruct (iter data) as [items|e]; cbn [bind] in *; [|exact I].
    replace (Z.of_nat (done + 1) + 1) with (Z.of_nat (S done + 1)) by lia.
    apply IH; [lia|]. now rewrite HS, Hacc.
Qed.

(** X24 ([fetch_calendesk_data] and [fetch_calendesk_data_all]):
    whatever the server answers, whenever a fetch returns, the records
    returned are those taken from the pages 1 to [m] for some [m], each
    page once and in page order: no page is skipped, repeated or
    reordered.  For [fetch_calendesk_data_all], [m] is at most ten. *)
Theorem fetched_records_are_page_prefix (fuel : nat) :
  match fetch_calendesk_data server fuel with
  | Some (Return (out, _)) => exists m, out = records_upto server m
  | _ => True
  end /\
  match fetch_calendesk_data_all server with
  | Return (out, _) => exists m, (m <= 10)%nat /\ out = records_upto server m
  | Raise _ => True
  end.
Proof.
  split.
  - unfold fetch_calendesk_data.
    pose proof (records_upto_S 0) as HS. unfold records_at in HS.
    change (Z.of_nat 1) with 1 in HS.
    destruct (ok (request_page server 1)) as [r|]; [|now exists 0%nat].
    destruct (response_json r) as [b|e]; cbn [lift bind] in *; [|exact I].
    destruct (get b "last_page" (Nip.JInt 1)) as [tp|e]; cbn [lift];
      [|exact I].
    destruct (get b "total" (Nip.JInt 0)) as [total|e]; cbn [lift];
      [|exact I].
    destruct (get b "data" (Nip.JList [])) as [data|e];
      cbn [lift bind] in *; [|exact I].
    destruct (iter data) as [items|e]; cbn [lift] in *; [|exact I].
    assert (H1 : items = records_upto server 1) by now rewrite HS.
    destruct (le_int tp 1) as [[|]|e]; cbn [lift];
      [now exists 1%nat| |exact I].
    pose proof (fetch_loop_prefix fuel 1 tp items H1) as Hloop.
    change (Z.of_nat (1 + 1)) with 2 in Hloop.
    destruct (fetch_loop server fuel 2 tp items) as [[[out diags]|e]|];
      [|exact I|exact I].
    destruct (validate total out) as [shortfall|e]; cbn [lift]; [|exact I].
    destruct (dataset_summary out) as [u|e]; cbn [lift]; [|exact I].
    exact Hloop.
  - unfold fetch_calendesk_data_all.
    apply (fetch_all_loop_page_prefix _ 0); [lia|reflexivity].
Qed.

(** A server that declares one more page in every answer. *)
Hypothesis count_grows :
  forall i, (1 <= i)%nat ->
    exists p, p <> [] /\ answered server i p (Z.of_nat i + 1).

Lemma fetch_loop_runs_on (fuel : nat) :
  forall (done : nat) (acc : list Nip.json),
    (1 <= done)%nat ->
    fetch_loop server fuel (Z.of_nat (done + 1))
      (Nip.JInt (Z.of_nat done + 1)) acc
    = None.
Proof.
  induction fuel as [|fuel IH]; intros done acc Hdone.
  - cbn [fetch_loop]. rewrite HttpProps.int_le_int.
    destruct (Z.leb_spec (Z.of_nat (done + 1)) (Z.of_nat done + 1));
      [reflexivity|lia].
  - destruct (count_grows (done + 1)) as (p & Hp & Hans); [lia|].
    destruct (HttpProps.fetch_loop_step server (done + 1) fuel p acc
                (Z.of_nat (done + 1) + 1) (Z.of_nat done + 1) Hans Hp
                ltac:(lia)) as (stop & Hstop & ->).
    destruct stop; [specialize (Hstop eq_refl); lia|].
    replace (Z.of_nat (done + 1) + 1) with (Z.of_nat (S done + 1)) at 1
      by lia.
    replace (Z.of_nat (done + 1) + 1) with (Z.of_nat (S done) + 1) by lia.
    apply IH. lia.
Qed.

Lemma fetch_all_loop_runs_on (n : nat) :
  forall (done fuel : nat) (acc : list Nip.json),
    (done + n <= 10)%nat ->
    fetch_all_loop server (n + fuel) (Z.of_nat (done + 1)) acc
    = fetch_all_loop server fuel (Z.of_nat (done + n + 1))
        (acc ++ List.concat
                  (map (fun i => records_at server (Z.of_nat i))
                     (seq (done + 1) n)))%list.
Proof.
  induction n as [|n IH]; intros done fuel acc Hn.
  - simpl. rewrite app_nil_r.
    now replace (done + 0 + 1)%nat with (done + 1)%nat by lia.
  - destruct (count_grows (done + 1)) as (p & Hp & Hans); [lia|].
    cbn [Nat.add].
    rewrite (HttpProps.fetch_all_loop_step server _ _ _ _ _ Hans Hp)
      by lia.
    replace (Z.of_nat (done + 1) + 1) with (Z.of_nat (S done + 1)) by lia.
    rewrite (IH (S done) fuel) by lia.
    cbn [seq map List.concat].
    rewrite (answered_records _ _ _ Hans), <- app_assoc.
    replace (S done + 1)%nat with (S (done + 1)) by lia.
    now replace (S done + n + 1)%nat with (done + S n + 1)%nat by lia.
Qed.

Lemma records_upto_length (m : nat) :
  (m <= List.length (records_upto server m))%nat.
Proof.
  induction m as [|m IH]; [simpl; lia|].
  rewrite records_upto_S, length_app.
  destruct (count_grows (S m)) as (p & Hp & Hans); [lia|].
  rewrite (answered_records _ _ _ Hans).
  destruct p; [now elim Hp|simpl; lia].
Qed.

(** X25 ([fetch_calendesk_data] has no page limit of its own): against a
    server that declares one more page in every answer, the dynamic
    fetch never returns, however many iterations it is given, while
    [fetch_calendesk_data_all] stops after its ten pages and returns
    their records, at least ten. *)
Theorem fetch_never_ends_when_count_grows :
  (forall fuel, fetch_calendesk_data server fuel = None) /\
  fetch_calendesk_data_all server = Return (records_upto server 10, []) /\
  (10 <= List.length (records_upto server 10))%nat.
Proof.
  split; [|split].
  - intros fuel. unfold fetch_calendesk_data.
    destruct (count_grows 1) as (p & Hp & d & Hreq & Hdata & Hlast); [lia|].
    change (Z.of_nat 1) with 1 in Hreq. rewrite Hreq. simpl.
    rewrite Hlast, Hdata. cbn [lift iter].
    unfold le_int. rewrite HttpProps.int_ge_int.
    change (Z.of_nat 1 + 1 <=? 1) with false. cbn [lift].
    pose proof (fetch_loop_runs_on fuel 1 p) as Hloop.
    change (Z.of_nat (1 + 1)) with 2 in Hloop.
    now rewrite Hloop.
  - unfold fetch_calendesk_data_all.
    change (S (Z.to_nat max_pages)) with (10 + 1)%nat.
    pose proof (fetch_all_loop_runs_on 10 0 1 [] ltac:(lia)) as Hrun.
    change (Z.of_nat (0 + 1)) with 1 in Hrun. rewrite Hrun.
    reflexivity.
  - apply records_upto_length.
Qed.

End Server.

Lemma fetch_never_ends_when_count_grows_witness :
  (forall fuel, fetch_calendesk_data growing fuel = None) /\
  fetch_calendesk_data_all growing = Return (map record (map Z.of_nat (seq 1 10)), []).
Proof.
  destruct (fetch_never_ends_when_count_grows growing) as (H1 & H2 & _).
  - intros i Hi. exists [record (Z.of_nat i)]. split; [discriminate|].
    eexists. split; [reflexivity|]. split; reflexivity.
  - split; [exact H1|]. rewrite H2. reflexivity.
Defined.

End FetchedProps.

(** ** Column ranges *)

Module ColumnsProps.
Import Sheet Columns.

Lemma split_colon_aux_last (a cur : string) :
  no_colon a = true -> split_colon_aux cur a = [cur ++ a].
Proof.
  revert cur. induction a as [|c a IH]; intros cur H; simpl.
  - now rewrite append_nil_r.
  - simpl in H. apply andb_prop in H as [Hc Ha].
    apply negb_true_iff in Hc. rewrite Hc, (IH _ Ha), append_assoc.
    reflexivity.
Qed.

Lemma split_colon_aux_first (a s cur : string) :
  no_colon a = true ->
  split_colon_aux cur (a ++ ":" ++ s) = (cur ++ a) :: split_colon_aux "" s.
Proof.
  revert cur. induction a as [|c a IH]; intros cur H; simpl.
  - now rewrite append_nil_r.
  - simpl in H. apply andb_prop in H as [Hc Ha].
    apply negb_true_iff in Hc. rewrite Hc, (IH _ Ha), append_assoc.
    reflexivity.
Qed.

Lemma range_not_empty (a s : string) :
  String.eqb (a ++ ":" ++ s) "" = false.
Proof. destruct a; reflexivity. Qed.

(** X26 ([clear_excel_worksheet], the column range): a range [a:b]
    clears [a2:b15000]; parts after a second colon are ignored; a range
    without a colon, such as a single column, raises an [IndexError]
    instead of clearing anything; and no range, or an empty one, clears
    the rows 2 to 15000. *)
Theorem clear_range_columns :
  (forall a b, no_colon a = true -> no_colon b = true ->
     clear_range (Some (a ++ ":" ++ b))
     = Return (a ++ "2:" ++ b ++ "15000")) /\
  (forall a b rest, no_colon a = true -> no_colon b = true ->
     clear_range (Some (a ++ ":" ++ b ++ ":" ++ rest))
     = Return (a ++ "2:" ++ b ++ "15000")) /\
  (forall cr, cr <> "" -> no_colon cr = true ->
     clear_range (Some cr) = Raise IndexError) /\
  clear_range None = Return "2:15000" /\
  clear_range (Some "") = Return "2:15000".
Proof.
  split; [|split; [|split; [|split; reflexivity]]].
  - intros a b Ha Hb. unfold clear_range, split_colon.
    rewrite range_not_empty, (split_colon_aux_first a b "" Ha).
    rewrite (split_colon_aux_last b "" Hb). reflexivity.
  - intros a b rest Ha Hb. unfold clear_range, split_colon.
    rewrite range_not_empty, (split_colon_aux_first a _ "" Ha).
    rewrite (split_colon_aux_first b rest "" Hb). reflexivity.
  - intros cr Hne Hcr. unfold clear_range, split_colon.
    destruct (String.eqb_spec cr "") as [He|_]; [contradiction|].
    rewrite (split_colon_aux_last cr "" Hcr). reflexivity.
Qed.

End ColumnsProps.
